(** * EduLog: a shallow embedding of [app.py] and its properties

    The application keeps five tables (Department, User, Meeting, Task,
    Schedule) and serves views over them, each behind a login and some
    behind a role check.  Tables are lists of rows in storage order, a query
    without [order_by] is a [filter] over that list, and a view is a function
    of the database, the session and the request.

    Conventions.
    - A Python [str] is a [string] whose characters are code points below 256.
    - A Python [int] is a [Z]; a Python [float] is a binary64 number
      ([spec_float] at precision 53, [emax] 1024).
    - A column the routes always write with a string is a [string]; a column
      filled from [request.form.get] (which may be [None]) is an
      [option string], [None] standing for SQL NULL.
    - String comparison in queries is the bytewise one of the default local
      store. *)

From Stdlib Require Import ZArith List String Ascii Bool Lia SpecFloat.
Import ListNotations.

Local Open Scope string_scope.
Local Open Scope list_scope.

(** ** Python primitives used by the views *)

Module Py.

Inductive exn : Type :=
| KeyError (key : string)
| IntegrityError (constraint : string)
| ZeroDivisionError
| OverflowError
| ValueError
| PendingRollbackError.

Inductive result (A : Type) : Type :=
| Ok (a : A)
| Raise (e : exn).
Arguments Ok {A} a.
Arguments Raise {A} e.

Definition bind {A B} (m : result A) (k : A -> result B) : result B :=
  match m with
  | Ok a => k a
  | Raise e => Raise e
  end.

(** *** Strings *)

(** [str.isspace] on one character, for code points below 256. *)
Definition isspace (c : ascii) : bool :=
  let n := nat_of_ascii c in
  ((9 <=? n) && (n <=? 13) || (28 <=? n) && (n <=? 32)
   || (n =? 133) || (n =? 160))%nat.

Fixpoint lstrip (s : string) : string :=
  match s with
  | EmptyString => EmptyString
  | String c r => if isspace c then lstrip r else s
  end.

Fixpoint rstrip (s : string) : string :=
  match s with
  | EmptyString => EmptyString
  | String c r =>
      match rstrip r with
      | EmptyString => if isspace c then EmptyString else String c EmptyString
      | r' => String c r'
      end
  end.

Definition strip (s : string) : string := rstrip (lstrip s).

(** Truth value of a string: non-empty. *)
Definition truthy (s : string) : bool :=
  match s with
  | EmptyString => false
  | String _ _ => true
  end.

(** [s.split(sep)] for a one-character separator: never the empty list. *)
Fixpoint split (sep : ascii) (s : string) : list string :=
  match s with
  | EmptyString => [EmptyString]
  | String c r =>
      if Ascii.eqb c sep then EmptyString :: split sep r
      else match split sep r with
           | [] => [String c EmptyString]
           | piece :: pieces => String c piece :: pieces
           end
  end.

(** [sub in s] *)
Fixpoint contains (sub s : string) : bool :=
  String.prefix sub s
  || match s with
     | EmptyString => false
     | String _ r => contains sub r
     end.

(** *** Numbers *)

Definition float : Type := spec_float.

Definition float_of_int (n : Z) : float := binary_normalize 53 1024 n 0 false.

(** [a / b] on integers.  The quotient of the two converted operands is the
    correctly rounded quotient as long as both are below [2^53]. *)
Definition truediv (a b : Z) : result float :=
  if (b =? 0)%Z then Raise ZeroDivisionError
  else Ok (SFdiv 53 1024 (float_of_int a) (float_of_int b)).

(** [x * n] for a float [x] and an integer [n]. *)
Definition mul_int (x : float) (n : Z) : float :=
  SFmul 53 1024 x (float_of_int n).

(** [int(x)]: truncation towards zero. *)
Definition int (x : float) : result Z :=
  match x with
  | S754_zero _ => Ok 0%Z
  | S754_finite s m e =>
      Ok (cond_Zopp s
            match e with
            | Zneg p => Z.shiftr (Zpos m) (Zpos p)
            | _ => Z.shiftl (Zpos m) e
            end)
  | S754_infinity _ => Raise OverflowError
  | S754_nan => Raise ValueError
  end.

(** [int((part/total)*100) if total > 0 else 0], the expression of
    [leader_dashboard] (rate) and of [meeting_analytics] (efficiency). *)
Definition int_percent (part total : Z) : result Z :=
  if (total >? 0)%Z
  then bind (truediv part total) (fun q => int (mul_int q 100))
  else Ok 0%Z.

(** *** Dictionaries: insertion-ordered association lists *)

Section Dict.
Context {K V : Type} (eqb : K -> K -> bool).

Fixpoint get (d : list (K * V)) (k : K) (default : V) : V :=
  match d with
  | [] => default
  | (k', v) :: d' => if eqb k' k then v else get d' k default
  end.

(** [d[k] = v]: an existing key keeps its position, a new key goes last. *)
Fixpoint set (d : list (K * V)) (k : K) (v : V) : list (K * V) :=
  match d with
  | [] => [(k, v)]
  | (k', v') :: d' =>
      if eqb k' k then (k', v) :: d' else (k', v') :: set d' k v
  end.

Fixpoint lookup (d : list (K * V)) (k : K) : option V :=
  match d with
  | [] => None
  | (k', v) :: d' => if eqb k' k then Some v else lookup d' k
  end.
End Dict.

(** [sorted(items, key=key)]: a stable sort, written as insertion sort.
    [insert] puts an item before the first item whose key is not smaller,
    so of two items with equal keys the earlier one stays first. *)
Section Sorted.
Context {A : Type} (key : A -> Z).

Fixpoint insert (x : A) (l : list A) : list A :=
  match l with
  | [] => [x]
  | y :: l' =>
      if (key x <=? key y)%Z then x :: y :: l' else y :: insert x l'
  end.

Fixpoint sorted (l : list A) : list A :=
  match l with
  | [] => []
  | x :: l' => insert x (sorted l')
  end.
End Sorted.

End Py.

Notation "x <- m ;; k" := (Py.bind m (fun x => k))
  (at level 61, m at next level, right associativity).

(** ** Models: the five tables *)

Module Department.
Record t : Type := Build { id : Z; name : string }.
End Department.

Module User.
Record t : Type := Build {
  id : Z;
  username : string;
  password_hash : string;
  full_name : string;
  role : string;
  department : string;
  designation : string
}.
End User.

Module Meeting.
Record t : Type := Build {
  id : Z;
  date_of_meeting : option string;
  department : option string;
  department_head : option string;
  meeting_type : option string;
  mode : option string;
  objective : option string;
  agenda : option string;
  start_time : option string;
  end_time : option string;
  attendees : string;
  absentees : string;
  key_decisions : option string;
  action_items : option string;
  productive : option string;
  productivity_reason : option string;
  submitted_by : option string
}.
End Meeting.

Module Task.
Record t : Type := Build {
  id : Z;
  title : string;
  description : string;
  assigner : string;
  assignee : string;
  department : string;
  deadline : string;
  status : string;
  completion_date : option string
}.

Definition with_status (x : t) (s : string) : t :=
  Build (id x) (title x) (description x) (assigner x) (assignee x)
        (department x) (deadline x) s (completion_date x).

Definition with_completion_date (x : t) (d : option string) : t :=
  Build (id x) (title x) (description x) (assigner x) (assignee x)
        (department x) (deadline x) (status x) d.
End Task.

Module Schedule.
Record t : Type := Build {
  id : Z;
  title : string;
  target_dept : string;
  date : string;
  time : string;
  mode : string;
  created_by : string
}.
End Schedule.

Record Db : Type := {
  departments : list Department.t;
  users : list User.t;
  meetings : list Meeting.t;
  tasks : list Task.t;
  schedules : list Schedule.t
}.

(** The signed cookie session: the logged-in user's id (Flask-Login), the
    [notifications_cleared] flag and the flashed messages. *)
Record Session : Type := {
  user_id : option Z;
  notifications_cleared : bool;
  flashes : list (string * string)
}.

Record World : Type := { db : Db; session : Session }.

Record Request : Type := {
  method : string;
  form : list (string * string);
  args : list (string * string);
  referrer : option string
}.

(** What a view hands back to the client. *)
Inductive response (P : Type) : Type :=
| Render (template : string) (context : P) (notifications : list string)
| Redirect (endpoint : string)
| RedirectBack (location : option string)
| SendFile (download_name : string) (body : P)
| Abort (code : Z)
| Raised (e : Py.exn).
Arguments Render {P} template context notifications.
Arguments Redirect {P} endpoint.
Arguments RedirectBack {P} location.
Arguments SendFile {P} download_name body.
Arguments Abort {P} code.
Arguments Raised {P} e.

(** ** Queries *)

(** [request.form[k]]: a missing key raises. *)
Definition form_item (req : Request) (k : string) : Py.result string :=
  match Py.lookup String.eqb (form req) k with
  | Some v => Py.Ok v
  | None => Py.Raise (Py.KeyError k)
  end.

(** [request.args.get(k)] *)
Definition args_get (req : Request) (k : string) : option string :=
  Py.lookup String.eqb (args req) k.

(** A nullable column compared with a value: NULL equals nothing. *)
Definition sql_eq (col : option string) (v : string) : bool :=
  match col with
  | Some x => String.eqb x v
  | None => false
  end.

(** Python [==] between a possibly-[None] attribute and a string. *)
Definition py_eq (x : option string) (v : string) : bool :=
  match x with
  | Some s => String.eqb s v
  | None => false
  end.

Definition option_eqb (x y : option string) : bool :=
  match x, y with
  | Some a, Some b => String.eqb a b
  | None, None => true
  | _, _ => false
  end.

(** [Model.query.get(i)], for a key in the store's 64-bit range; what a
    lookup of a larger integer does depends on the database driver. *)
Definition query_get {A} (pk : A -> Z) (table : list A) (i : Z) : option A :=
  find (fun r => (pk r =? i)%Z) table.

(** [DELETE FROM table WHERE id = i] *)
Definition delete_row {A} (pk : A -> Z) (table : list A) (i : Z) : list A :=
  filter (fun r => negb (pk r =? i)%Z) table.

(** The key of a fresh row: one past the largest key in use. *)
Definition next_id {A} (pk : A -> Z) (table : list A) : Z :=
  (fold_right (fun r m => Z.max (pk r) m) 0 table + 1)%Z.

(** [load_user]: the row of the session's user id, if any. *)
Definition current_user (w : World) : option User.t :=
  match user_id (session w) with
  | Some i => query_get User.id (users (db w)) i
  | None => None
  end.

(** ** Template contexts *)

Record LeaderPage : Type := {
  lp_assigned_tasks : list Task.t;
  lp_my_tasks : list Task.t;
  lp_team_logs : list Meeting.t;
  lp_staff : list User.t;
  lp_depts : list Department.t;
  lp_schedules : list Schedule.t;
  lp_rate : Z;
  lp_total : Z;
  lp_user : User.t
}.

Record EmployeePage : Type := {
  ep_user : User.t;
  ep_meetings : list Meeting.t;
  ep_tasks : list Task.t;
  ep_schedules : list Schedule.t;
  ep_attended : Z;
  ep_missed : Z
}.

Record StaffPage : Type := {
  sp_staff : list User.t;
  sp_depts : list Department.t
}.

Record AnalyticsPage : Type := {
  ap_meetings : list Meeting.t;
  ap_depts : list Department.t;
  kpi_total : Z;
  kpi_productive : Z;
  kpi_efficiency : Z;
  kpi_best_att : option string;
  ap_dept_labels : list (option string);
  ap_dept_values : list Z;
  ap_absent_labels : list (option string);
  ap_absent_values : list Z
}.

(** The frame handed to the spreadsheet writer: a header and one line of
    cells per record, as [pd.DataFrame] builds it from a list of dicts that
    all have the same keys. *)
Record DataFrame : Type := {
  df_columns : list string;
  df_rows : list (list (option string))
}.

(** ** The application *)

Definition len {A} (l : list A) : Z := Z.of_nat (List.length l).

Definition flash (w : World) (message category : string) : World :=
  {| db := db w;
     session := {| user_id := user_id (session w);
                   notifications_cleared := notifications_cleared (session w);
                   flashes := flashes (session w) ++ [(category, message)] |} |}.

(** [@login_required]: an anonymous request is sent to the login view. *)
Definition login_required {P} (w : World)
    (view : User.t -> World * response P) : World * response P :=
  match current_user w with
  | Some cu => view cu
  | None => (flash w "Please log in to access this page." "message",
             Redirect "login")
  end.

(** [inject_notifications], the context processor run by every render. *)
Definition inject_notifications (w : World) (today : string) : list string :=
  match current_user w with
  | None => []
  | Some cu =>
      if notifications_cleared (session w) then []
      else
        let alerts := [] in
        let my_tasks :=
          filter (fun t => negb (Task.status t =? "Completed"))
            (filter (fun t => Task.assignee t =? User.username cu)
               (tasks (db w))) in
        let alerts :=
          fold_left
            (fun alerts t =>
               if String.ltb (Task.deadline t) today
               then alerts ++ [("OVERDUE: " ++ Task.title t)%string]
               else if Task.deadline t =? today
                    then alerts ++ [("DUE TODAY: " ++ Task.title t)%string]
                    else alerts)
            my_tasks alerts in
        let schedules :=
          filter (fun s => (Schedule.target_dept s =? "All")
                           || (Schedule.target_dept s =? User.department cu))
            (schedules (db w)) in
        let alerts :=
          fold_left
            (fun alerts s =>
               if Schedule.date s =? today
               then alerts ++ [("MEETING TODAY: " ++ Schedule.title s
                                  ++ " @ " ++ Schedule.time s)%string]
               else if String.ltb today (Schedule.date s)
                    then alerts ++ [("UPCOMING: " ++ Schedule.title s
                                       ++ " (" ++ Schedule.date s ++ ")")%string]
                    else alerts)
            schedules alerts in
        alerts
  end.

Definition render_template {P} (w : World) (today : string)
    (template : string) (context : P) : response P :=
  Render template context (inject_notifications w today).

Definition clear_notifications (w : World) (req : Request)
  : World * response unit :=
  login_required w (fun _ =>
    let w :=
      {| db := db w;
         session := {| user_id := user_id (session w);
                       notifications_cleared := true;
                       flashes := flashes (session w) |} |} in
    let w := flash w "Notifications cleared." "info" in
    (w, RedirectBack (referrer req))).

(** The schedule query shared, text for text, by both dashboards. *)
Definition upcoming_schedules (w : World) (cu : User.t) (today : string)
  : list Schedule.t :=
  filter (fun s => ((Schedule.target_dept s =? "All")
                    || (Schedule.target_dept s =? User.department cu))
                   && String.leb today (Schedule.date s))
    (schedules (db w)).

Definition leader_dashboard (w : World) (today : string)
  : World * response LeaderPage :=
  login_required w (fun cu =>
    if negb ((User.role cu =? "Leader") || (User.role cu =? "Admin"))
    then (w, Abort 403)
    else
      let assigned_tasks :=
        filter (fun t => Task.assigner t =? User.full_name cu) (tasks (db w)) in
      let my_tasks :=
        filter (fun t => Task.assignee t =? User.username cu) (tasks (db w)) in
      let team_logs :=
        filter (fun m => sql_eq (Meeting.department m) (User.department cu))
          (meetings (db w)) in
      let staff := users (db w) in
      let depts := departments (db w) in
      let schedules := upcoming_schedules w cu today in
      let total := len assigned_tasks in
      let done :=
        len (filter (fun t => Task.status t =? "Completed") assigned_tasks) in
      match Py.int_percent done total with
      | Py.Raise e => (w, Raised e)
      | Py.Ok rate =>
          (w, render_template w today "dashboard_leader.html"
                {| lp_assigned_tasks := assigned_tasks;
                   lp_my_tasks := my_tasks;
                   lp_team_logs := team_logs;
                   lp_staff := staff;
                   lp_depts := depts;
                   lp_schedules := schedules;
                   lp_rate := rate;
                   lp_total := total;
                   lp_user := cu |})
      end).

Definition employee_dashboard (w : World) (today : string)
  : World * response EmployeePage :=
  login_required w (fun cu =>
    let all_meetings := meetings (db w) in
    let attended :=
      filter (fun m => Py.contains (User.full_name cu) (Meeting.attendees m))
        all_meetings in
    let missed :=
      filter (fun m => Py.contains (User.full_name cu) (Meeting.absentees m))
        all_meetings in
    let my_tasks :=
      filter (fun t => Task.assignee t =? User.username cu) (tasks (db w)) in
    let schedules := upcoming_schedules w cu today in
    (w, render_template w today "dashboard_employee.html"
          {| ep_user := cu;
             ep_meetings := attended;
             ep_tasks := my_tasks;
             ep_schedules := schedules;
             ep_attended := len attended;
             ep_missed := len missed |})).

(** *** Writing to the store *)

Definition with_tasks (d : Db) (ts : list Task.t) : Db :=
  {| departments := departments d; users := users d; meetings := meetings d;
     tasks := ts; schedules := schedules d |}.

Definition with_users (d : Db) (us : list User.t) : Db :=
  {| departments := departments d; users := us; meetings := meetings d;
     tasks := tasks d; schedules := schedules d |}.

Definition with_departments (d : Db) (ds : list Department.t) : Db :=
  {| departments := ds; users := users d; meetings := meetings d;
     tasks := tasks d; schedules := schedules d |}.

Definition commit (w : World) (d : Db) : World :=
  {| db := d; session := session w |}.

(** [UPDATE task SET ... WHERE id = Task.id r] *)
Definition update_task (table : list Task.t) (r : Task.t) : list Task.t :=
  map (fun x => if (Task.id x =? Task.id r)%Z then r else x) table.

(** Flushing a new user: the unique constraint on [username] is the
    persistence-layer failure the model raises; the row gets a fresh key. *)
Definition insert_user (d : Db) (username password_hash full_name role
                                 designation department : string)
  : Py.result Db :=
  if existsb (fun u => User.username u =? username) (users d)
  then Py.Raise (Py.IntegrityError "user.username")
  else Py.Ok (with_users d
                (users d ++
                   [User.Build (next_id User.id (users d)) username
                      password_hash full_name role department designation])).

(** Flushing a new department, under the unique constraint on [name]. *)
Definition insert_department (d : Db) (name : string) : Py.result Db :=
  if existsb (fun x => Department.name x =? name) (departments d)
  then Py.Raise (Py.IntegrityError "department.name")
  else Py.Ok (with_departments d
                (departments d ++
                   [Department.Build (next_id Department.id (departments d))
                      name])).

Definition update_status (w : World) (req : Request) (today : string)
    (id : Z) (new_status : string) : World * response unit :=
  login_required w (fun _ =>
    match query_get Task.id (tasks (db w)) id with
    | None => (w, Abort 404)
    | Some t =>
        let t := Task.with_status t new_status in
        let t := if new_status =? "Completed"
                 then Task.with_completion_date t (Some today)
                 else t in
        let w := commit w (with_tasks (db w) (update_task (tasks (db w)) t)) in
        (w, RedirectBack (referrer req))
    end).

Definition delete_user (w : World) (id : Z) : World * response unit :=
  login_required w (fun cu =>
    match query_get User.id (users (db w)) id with
    | None => (w, Abort 404)
    | Some u =>
        let w := if negb (User.id u =? User.id cu)%Z
                 then commit w (with_users (db w)
                                  (delete_row User.id (users (db w)) (User.id u)))
                 else w in
        (w, Redirect "manage_staff")
    end).

Definition add_department (w : World) (req : Request)
  : World * response unit :=
  login_required w (fun cu =>
    if negb (User.role cu =? "Admin") then (w, Abort 403)
    else
      match form_item req "dept_name" with
      | Py.Raise _ => (w, Abort 400)
      | Py.Ok dept_name =>
          match find (fun d => Department.name d =? dept_name)
                  (departments (db w)) with
          | None =>
              match insert_department (db w) dept_name with
              | Py.Ok d => (commit w d, Redirect "manage_staff")
              | Py.Raise e => (w, Raised e)
              end
          | Some _ => (w, Redirect "manage_staff")
          end
      end).

(** The comma-separated pieces of a text field that survive [strip]:
    [len([x for x in absentees.split(',') if x.strip()])]. *)
Definition token_count (absentees : string) : Z :=
  len (filter (fun x => Py.truthy (Py.strip x)) (Py.split "," absentees)).

(** [pd.DataFrame(data)] for dicts with one common key list. *)
Definition pd_DataFrame (data : list (list (string * option string)))
  : DataFrame :=
  {| df_columns := match data with
                   | [] => []
                   | row :: _ => map fst row
                   end;
     df_rows := map (map snd) data |}.

Definition export_row (m : Meeting.t) : list (string * option string) :=
  [("Date", Meeting.date_of_meeting m);
   ("Dept", Meeting.department m);
   ("Head", Meeting.department_head m);
   ("Objective", Meeting.objective m);
   ("Decisions", Meeting.key_decisions m);
   ("Absentees", Some (Meeting.absentees m));
   ("Action Items", Meeting.action_items m);
   ("Productive", Meeting.productive m)].

Definition export_analytics (w : World) (req : Request)
  : World * response DataFrame :=
  login_required w (fun _ =>
    let dept := match args_get req "dept" with
                | Some d => d
                | None => "All"
                end in
    let meetings := meetings (db w) in
    let data := map export_row meetings in
    let df := pd_DataFrame data in
    (w, SendFile ("EduLog_" ++ dept ++ ".xlsx")%string df)).

Section Services.

(** [bcrypt.generate_password_hash(..).decode('utf-8')] *)
Variable generate_password_hash : string -> string.

(** The store's [LIKE]: column value, then pattern. *)
Variable sql_like : string -> string -> bool.

(** The body of the [try] of [manage_staff]. *)
Definition create_staff (w : World) (req : Request) : Py.result World :=
  password <- form_item req "password" ;;
  let hashed :=
    generate_password_hash
      (if Py.truthy password then password else "welcome123") in
  username <- form_item req "username" ;;
  fullname <- form_item req "fullname" ;;
  role <- form_item req "role" ;;
  designation <- form_item req "designation" ;;
  department <- form_item req "department" ;;
  d <- insert_user (db w) username hashed fullname role designation
         department ;;
  Py.Ok (commit w d).

(** What [except: pass] leaves behind.  A commit that failed in its flush
    rolls the transaction back in the store and leaves the ORM session
    inactive until [db.session.rollback()] is called, which the view never
    does; an exception raised before the commit leaves the session usable. *)
Definition session_usable_after (e : Py.exn) : bool :=
  match e with
  | Py.IntegrityError _ => false
  | _ => true
  end.

Definition manage_staff (w : World) (req : Request) (today : string)
  : World * response StaffPage :=
  login_required w (fun cu =>
    if negb (User.role cu =? "Admin") then (w, Abort 403)
    else
      let '(w, usable) :=
        if method req =? "POST"
        then match create_staff w req with
             | Py.Ok w' => (w', true)
             | Py.Raise e => (w, session_usable_after e)
             end
        else (w, true) in
      (* [User.query.all()] on an inactive session raises *)
      if usable
      then (w, render_template w today "manage_staff.html"
                 {| sp_staff := users (db w);
                    sp_depts := departments (db w) |})
      else (w, Raised Py.PendingRollbackError)).

Definition filter_meetings (w : World) (dept : string)
    (month : option string) : list Meeting.t :=
  let query := meetings (db w) in
  let query :=
    if negb (dept =? "All")
    then filter (fun m => sql_eq (Meeting.department m) dept) query
    else query in
  let query :=
    match month with
    | Some mo =>
        if Py.truthy mo
        then filter (fun m => match Meeting.date_of_meeting m with
                              | Some d => sql_like d (mo ++ "%")%string
                              | None => false
                              end) query
        else query
    | None => query
    end in
  query.

(** The loop of [meeting_analytics] over the selected meetings, carrying
    the two dictionaries. *)
Definition count_by_department (meetings : list Meeting.t)
  : list (option string * Z) * list (option string * Z) :=
  fold_left
    (fun '(dept_counts, absentee_counts) m =>
       let dept_counts :=
         Py.set option_eqb dept_counts (Meeting.department m)
           (Py.get option_eqb dept_counts (Meeting.department m) 0 + 1)%Z in
       let count := token_count (Meeting.absentees m) in
       let absentee_counts :=
         Py.set option_eqb absentee_counts (Meeting.department m)
           (Py.get option_eqb absentee_counts (Meeting.department m) 0
            + count)%Z in
       (dept_counts, absentee_counts))
    meetings ([], []).

Definition best_attendance (absentee_counts : list (option string * Z))
  : option string :=
  let sorted_absent := Py.sorted snd absentee_counts in
  match sorted_absent with
  | (d, _) :: _ => d
  | [] => Some "N/A"
  end.

Definition meeting_analytics (w : World) (req : Request) (today : string)
  : World * response AnalyticsPage :=
  login_required w (fun _ =>
    let dept := match args_get req "dept" with
                | Some d => d
                | None => "All"
                end in
    let month := args_get req "month" in
    let meetings := filter_meetings w dept month in
    let depts_list := departments (db w) in
    let total_logs := len meetings in
    let productive :=
      len (filter (fun m => py_eq (Meeting.productive m) "Yes") meetings) in
    match Py.int_percent productive total_logs with
    | Py.Raise e => (w, Raised e)
    | Py.Ok efficiency =>
        let '(dept_counts, absentee_counts) := count_by_department meetings in
        (w, render_template w today "meeting_analytics.html"
              {| ap_meetings := meetings;
                 ap_depts := depts_list;
                 kpi_total := total_logs;
                 kpi_productive := productive;
                 kpi_efficiency := efficiency;
                 kpi_best_att := best_attendance absentee_counts;
                 ap_dept_labels := map fst dept_counts;
                 ap_dept_values := map snd dept_counts;
                 ap_absent_labels := map fst absentee_counts;
                 ap_absent_values := map snd absentee_counts |})
    end).

End Services.

(** ** The remaining views *)

Record AdminPage : Type := {
  adm_tasks : list Task.t;
  adm_staff : list User.t;
  adm_depts : list Department.t;
  adm_total : Z;
  adm_pending : Z;
  adm_completed : Z;
  adm_user : User.t
}.

Record FormPage : Type := {
  fp_staff_list : list User.t;
  fp_dept_heads : list User.t;
  fp_depts : list Department.t;
  fp_user : User.t
}.

Definition with_meetings (d : Db) (ms : list Meeting.t) : Db :=
  {| departments := departments d; users := users d; meetings := ms;
     tasks := tasks d; schedules := schedules d |}.

Definition with_schedules (d : Db) (ss : list Schedule.t) : Db :=
  {| departments := departments d; users := users d; meetings := meetings d;
     tasks := tasks d; schedules := ss |}.

(** [request.form.get(k)] and [request.form.get(k, default)]: the first value
    sent under [k]. *)
Definition form_get (req : Request) (k : string) : option string :=
  Py.lookup String.eqb (form req) k.

Definition form_get_default (req : Request) (k default : string)
  : option string :=
  match form_get req k with
  | Some v => Some v
  | None => Some default
  end.

(** [request.form.getlist(k)]: every value sent under [k], in order. *)
Definition form_getlist (req : Request) (k : string) : list string :=
  map snd (filter (fun kv => fst kv =? k) (form req)).

(** [sep.join(pieces)] *)
Fixpoint str_join (sep : string) (pieces : list string) : string :=
  match pieces with
  | [] => EmptyString
  | [p] => p
  | p :: rest => (p ++ sep ++ str_join sep rest)%string
  end.

(** [login_user] and [logout_user]: the user id kept in the session. *)
Definition login_user (w : World) (u : User.t) : World :=
  {| db := db w;
     session := {| user_id := Some (User.id u);
                   notifications_cleared := notifications_cleared (session w);
                   flashes := flashes (session w) |} |}.

Definition logout_user (w : World) : World :=
  {| db := db w;
     session := {| user_id := None;
                   notifications_cleared := notifications_cleared (session w);
                   flashes := flashes (session w) |} |}.

Definition set_notifications_cleared (w : World) (b : bool) : World :=
  {| db := db w;
     session := {| user_id := user_id (session w);
                   notifications_cleared := b;
                   flashes := flashes (session w) |} |}.

Definition logout (w : World) : World * response unit :=
  login_required w (fun _ =>
    let w := logout_user w in
    (w, Redirect "login")).

Definition admin_dashboard (w : World) (today : string)
  : World * response AdminPage :=
  login_required w (fun cu =>
    if negb (User.role cu =? "Admin") then (w, Redirect "employee_dashboard")
    else
      let tasks := tasks (db w) in
      let staff := users (db w) in
      let depts := departments (db w) in
      let total := len tasks in
      let pending :=
        len (filter (fun t => negb (Task.status t =? "Completed")) tasks) in
      (w, render_template w today "dashboard_admin.html"
            {| adm_tasks := tasks;
               adm_staff := staff;
               adm_depts := depts;
               adm_total := total;
               adm_pending := pending;
               adm_completed := (total - pending)%Z;
               adm_user := cu |})).

Definition schedule_meeting (w : World) (req : Request)
  : World * response unit :=
  login_required w (fun cu =>
    match
      (title <- form_item req "title" ;;
       target_dept <- form_item req "target_dept" ;;
       date <- form_item req "date" ;;
       time <- form_item req "time" ;;
       mode <- form_item req "mode" ;;
       Py.Ok (Schedule.Build (next_id Schedule.id (schedules (db w)))
                title target_dept date time mode (User.full_name cu)))
    with
    | Py.Raise _ => (w, Abort 400)
    | Py.Ok s =>
        let w := commit w (with_schedules (db w) (schedules (db w) ++ [s])) in
        let w := flash w "Meeting Scheduled!" "success" in
        (w, RedirectBack (referrer req))
    end).

(** The row [log_meeting] builds from the form. *)
Definition meeting_of_form (id : Z) (req : Request) : Meeting.t :=
  {| Meeting.id := id;
     Meeting.date_of_meeting := form_get req "Date_of_Meeting";
     Meeting.department := form_get req "Department";
     Meeting.department_head := form_get req "Department_Head";
     Meeting.meeting_type := form_get_default req "Meeting_Type" "General";
     Meeting.mode := form_get req "Meeting_Mode";
     Meeting.objective := form_get req "Objective";
     Meeting.agenda := form_get_default req "Agenda" "N/A";
     Meeting.start_time := None;
     Meeting.end_time := None;
     Meeting.attendees := str_join ", " (form_getlist req "Attendees");
     Meeting.absentees := str_join ", " (form_getlist req "Absentees");
     Meeting.key_decisions := form_get_default req "Key_Decisions" "None";
     Meeting.action_items := form_get_default req "Action_Items" "None";
     Meeting.productive := form_get req "Productive";
     Meeting.productivity_reason := None;
     Meeting.submitted_by := form_get req "Submitted_By" |}.

Definition log_meeting (w : World) (req : Request) (today : string)
  : World * response FormPage :=
  login_required w (fun cu =>
    if method req =? "POST"
    then
      let m := meeting_of_form (next_id Meeting.id (meetings (db w))) req in
      let w := commit w (with_meetings (db w) (meetings (db w) ++ [m])) in
      let w := flash w "Meeting Logged Successfully!" "success" in
      (w, Redirect "log_meeting")
    else
      let staff := users (db w) in
      let depts := departments (db w) in
      let heads :=
        filter (fun u => (User.role u =? "Leader") || (User.role u =? "Admin"))
          staff in
      (w, render_template w today "dashboard_form.html"
            {| fp_staff_list := staff;
               fp_dept_heads := heads;
               fp_depts := depts;
               fp_user := cu |})).

Definition assign_task (w : World) (req : Request) : World * response unit :=
  login_required w (fun cu =>
    match
      (username <- form_item req "assignee" ;;
       let assignee :=
         find (fun u => User.username u =? username) (users (db w)) in
       title <- form_item req "title" ;;
       assignee_name <- form_item req "assignee" ;;
       deadline <- form_item req "deadline" ;;
       Py.Ok (Task.Build (next_id Task.id (tasks (db w))) title ""
                (User.full_name cu) assignee_name
                match assignee with
                | Some a => User.department a
                | None => "General"
                end
                deadline "Pending" None))
    with
    | Py.Raise _ => (w, Abort 400)
    | Py.Ok t =>
        let w := commit w (with_tasks (db w) (tasks (db w) ++ [t])) in
        let w := flash w "Task Assigned!" "success" in
        (w, RedirectBack (referrer req))
    end).

Definition delete_task (w : World) (req : Request) (id : Z)
  : World * response unit :=
  login_required w (fun _ =>
    match query_get Task.id (tasks (db w)) id with
    | None => (w, Abort 404)
    | Some t =>
        let w := commit w (with_tasks (db w)
                             (delete_row Task.id (tasks (db w)) (Task.id t))) in
        (w, RedirectBack (referrer req))
    end).

Definition clear_leader_tasks (w : World) (req : Request)
  : World * response unit :=
  login_required w (fun cu =>
    let w :=
      commit w (with_tasks (db w)
                  (filter (fun t => negb (Task.assigner t =? User.full_name cu))
                     (tasks (db w)))) in
    (w, RedirectBack (referrer req))).

(** [UPDATE user SET ... WHERE id = User.id r] *)
Definition update_user (table : list User.t) (r : User.t) : list User.t :=
  map (fun x => if (User.id x =? User.id r)%Z then r else x) table.

Definition edit_user (w : World) (req : Request) (id : Z)
  : World * response unit :=
  login_required w (fun _ =>
    match query_get User.id (users (db w)) id with
    | None => (w, Abort 404)
    | Some u =>
        match
          (fullname <- form_item req "fullname" ;;
           role <- form_item req "role" ;;
           department <- form_item req "department" ;;
           Py.Ok (User.Build (User.id u) (User.username u)
                    (User.password_hash u) fullname role department
                    (User.designation u)))
        with
        | Py.Raise _ => (w, Abort 400)
        | Py.Ok u' =>
            let w := commit w (with_users (db w)
                                 (update_user (users (db w)) u')) in
            (w, Redirect "manage_staff")
        end
    end).

Definition clear_data (w : World) : World * response unit :=
  login_required w (fun _ =>
    let w := commit w (with_meetings (db w) []) in
    (w, Redirect "admin_dashboard")).

Section Accounts.

(** [bcrypt.check_password_hash(hash, password)] *)
Variable check_password_hash : string -> string -> bool.

(** [bcrypt.generate_password_hash(..).decode('utf-8')] *)
Variable generate_password_hash : string -> string.

Definition login (w : World) (req : Request) (today : string)
  : World * response unit :=
  let invalid :=
    let w := flash w "Invalid Credentials" "danger" in
    (w, render_template w today "login.html" tt) in
  if method req =? "POST"
  then
    match form_item req "username" with
    | Py.Raise _ => (w, Abort 400)
    | Py.Ok username =>
        match find (fun u => User.username u =? username) (users (db w)) with
        | None => invalid
        | Some user =>
            match form_item req "password" with
            | Py.Raise _ => (w, Abort 400)
            | Py.Ok password =>
                if check_password_hash (User.password_hash user) password
                then
                  let w := login_user w user in
                  let w := set_notifications_cleared w false in
                  if User.role user =? "Admin"
                  then (w, Redirect "admin_dashboard")
                  else if User.role user =? "Leader"
                       then (w, Redirect "leader_dashboard")
                       else (w, Redirect "employee_dashboard")
                else invalid
            end
        end
    end
  else (w, render_template w today "login.html" tt).

Definition settings (w : World) (req : Request) (today : string)
  : World * response User.t :=
  login_required w (fun cu =>
    if method req =? "POST"
    then
      match form_item req "new_password" with
      | Py.Raise _ => (w, Abort 400)
      | Py.Ok new_password =>
          let cu :=
            User.Build (User.id cu) (User.username cu)
              (generate_password_hash new_password) (User.full_name cu)
              (User.role cu) (User.department cu) (User.designation cu) in
          let w := commit w (with_users (db w)
                               (update_user (users (db w)) cu)) in
          let w := flash w "Password updated." "success" in
          (w, render_template w today "settings.html" cu)
      end
    else (w, render_template w today "settings.html" cu)).

End Accounts.

(** ** Reference values used in the statements *)

(** The row written by [update_status]. *)
Definition updated_task (t : Task.t) (new_status today : string) : Task.t :=
  let t := Task.with_status t new_status in
  if new_status =? "Completed"
  then Task.with_completion_date t (Some today)
  else t.


(** How a schedule shows in the list [l] drawn up for user [cu]: one for
    ["All"] is in it whatever the user's department, one for a named
    department is in it exactly when that is the user's department. *)
Definition shown_by_target (s : Schedule.t) (cu : User.t)
    (l : list Schedule.t) : Prop :=
  (Schedule.target_dept s = "All" -> In s l)
  /\ (Schedule.target_dept s <> "All" ->
      (In s l <-> Schedule.target_dept s = User.department cu)).

(** An open task of user [cu] whose deadline is before [today]. *)
Definition overdue_for (cu : User.t) (today : string) (t : Task.t) : Prop :=
  Task.assignee t = User.username cu
  /\ Task.status t <> "Completed"
  /\ String.ltb (Task.deadline t) today = true.

(** What one open task adds to the alerts, and what one schedule adds: the
    bodies of the two loops of [inject_notifications]. *)
Definition task_alert (today : string) (t : Task.t) : list string :=
  if String.ltb (Task.deadline t) today
  then [("OVERDUE: " ++ Task.title t)%string]
  else if Task.deadline t =? today
       then [("DUE TODAY: " ++ Task.title t)%string]
       else [].

Definition schedule_alert (today : string) (s : Schedule.t) : list string :=
  if Schedule.date s =? today
  then [("MEETING TODAY: " ++ Schedule.title s
          ++ " @ " ++ Schedule.time s)%string]
  else if String.ltb today (Schedule.date s)
       then [("UPCOMING: " ++ Schedule.title s
               ++ " (" ++ Schedule.date s ++ ")")%string]
       else [].

(** [request.args.get('dept', 'All')] *)
Definition dept_arg (req : Request) : string :=
  match args_get req "dept" with
  | Some d => d
  | None => "All"
  end.

(** The context of a rendered page, if the response is one. *)
Definition rendered {P} (r : response P) : option P :=
  match r with
  | Render _ p _ => Some p
  | _ => None
  end.

(** The percentage as the integer quotient, and whether the float
    computation agrees with it. *)
Definition floor_percent (part total : Z) : Z := (100 * part / total)%Z.

Definition percent_agrees (total part : nat) : bool :=
  match Py.int_percent (Z.of_nat part) (Z.of_nat total) with
  | Py.Ok r => (r =? floor_percent (Z.of_nat part) (Z.of_nat total))%Z
  | Py.Raise _ => false
  end.

(** All absentee tokens logged for department [d]. *)
Definition absentee_total (d : option string) (ms : list Meeting.t) : Z :=
  fold_right
    (fun m acc => if option_eqb (Meeting.department m) d
                  then (token_count (Meeting.absentees m) + acc)%Z
                  else acc)
    0%Z ms.

(** One turn of the loop of [meeting_analytics] on the absentee dictionary. *)
Definition add_absentees (counts : list (option string * Z)) (m : Meeting.t)
  : list (option string * Z) :=
  Py.set option_eqb counts (Meeting.department m)
    (Py.get option_eqb counts (Meeting.department m) 0
     + token_count (Meeting.absentees m))%Z.

(** The keys of a dictionary filled from [l], in order of first use. *)
Fixpoint first_seen (seen l : list (option string)) : list (option string) :=
  match l with
  | [] => []
  | k :: l' =>
      if existsb (option_eqb k) seen then first_seen seen l'
      else k :: first_seen (seen ++ [k]) l'
  end.


(** A piece that [split]-and-[strip] counts: it has a non-space character. *)
Definition nonblank (s : string) : bool := Py.truthy (Py.strip s).

Definition sum_Z (l : list Z) : Z := fold_right Z.add 0%Z l.

(** The same database seen through another session. *)
Definition seen_by (w : World) (s : Session) : World :=
  {| db := db w; session := s |}.

(** One turn of the loop of [meeting_analytics] on the meeting counter. *)
Definition add_meeting (counts : list (option string * Z)) (m : Meeting.t)
  : list (option string * Z) :=
  Py.set option_eqb counts (Meeting.department m)
    (Py.get option_eqb counts (Meeting.department m) 0 + 1)%Z.

(** A view's answer to a request it does not serve: the tables of [w]
    untouched and the redirect to the login page. *)
Definition sent_to_login (w : World) {P} (r : World * response P) : Prop :=
  db (fst r) = db w /\ snd r = Redirect "login".

(** ** A small database used to exercise the statements *)

Module Demo.

Definition today : string := "2024-05-02".

Definition admin : User.t :=
  User.Build 1 "admin" "$2b$12$a" "Ada Admin" "Admin" "Math" "Principal".
Definition lee : User.t :=
  User.Build 2 "lee" "$2b$12$b" "Lee Leader" "Leader" "Physics" "Head".
Definition eve : User.t :=
  User.Build 3 "eve" "$2b$12$c" "Eve Employee" "Employee" "Math" "Lecturer".

Definition report : Task.t :=
  Task.Build 1 "Report" "" "Lee Leader" "eve" "Math" "2024-04-30"
    "Pending" None.
Definition slides : Task.t :=
  Task.Build 2 "Slides" "" "Lee Leader" "eve" "Math" "2024-04-20"
    "Completed" (Some "2024-04-19").

Definition town_hall : Schedule.t :=
  Schedule.Build 1 "Town hall" "All" "2024-05-03" "10:00" "Online"
    "Ada Admin".
Definition lab_sync : Schedule.t :=
  Schedule.Build 2 "Lab sync" "Physics" "2024-05-04" "14:00" "Offline"
    "Lee Leader".

Definition meeting (id : Z) (dept absentees productive : string)
  : Meeting.t :=
  Meeting.Build id (Some "2024-04-15") (Some dept) (Some "Lee Leader")
    (Some "General") (Some "Offline") (Some "Planning") (Some "N/A")
    None None "Eve Employee" absentees (Some "None") (Some "None")
    (Some productive) None (Some "lee").

Definition data : Db :=
  {| departments := [Department.Build 1 "Math"; Department.Build 2 "Physics"];
     users := [admin; lee; eve];
     meetings := [meeting 1 "Math" "J. Doe, M. Lee" "Yes";
                  meeting 2 "Physics" "" "No"];
     tasks := [report; slides];
     schedules := [town_hall; lab_sync] |}.

Definition logged_in (d : Db) (u : User.t) : World :=
  {| db := d;
     session := {| user_id := Some (User.id u);
                   notifications_cleared := false;
                   flashes := [] |} |}.

Definition get (url : list (string * string)) : Request :=
  {| method := "GET"; form := []; args := url; referrer := Some "/" |}.

Definition post (fields : list (string * string)) : Request :=
  {| method := "POST"; form := fields; args := [];
     referrer := Some "/manage_staff" |}.

(** Fifty rows of which the first twenty-nine are marked. *)
Definition fifty {A} (row : Z -> bool -> A) : list A :=
  map (fun i => row (Z.of_nat i) (Nat.leb i 29)) (seq 1 50).

Definition fifty_tasks : Db :=
  with_tasks data
    (fifty (fun i done =>
              Task.Build i "Marking" "" "Lee Leader" "eve" "Math"
                "2024-06-01" (if done then "Completed" else "Pending")
                (if done then Some "2024-05-01" else None))).

Definition fifty_meetings : Db :=
  {| departments := departments data;
     users := users data;
     meetings := fifty (fun i yes =>
                          meeting i "Math" "" (if yes then "Yes" else "No"));
     tasks := tasks data;
     schedules := schedules data |}.

End Demo.

(** Requests used to exercise the remaining views. *)

Module Sample.

Definition anonymous (d : Db) : World :=
  {| db := d;
     session := {| user_id := None;
                   notifications_cleared := false;
                   flashes := [] |} |}.

Definition credentials (username password : string) : Request :=
  Demo.post [("username", username); ("password", password)].

(** A stand-in for bcrypt on the example rows: the stored hash is the
    password behind a fixed prefix. *)
Definition hash (password : string) : string := ("$2b$12$" ++ password)%string.

Definition check (stored password : string) : bool :=
  stored =? hash password.

Definition meeting_form : Request :=
  Demo.post [("Date_of_Meeting", "2024-05-02"); ("Department", "Math");
             ("Attendees", "Eve Employee"); ("Attendees", "Lee Leader");
             ("Absentees", "Ada Admin"); ("Absentees", "J. Doe");
             ("Productive", "Yes")].

Definition task_form : Request :=
  Demo.post [("title", "Grades"); ("assignee", "eve");
             ("deadline", "2024-04-01")].

Definition schedule_form : Request :=
  Demo.post [("title", "Retreat"); ("target_dept", "All");
             ("date", "2024-06-01"); ("time", "09:00"); ("mode", "Offline")].

Definition staff_form : Request :=
  Demo.post [("password", ""); ("username", "kim"); ("fullname", "Kim Kay");
             ("role", "Employee"); ("designation", "Tutor");
             ("department", "Physics")].

Definition edit_form : Request :=
  Demo.post [("fullname", "Eve Employee"); ("role", "Admin");
             ("department", "Math")].

End Sample.

(** * Properties *)

(** ** Basic facts about queries *)

Lemma query_get_pk {A} (pk : A -> Z) (table : list A) (i : Z) (r : A) :
  query_get pk table i = Some r -> In r table /\ pk r = i.
Proof.
  unfold query_get. intros H. apply find_some in H.
  destruct H as [Hin Hpk]. split; [exact Hin | now apply Z.eqb_eq].
Qed.

Lemma current_user_get (w : World) (cu : User.t) :
  current_user w = Some cu ->
  query_get User.id (users (db w)) (User.id cu) = Some cu.
Proof.
  unfold current_user. destruct (user_id (session w)) as [i|]; [|discriminate].
  intros H. destruct (query_get_pk _ _ _ _ H) as [_ Hid]. now rewrite Hid.
Qed.

Lemma login_required_some {P} (w : World) (cu : User.t)
    (view : User.t -> World * response P) :
  current_user w = Some cu -> login_required w view = view cu.
Proof. unfold login_required. now intros ->. Qed.

(** ** [update_status] *)

Lemma query_get_update_task (table : list Task.t) (i : Z) (t r : Task.t) :
  query_get Task.id table i = Some t ->
  Task.id r = i ->
  query_get Task.id (update_task table r) i = Some r.
Proof.
  unfold query_get, update_task. intros Hfind Hid. subst i.
  induction table as [|x table IH]; simpl in *; [discriminate|].
  destruct (Task.id x =? Task.id r)%Z eqn:E.
  - now rewrite Z.eqb_refl.
  - rewrite E. now apply IH.
Qed.

Lemma query_get_update_task_other (table : list Task.t) (j : Z) (r : Task.t) :
  Task.id r <> j ->
  query_get Task.id (update_task table r) j = query_get Task.id table j.
Proof.
  unfold query_get, update_task. intros Hne.
  induction table as [|x table IH]; simpl; [reflexivity|].
  destruct (Task.id x =? Task.id r)%Z eqn:E.
  - apply Z.eqb_eq in E.
    assert (Hr : (Task.id r =? j)%Z = false) by now apply Z.eqb_neq.
    assert (Hx : (Task.id x =? j)%Z = false) by (apply Z.eqb_neq; congruence).
    now rewrite Hr, Hx.
  - destruct (Task.id x =? j)%Z; [reflexivity | exact IH].
Qed.

Lemma update_status_world (w : World) (req : Request) (today : string)
    (id : Z) (new_status : string) (cu : User.t) (t : Task.t) :
  current_user w = Some cu ->
  query_get Task.id (tasks (db w)) id = Some t ->
  update_status w req today id new_status =
    (commit w (with_tasks (db w)
                 (update_task (tasks (db w)) (updated_task t new_status today))),
     RedirectBack (referrer req)).
Proof.
  intros Hcu Ht. unfold update_status.
  rewrite (login_required_some _ _ _ Hcu), Ht. reflexivity.
Qed.

Lemma updated_task_id (t : Task.t) (new_status today : string) :
  Task.id (updated_task t new_status today) = Task.id t.
Proof. unfold updated_task. now destruct (new_status =? "Completed"). Qed.

(** C6: on an existing task, [update_status] stores exactly the status string
    it was given; it writes today's date into [completion_date] when that
    string is ["Completed"], and leaves [completion_date] as it was for every
    other string. *)
Theorem update_status_sets_status_and_stamps
    (w : World) (req : Request) (today : string) (id : Z)
    (new_status : string) (cu : User.t) (t : Task.t) :
  current_user w = Some cu ->
  query_get Task.id (tasks (db w)) id = Some t ->
  exists t',
    query_get Task.id (tasks (db (fst (update_status w req today id new_status))))
      id = Some t'
    /\ Task.status t' = new_status
    /\ (new_status = "Completed" -> Task.completion_date t' = Some today)
    /\ (new_status <> "Completed" ->
        Task.completion_date t' = Task.completion_date t).
Proof.
  intros Hcu Ht.
  rewrite (update_status_world _ req today _ new_status _ _ Hcu Ht). simpl.
  exists (updated_task t new_status today).
  destruct (query_get_pk _ _ _ _ Ht) as [_ Hid].
  split.
  - apply (query_get_update_task _ _ t); [exact Ht|].
    now rewrite updated_task_id.
  - unfold updated_task.
    destruct (new_status =? "Completed") eqn:E; simpl.
    + apply String.eqb_eq in E. repeat split; congruence.
    + apply String.eqb_neq in E. repeat split; congruence.
Qed.

(** C9: a status other than ["Completed"] changes the [status] field only:
    the stored [completion_date] and every other field of the task are what
    they were. *)
Theorem update_status_keeps_completion_date
    (w : World) (req : Request) (today : string) (id : Z)
    (new_status : string) (cu : User.t) (t : Task.t) (stamp : string) :
  current_user w = Some cu ->
  query_get Task.id (tasks (db w)) id = Some t ->
  Task.completion_date t = Some stamp ->
  new_status <> "Completed" ->
  exists t',
    query_get Task.id (tasks (db (fst (update_status w req today id new_status))))
      id = Some t'
    /\ Task.completion_date t' = Some stamp
    /\ Task.status t' = new_status
    /\ Task.id t' = Task.id t
    /\ Task.title t' = Task.title t
    /\ Task.description t' = Task.description t
    /\ Task.assigner t' = Task.assigner t
    /\ Task.assignee t' = Task.assignee t
    /\ Task.department t' = Task.department t
    /\ Task.deadline t' = Task.deadline t.
Proof.
  intros Hcu Ht Hstamp Hne.
  rewrite (update_status_world _ req today _ new_status _ _ Hcu Ht). simpl.
  exists (updated_task t new_status today).
  destruct (query_get_pk _ _ _ _ Ht) as [_ Hid].
  split.
  - apply (query_get_update_task _ _ t); [exact Ht|].
    now rewrite updated_task_id.
  - unfold updated_task. apply String.eqb_neq in Hne. rewrite Hne. simpl.
    repeat split; auto.
Qed.

(** Rows with another key, and the other four tables, are not touched. *)
Lemma update_status_frame
    (w : World) (req : Request) (today : string) (id : Z)
    (new_status : string) (cu : User.t) (t : Task.t) :
  current_user w = Some cu ->
  query_get Task.id (tasks (db w)) id = Some t ->
  let w' := fst (update_status w req today id new_status) in
  (forall j, j <> id ->
     query_get Task.id (tasks (db w')) j = query_get Task.id (tasks (db w)) j)
  /\ users (db w') = users (db w)
  /\ departments (db w') = departments (db w)
  /\ meetings (db w') = meetings (db w)
  /\ schedules (db w') = schedules (db w)
  /\ session w' = session w.
Proof.
  intros Hcu Ht.
  rewrite (update_status_world _ req today _ new_status _ _ Hcu Ht). simpl.
  destruct (query_get_pk _ _ _ _ Ht) as [_ Hid].
  repeat split. intros j Hj. apply query_get_update_task_other.
  rewrite updated_task_id. congruence.
Qed.

(** ** [delete_user] *)

Lemma delete_row_absent {A} (pk : A -> Z) (table : list A) (i : Z) :
  ~ In i (map pk table) -> delete_row pk table i = table.
Proof.
  unfold delete_row. induction table as [|x table IH]; simpl; intros Hn.
  - reflexivity.
  - destruct (pk x =? i)%Z eqn:E.
    + apply Z.eqb_eq in E. exfalso. apply Hn. now left.
    + simpl. f_equal. apply IH. intros Hin. apply Hn. now right.
Qed.

Lemma delete_row_exact {A} (pk : A -> Z) (table : list A) (i : Z) (u : A) :
  NoDup (map pk table) ->
  query_get pk table i = Some u ->
  exists l1 l2, table = l1 ++ u :: l2 /\ delete_row pk table i = l1 ++ l2.
Proof.
  unfold query_get.
  induction table as [|x table IH]; simpl; intros Hnd Hfind; [discriminate|].
  inversion Hnd as [|? ? Hnotin Hnd']; subst.
  destruct (pk x =? i)%Z eqn:E.
  - injection Hfind as <-. apply Z.eqb_eq in E. subst i.
    exists [], table. split; [reflexivity|].
    unfold delete_row. simpl. rewrite ?Z.eqb_refl. simpl.
    exact (delete_row_absent pk table (pk x) Hnotin).
  - destruct (IH Hnd' Hfind) as (l1 & l2 & Heq & Hdel).
    exists (x :: l1), l2. split.
    + simpl. now f_equal.
    + unfold delete_row in *. simpl. rewrite ?E. simpl. now f_equal.
Qed.

(** C5: [delete_user] on the id of the logged-in user changes nothing, so
    that user is still there; on the id of another existing user it removes
    that one row of the User table and leaves every other row and the four
    other tables as they were. *)
Theorem delete_user_rejects_self_removes_one_other
    (w : World) (id : Z) (cu : User.t) :
  current_user w = Some cu ->
  NoDup (map User.id (users (db w))) ->
  (id = User.id cu ->
     delete_user w id = (w, Redirect "manage_staff")
     /\ current_user (fst (delete_user w id)) = Some cu)
  /\ (forall u, id <> User.id cu ->
        query_get User.id (users (db w)) id = Some u ->
        exists l1 l2,
          users (db w) = l1 ++ u :: l2
          /\ users (db (fst (delete_user w id))) = l1 ++ l2
          /\ departments (db (fst (delete_user w id))) = departments (db w)
          /\ meetings (db (fst (delete_user w id))) = meetings (db w)
          /\ tasks (db (fst (delete_user w id))) = tasks (db w)
          /\ schedules (db (fst (delete_user w id))) = schedules (db w)
          /\ session (fst (delete_user w id)) = session w).
Proof.
  intros Hcu Hnd. unfold delete_user.
  rewrite (login_required_some _ _ _ Hcu). split.
  - intros ->. rewrite (current_user_get _ _ Hcu). cbv beta iota zeta.
    rewrite Z.eqb_refl. simpl. split; [reflexivity | exact Hcu].
  - intros u Hne Hu. rewrite Hu. cbv beta iota zeta.
    destruct (query_get_pk _ _ _ _ Hu) as [_ Hid].
    assert (E : (User.id u =? User.id cu)%Z = false)
      by (apply Z.eqb_neq; congruence).
    rewrite E. simpl. rewrite Hid.
    destruct (delete_row_exact _ _ _ _ Hnd Hu) as (l1 & l2 & Heq & Hdel).
    exists l1, l2. repeat split; assumption.
Qed.

(** ** [add_department] *)

Lemma current_user_flash (w : World) (message category : string) :
  current_user (flash w message category) = current_user w.
Proof. reflexivity. Qed.

Lemma find_app_last {A} (f : A -> bool) (l : list A) (x : A) :
  find f l = None -> f x = true -> find f (l ++ [x]) = Some x.
Proof.
  induction l as [|y l IH]; simpl; intros Hnone Hx.
  - now rewrite Hx.
  - destruct (f y); [discriminate | now apply IH].
Qed.

Lemma NoDup_snoc {A} (l : list A) (x : A) :
  NoDup l -> ~ In x l -> NoDup (l ++ [x]).
Proof.
  induction l as [|y l IH]; simpl; intros Hnd Hx.
  - constructor; [intros [] | constructor].
  - inversion Hnd; subst. constructor.
    + intros Hin. apply in_app_or in Hin. destruct Hin as [Hin|[<-|[]]].
      * contradiction.
      * apply Hx. now left.
    + apply IH; [assumption|]. intros Hin. apply Hx. now right.
Qed.

Lemma find_name_none (ds : list Department.t) (name : string) :
  find (fun d => Department.name d =? name) ds = None ->
  ~ In name (map Department.name ds).
Proof.
  intros Hnone Hin. apply in_map_iff in Hin. destruct Hin as (d & Hd & Hin).
  apply (find_none _ _ Hnone) in Hin. simpl in Hin.
  rewrite Hd, String.eqb_refl in Hin. discriminate.
Qed.

Lemma find_name_some (ds : list Department.t) (name : string) :
  In name (map Department.name ds) ->
  exists d, find (fun d => Department.name d =? name) ds = Some d.
Proof.
  intros Hin. apply in_map_iff in Hin. destruct Hin as (d & Hd & Hin).
  destruct (find (fun d => Department.name d =? name) ds) as [d'|] eqn:E.
  - now exists d'.
  - apply (find_none _ _ E) in Hin. simpl in Hin.
    rewrite Hd, String.eqb_refl in Hin. discriminate.
Qed.

(** A name that is not in the table passes the unique constraint. *)
Lemma insert_department_fresh (d : Db) (name : string) :
  find (fun x => Department.name x =? name) (departments d) = None ->
  exists d',
    insert_department d name = Py.Ok d'
    /\ d' = with_departments d
              (departments d ++
                 [Department.Build (next_id Department.id (departments d))
                    name]).
Proof.
  intros Hnone. unfold insert_department.
  replace (existsb _ _) with false; [eexists; split; reflexivity|].
  symmetry. apply not_true_is_false. intros Hex.
  apply existsb_exists in Hex. destruct Hex as (x & Hin & Hx).
  apply (find_none _ _ Hnone) in Hin. simpl in Hin. congruence.
Qed.

(** C10: [add_department] leaves the Department table alone when the name is
    already there, a second call with the same form leaves the table as the
    first call left it, and names that were pairwise distinct stay so. *)
Theorem add_department_idempotent_names_unique (w : World) (req : Request) :
  (forall name,
      form_item req "dept_name" = Py.Ok name ->
      In name (map Department.name (departments (db w))) ->
      departments (db (fst (add_department w req))) = departments (db w))
  /\ departments (db (fst (add_department (fst (add_department w req)) req)))
     = departments (db (fst (add_department w req)))
  /\ (NoDup (map Department.name (departments (db w))) ->
      NoDup (map Department.name
               (departments (db (fst (add_department w req)))))).
Proof.
  destruct (current_user w) as [cu|] eqn:Hcu.
  2:{ assert (H1 : fst (add_department w req)
                   = flash w "Please log in to access this page." "message")
        by (unfold add_department, login_required; now rewrite Hcu).
      rewrite H1. repeat split; auto.
      unfold add_department, login_required.
      now rewrite current_user_flash, Hcu. }
  destruct (User.role cu =? "Admin") eqn:Hrole.
  2:{ assert (H1 : fst (add_department w req) = w)
        by (unfold add_department, login_required; now rewrite Hcu, Hrole).
      rewrite !H1. repeat split; auto. }
  destruct (form_item req "dept_name") as [name|e] eqn:Hform.
  2:{ assert (H1 : fst (add_department w req) = w)
        by (unfold add_department, login_required;
            now rewrite Hcu, Hrole, Hform).
      rewrite !H1. repeat split; auto. }
  destruct (find (fun d => Department.name d =? name) (departments (db w)))
    as [d|] eqn:Hfind.
  - assert (H1 : fst (add_department w req) = w)
      by (unfold add_department, login_required;
          now rewrite Hcu, Hrole, Hform, Hfind).
    rewrite !H1. repeat split; auto.
  - destruct (insert_department_fresh (db w) name Hfind) as (d' & Hins & Hd').
    assert (H1 : fst (add_department w req) = commit w d')
      by (unfold add_department, login_required;
          now rewrite Hcu, Hrole, Hform, Hfind, Hins).
    rewrite H1. subst d'. split; [|split].
    + intros name' Hname' Hin. injection Hname' as <-.
      now apply find_name_none in Hfind.
    + unfold add_department, login_required.
      match goal with
      | |- context [current_user ?w'] =>
          assert (Hcu' : current_user w' = Some cu) by exact Hcu
      end.
      rewrite Hcu', Hrole, Hform. simpl.
      rewrite (find_app_last _ _ _ Hfind); [reflexivity|].
      simpl. apply String.eqb_refl.
    + intros Hnd. simpl. rewrite map_app. simpl.
      apply find_name_none in Hfind.
      now apply NoDup_snoc.
Qed.

(** ** [export_analytics] *)



(** ** [inject_notifications] *)

Lemma fold_task_alerts (today : string) (l : list Task.t) (acc : list string) :
  fold_left
    (fun alerts t =>
       if String.ltb (Task.deadline t) today
       then alerts ++ [("OVERDUE: " ++ Task.title t)%string]
       else if Task.deadline t =? today
            then alerts ++ [("DUE TODAY: " ++ Task.title t)%string]
            else alerts) l acc
  = acc ++ flat_map (task_alert today) l.
Proof.
  revert acc. induction l as [|t l IH]; intros acc; simpl.
  - now rewrite app_nil_r.
  - rewrite IH. unfold task_alert.
    destruct (String.ltb (Task.deadline t) today);
      [|destruct (Task.deadline t =? today)]; simpl;
      now rewrite <- ?app_assoc.
Qed.

Lemma fold_schedule_alerts (today : string) (l : list Schedule.t)
    (acc : list string) :
  fold_left
    (fun alerts s =>
       if Schedule.date s =? today
       then alerts ++ [("MEETING TODAY: " ++ Schedule.title s
                         ++ " @ " ++ Schedule.time s)%string]
       else if String.ltb today (Schedule.date s)
            then alerts ++ [("UPCOMING: " ++ Schedule.title s
                              ++ " (" ++ Schedule.date s ++ ")")%string]
            else alerts) l acc
  = acc ++ flat_map (schedule_alert today) l.
Proof.
  revert acc. induction l as [|s l IH]; intros acc; simpl.
  - now rewrite app_nil_r.
  - rewrite IH. unfold schedule_alert.
    destruct (Schedule.date s =? today);
      [|destruct (String.ltb today (Schedule.date s))]; simpl;
      now rewrite <- ?app_assoc.
Qed.

(** The alert list as two comprehensions, one after the other. *)
Lemma inject_notifications_eq (w : World) (today : string) (cu : User.t) :
  current_user w = Some cu ->
  notifications_cleared (session w) = false ->
  inject_notifications w today
  = flat_map (task_alert today)
      (filter (fun t => negb (Task.status t =? "Completed"))
         (filter (fun t => Task.assignee t =? User.username cu)
            (tasks (db w))))
    ++ flat_map (schedule_alert today)
         (filter (fun s => (Schedule.target_dept s =? "All")
                           || (Schedule.target_dept s =? User.department cu))
            (schedules (db w))).
Proof.
  intros Hcu Hcl. unfold inject_notifications. rewrite Hcu, Hcl.
  now rewrite fold_schedule_alerts, fold_task_alerts.
Qed.

Lemma overdue_in_task_alert (today x : string) (t : Task.t) :
  In ("OVERDUE: " ++ x)%string (task_alert today t) ->
  String.ltb (Task.deadline t) today = true /\ Task.title t = x.
Proof.
  unfold task_alert.
  destruct (String.ltb (Task.deadline t) today);
    [|destruct (Task.deadline t =? today)]; simpl; intros H.
  - destruct H as [H|[]]. injection H as H. now split.
  - destruct H as [H|[]]. discriminate H.
  - destruct H.
Qed.

Lemma overdue_not_in_schedule_alert (today x : string) (s : Schedule.t) :
  ~ In ("OVERDUE: " ++ x)%string (schedule_alert today s).
Proof.
  unfold schedule_alert.
  destruct (Schedule.date s =? today);
    [|destruct (String.ltb today (Schedule.date s))]; simpl; intros H.
  - destruct H as [H|[]]. discriminate H.
  - destruct H as [H|[]]. discriminate H.
  - destruct H.
Qed.

(** C4: while the cleared flag is off, every open task of the logged-in user
    with a deadline before today puts ["OVERDUE: <title>"] into the
    notifications; every such entry stems from an open overdue task of that
    user; and a task whose status is ["Completed"] adds nothing: the list is
    the one computed without that task. *)
Theorem overdue_notification_for_open_tasks_only
    (w : World) (today : string) (cu : User.t) :
  current_user w = Some cu ->
  notifications_cleared (session w) = false ->
  (forall t, In t (tasks (db w)) -> overdue_for cu today t ->
     In ("OVERDUE: " ++ Task.title t)%string (inject_notifications w today))
  /\ (forall x,
        In ("OVERDUE: " ++ x)%string (inject_notifications w today) ->
        exists t, In t (tasks (db w)) /\ overdue_for cu today t
                  /\ Task.title t = x)
  /\ (forall l1 t l2,
        tasks (db w) = l1 ++ t :: l2 ->
        Task.status t = "Completed" ->
        inject_notifications (commit w (with_tasks (db w) (l1 ++ l2))) today
        = inject_notifications w today).
Proof.
  intros Hcu Hcl. split; [|split].
  - intros t Hin (Hass & Hst & Hdl).
    rewrite (inject_notifications_eq _ _ _ Hcu Hcl).
    apply in_or_app. left. apply in_flat_map. exists t. split.
    + apply filter_In. split; [apply filter_In; split|].
      * exact Hin.
      * now apply String.eqb_eq.
      * apply negb_true_iff. now apply String.eqb_neq.
    + unfold task_alert. rewrite Hdl. now left.
  - intros x Hin. rewrite (inject_notifications_eq _ _ _ Hcu Hcl) in Hin.
    apply in_app_or in Hin. destruct Hin as [Hin|Hin].
    + apply in_flat_map in Hin. destruct Hin as (t & Ht & Hx).
      apply filter_In in Ht. destruct Ht as [Ht Hst].
      apply filter_In in Ht. destruct Ht as [Ht Hass].
      apply overdue_in_task_alert in Hx. destruct Hx as [Hdl Htitle].
      exists t. repeat split; auto.
      * now apply String.eqb_eq.
      * apply String.eqb_neq. now apply negb_true_iff.
    + apply in_flat_map in Hin. destruct Hin as (s & _ & Hx).
      now apply overdue_not_in_schedule_alert in Hx.
  - intros l1 t l2 Htasks Hst.
    assert (Hcu' : current_user (commit w (with_tasks (db w) (l1 ++ l2)))
                   = Some cu) by exact Hcu.
    rewrite (inject_notifications_eq _ _ _ Hcu' Hcl).
    rewrite (inject_notifications_eq _ _ _ Hcu Hcl).
    simpl. rewrite Htasks. f_equal. f_equal.
    rewrite !filter_app. simpl.
    destruct (Task.assignee t =? User.username cu); [|reflexivity].
    simpl. rewrite Hst. reflexivity.
Qed.

(** Once [clear_notifications] has run, the list is empty. *)
Lemma clear_notifications_silences (w : World) (req : Request)
    (today : string) (cu : User.t) :
  current_user w = Some cu ->
  inject_notifications (fst (clear_notifications w req)) today = []
  /\ db (fst (clear_notifications w req)) = db w
  /\ snd (clear_notifications w req) = RedirectBack (referrer req).
Proof.
  intros Hcu. unfold clear_notifications.
  rewrite (login_required_some _ _ _ Hcu). simpl.
  unfold inject_notifications.
  match goal with
  | |- context [current_user ?w'] =>
      assert (Hcu' : current_user w' = Some cu) by exact Hcu
  end.
  rewrite Hcu'. simpl. auto.
Qed.

(** ** Binary64 arithmetic of the percentage

    [Py.int_percent] never raises on counts below [2^53]: the quotient and
    the product are zero or finite, so [int] has a value. *)

Module Binary64.
Local Open Scope Z_scope.

Lemma fexp64 (e : Z) : fexp 53 1024 e = Z.max (e - 53) (-1074).
Proof. reflexivity. Qed.

Lemma digits2_size (p : positive) : digits2_pos p = Pos.size p.
Proof. induction p; simpl; congruence. Qed.

Lemma Zdigits2_bound (m D : Z) :
0 <= m < 2 ^ D -> 0 <= D -> 0 <= Zdigits2 m <= D.
Proof.
intros [Hm HD] HD0. destruct m as [|p|p]; simpl; try lia.
rewrite digits2_size. split; [lia|].
pose proof (Pos.size_le p) as Hle.
apply Pos2Z.pos_le_pos in Hle. rewrite Pos2Z.inj_pow in Hle.
rewrite (Pos2Z.inj_xO p) in Hle.
assert (H : 2 ^ Z.pos (Pos.size p) < 2 ^ (D + 1)).
{ replace (D + 1) with (Z.succ D) by lia. rewrite Z.pow_succ_r by lia. lia. }
apply Z.pow_lt_mono_r_iff in H; lia.
Qed.

Lemma Zdigits2_pos_gt (p : positive) : Z.pos p < 2 ^ Zdigits2 (Z.pos p).
Proof.
simpl. rewrite digits2_size. pose proof (Pos.size_gt p) as H.
apply Pos2Z.pos_lt_pos in H. now rewrite Pos2Z.inj_pow in H.
Qed.

Lemma iter_xO (k p : positive) : Z.pos (Pos.iter xO p k) = Z.pos p * 2 ^ Z.pos k.
Proof.
induction k as [|k IH] using Pos.peano_ind.
- simpl. lia.
- rewrite Pos.iter_succ, Pos2Z.inj_xO, IH, Pos2Z.inj_succ, Z.pow_succ_r; lia.
Qed.

Lemma shr_m_of_loc (m : Z) (l : location) : shr_m (shr_record_of_loc m l) = m.
Proof. destruct l as [|[]]; reflexivity. Qed.

Lemma shr_1_bound (B : Z) (mrs : shr_record) :
0 <= shr_m mrs <= B -> 0 <= shr_m (shr_1 mrs) <= B.
Proof.
destruct mrs as [m r s]. simpl. destruct m as [|[p|p|]|p]; simpl; lia.
Qed.

Lemma iter_pos_invariant {A} (f : A -> A) (P : A -> Prop) :
(forall x, P x -> P (f x)) -> forall n x, P x -> P (iter_pos f n x).
Proof.
intros Hf. induction n as [n IH|n IH|]; simpl; intros x Hx; auto.
Qed.

Lemma shr_fexp_bound (B m e : Z) (l : location) :
0 <= m <= B ->
0 <= shr_m (fst (shr_fexp 53 1024 m e l)) <= B
/\ (snd (shr_fexp 53 1024 m e l) = e
    \/ (snd (shr_fexp 53 1024 m e l) = fexp 53 1024 (Zdigits2 m + e)
        /\ e < fexp 53 1024 (Zdigits2 m + e))).
Proof.
intros Hm. unfold shr_fexp, shr.
destruct (fexp 53 1024 (Zdigits2 m + e) - e) as [|n|n] eqn:E; simpl.
- rewrite shr_m_of_loc. auto.
- split.
  + apply (iter_pos_invariant shr_1 (fun mrs => 0 <= shr_m mrs <= B)).
    * apply shr_1_bound.
    * now rewrite shr_m_of_loc.
  + right. lia.
- rewrite shr_m_of_loc. auto.
Qed.

Lemma round_nearest_even_bound (m : Z) (l : location) :
m <= round_nearest_even m l <= m + 1.
Proof. destruct l as [|[]]; simpl; try destruct (Z.even m); lia. Qed.

(** Rounding a non-negative mantissa below [2^D] gives zero or a finite
  number whose exponent has moved up by at most [2 * max 0 (D - 52)]. *)
Lemma binary_round_aux_bounded (s : bool) (m e : Z) (l : location) (D : Z) :
0 <= m < 2 ^ D -> 0 <= D -> -1074 <= e ->
e + 2 * Z.max 0 (D - 52) <= 971 ->
binary_round_aux 53 1024 s m e l = S754_zero s
\/ exists m' e',
    binary_round_aux 53 1024 s m e l = S754_finite s m' e'
    /\ Z.pos m' < 2 ^ (D + 1)
    /\ e <= e' <= e + 2 * Z.max 0 (D - 52).
Proof.
intros Hm HD He Hb. unfold binary_round_aux.
pose proof (shr_fexp_bound (2 ^ D - 1) m e l ltac:(lia)) as [Hm1 He1].
pose proof (Zdigits2_bound m D Hm HD) as Hd.
rewrite fexp64 in He1.
destruct (shr_fexp 53 1024 m e l) as [mrs1 e1]. simpl in Hm1, He1.
set (m2 := round_nearest_even (shr_m mrs1) (loc_of_shr_record mrs1)).
pose proof (round_nearest_even_bound (shr_m mrs1) (loc_of_shr_record mrs1))
  as Hm2. fold m2 in Hm2.
assert (Hm2' : 0 <= m2 < 2 ^ (D + 1))
  by (replace (D + 1) with (Z.succ D) by lia;
      rewrite Z.pow_succ_r by lia; lia).
pose proof (shr_fexp_bound (2 ^ (D + 1) - 1) m2 e1 loc_Exact ltac:(lia))
  as [Hm3 He2].
pose proof (Zdigits2_bound m2 (D + 1) Hm2' ltac:(lia)) as Hd2.
rewrite fexp64 in He2.
destruct (shr_fexp 53 1024 m2 e1 loc_Exact) as [mrs2 e2]. simpl in Hm3, He2.
destruct (shr_m mrs2) as [|m3|m3] eqn:E3; [now left| |lia].
right. exists m3, e2.
assert (He2' : e <= e2 <= e + 2 * Z.max 0 (D - 52)) by lia.
replace (e2 <=? 1024 - 53) with true by (symmetry; apply Z.leb_le; lia).
repeat split; lia.
Qed.

Lemma shr_fexp_noshift (m e : Z) (l : location) :
fexp 53 1024 (Zdigits2 m + e) <= e ->
shr_fexp 53 1024 m e l = (shr_record_of_loc m l, e).
Proof.
intros H. unfold shr_fexp, shr.
destruct (fexp 53 1024 (Zdigits2 m + e) - e) eqn:E; try reflexivity. lia.
Qed.

Lemma binary_round_aux_exact (s : bool) (m : positive) (e : Z) :
Z.pos m < 2 ^ 53 -> -1074 <= e <= 971 ->
binary_round_aux 53 1024 s (Z.pos m) e loc_Exact = S754_finite s m e.
Proof.
intros Hm He.
pose proof (Zdigits2_bound (Z.pos m) 53 ltac:(lia) ltac:(lia)) as Hd.
assert (Hf : fexp 53 1024 (Zdigits2 (Z.pos m) + e) <= e)
  by (rewrite fexp64; lia).
unfold binary_round_aux. rewrite (shr_fexp_noshift _ _ _ Hf). simpl shr_m.
simpl loc_of_shr_record. simpl round_nearest_even.
rewrite (shr_fexp_noshift _ _ _ Hf). simpl.
replace (e <=? 971) with true by (symmetry; apply Z.leb_le; lia).
reflexivity.
Qed.

(** A positive integer below [2^53] converts to itself, normalised. *)
Lemma float_of_int_pos (p : positive) :
Z.pos p < 2 ^ 53 ->
exists m e,
  Py.float_of_int (Z.pos p) = S754_finite false m e
  /\ Z.pos m < 2 ^ 53 /\ -52 <= e <= 0.
Proof.
intros Hp. unfold Py.float_of_int, binary_normalize, binary_round.
pose proof (Zdigits2_bound (Z.pos p) 53 ltac:(lia) ltac:(lia)) as Hd.
pose proof (Zdigits2_pos_gt p) as Hgt.
simpl Zdigits2 in Hd, Hgt. rewrite fexp64. unfold shl_align.
set (d := Z.pos (digits2_pos p)) in *.
assert (Hmax : Z.max (d + 0 - 53) (-1074) = d - 53) by lia.
rewrite Hmax.
destruct (d - 53 - 0) as [|k|k] eqn:E.
- exists p, 0. rewrite binary_round_aux_exact by lia. repeat split; lia.
- lia.
- exists (Pos.iter xO p k), (d - 53).
  assert (Hk : Z.pos (Pos.iter xO p k) < 2 ^ 53).
  { rewrite iter_xO.
    replace 53 with (d + Z.pos k) by lia.
    rewrite Z.pow_add_r by lia.
    apply Z.mul_lt_mono_pos_r; [|exact Hgt].
    apply Z.pow_pos_nonneg; lia. }
  rewrite binary_round_aux_exact by lia. repeat split; lia.
Qed.

Lemma SFdiv_bounded (s1 s2 : bool) (m1 m2 : positive) (e1 e2 : Z) :
Z.pos m1 < 2 ^ 53 -> Z.pos m2 < 2 ^ 53 ->
-52 <= e1 <= 0 -> -52 <= e2 <= 0 ->
SFdiv 53 1024 (S754_finite s1 m1 e1) (S754_finite s2 m2 e2)
= S754_zero (xorb s1 s2)
\/ exists m e,
    SFdiv 53 1024 (S754_finite s1 m1 e1) (S754_finite s2 m2 e2)
    = S754_finite (xorb s1 s2) m e
    /\ Z.pos m < 2 ^ 160 /\ -158 <= e <= 266.
Proof.
intros Hm1 Hm2 He1 He2. unfold SFdiv, SFdiv_core_binary.
pose proof (Zdigits2_bound (Z.pos m1) 53 ltac:(lia) ltac:(lia)) as Hd1.
pose proof (Zdigits2_bound (Z.pos m2) 53 ltac:(lia) ltac:(lia)) as Hd2.
rewrite fexp64.
set (d1 := Zdigits2 (Z.pos m1)) in *. set (d2 := Zdigits2 (Z.pos m2)) in *.
set (e' := Z.min (Z.max (d1 + e1 - (d2 + e2) - 53) (-1074)) (e1 - e2)).
assert (He' : -158 <= e' <= 52) by (unfold e'; lia).
assert (Hs : 0 <= e1 - e2 - e' <= 106) by (unfold e'; lia).
set (m' := match e1 - e2 - e' with
           | 0 => Z.pos m1
           | Z.pos _ => Z.shiftl (Z.pos m1) (e1 - e2 - e')
           | Z.neg _ => 0
           end).
assert (Hm' : 0 <= m' < 2 ^ 159).
{ unfold m'. destruct (e1 - e2 - e') as [|k|k] eqn:E; [lia| |lia].
  rewrite Z.shiftl_mul_pow2 by lia.
  assert (Hpow : 0 < 2 ^ Z.pos k <= 2 ^ 106).
  { split; [apply Z.pow_pos_nonneg; lia | apply Z.pow_le_mono_r; lia]. }
  change (2 ^ 159) with (2 ^ 53 * 2 ^ 106). nia. }
destruct (Z.div_eucl m' (Z.pos m2)) as [q r] eqn:Ediv.
assert (Hq : q = m' / Z.pos m2) by (unfold Z.div; now rewrite Ediv).
assert (Hqb : 0 <= q < 2 ^ 159).
{ subst q. split; [apply Z.div_pos; lia|].
  apply Z.le_lt_trans with m'; [|lia].
  apply Z.div_le_upper_bound; nia. }
destruct (binary_round_aux_bounded (xorb s1 s2) q e'
            (new_location (Z.pos m2) r) 159 Hqb ltac:(lia) ltac:(lia)
            ltac:(lia)) as [H|(m & e & H & Hm & He)].
- now left.
- right. exists m, e. split; [exact H|]. split; [exact Hm | lia].
Qed.

Lemma SFmul_bounded (s : bool) (m : positive) (e : Z) :
Z.pos m < 2 ^ 160 -> -158 <= e <= 266 ->
SFmul 53 1024 (S754_finite s m e) (Py.float_of_int 100) = S754_zero s
\/ exists m' e',
    SFmul 53 1024 (S754_finite s m e) (Py.float_of_int 100)
    = S754_finite s m' e'.
Proof.
intros Hm He.
change (Py.float_of_int 100)
  with (S754_finite false 7036874417766400 (-46)).
unfold SFmul. rewrite xorb_false_r.
assert (Hp : 0 <= Z.pos (m * 7036874417766400) < 2 ^ 213).
{ rewrite Pos2Z.inj_mul. change (2 ^ 213) with (2 ^ 160 * 2 ^ 53). nia. }
destruct (binary_round_aux_bounded s (Z.pos (m * 7036874417766400))
            (e + -46) loc_Exact 213 Hp ltac:(lia) ltac:(lia) ltac:(lia))
  as [H|(m' & e' & H & _)].
- now left.
- right. now exists m', e'.
Qed.

Lemma int_percent_returns (part total : Z) :
0 <= part < 2 ^ 53 -> total < 2 ^ 53 ->
exists r, Py.int_percent part total = Py.Ok r.
Proof.
intros Hpart Htotal. unfold Py.int_percent.
destruct (total >? 0) eqn:Epos; [|now exists 0].
apply Z.gtb_lt in Epos. unfold Py.truediv.
replace (total =? 0) with false by (symmetry; apply Z.eqb_neq; lia).
unfold Py.bind, Py.mul_int.
destruct total as [|pt|pt]; try lia.
destruct (float_of_int_pos pt Htotal) as (m2 & e2 & -> & Hm2 & He2).
destruct part as [|pp|pp]; try lia.
- now exists 0.
- destruct (float_of_int_pos pp ltac:(lia)) as (m1 & e1 & -> & Hm1 & He1).
  destruct (SFdiv_bounded false false m1 m2 e1 e2 Hm1 Hm2 He1 He2)
    as [->|(m & e & -> & Hm & He)].
  + now exists 0.
  + destruct (SFmul_bounded (xorb false false) m e Hm He)
      as [->|(m' & e' & ->)]; simpl; eauto.
Qed.

End Binary64.

(** ** The dashboards *)

Lemma upcoming_schedules_In (w : World) (cu : User.t) (today : string)
    (s : Schedule.t) :
  In s (upcoming_schedules w cu today)
  <-> In s (schedules (db w))
      /\ (Schedule.target_dept s = "All"
          \/ Schedule.target_dept s = User.department cu)
      /\ String.leb today (Schedule.date s) = true.
Proof.
  unfold upcoming_schedules. rewrite filter_In, andb_true_iff, orb_true_iff.
  now rewrite !String.eqb_eq.
Qed.

Lemma upcoming_shown_by_target (w : World) (cu : User.t) (today : string)
    (s : Schedule.t) :
  In s (schedules (db w)) ->
  String.leb today (Schedule.date s) = true ->
  shown_by_target s cu (upcoming_schedules w cu today).
Proof.
  intros Hin Hdate. split.
  - intros Hall. apply upcoming_schedules_In. auto.
  - intros Hne. rewrite upcoming_schedules_In. split.
    + intros (_ & [H|H] & _); [contradiction | exact H].
    + auto.
Qed.

Lemma len_filter_le {A} (f : A -> bool) (l : list A) :
  (0 <= len (filter f l) <= len l)%Z.
Proof. unfold len. pose proof (filter_length_le f l). lia. Qed.

(** A Leader or an Admin gets the leader page: with fewer than [2^53] tasks
    the rate computation has a value. *)
Lemma leader_dashboard_renders (w : World) (today : string) (cu : User.t) :
  current_user w = Some cu ->
  User.role cu = "Leader" \/ User.role cu = "Admin" ->
  (len (tasks (db w)) < 2 ^ 53)%Z ->
  exists p,
    leader_dashboard w today
    = (w, Render "dashboard_leader.html" p (inject_notifications w today))
    /\ lp_schedules p = upcoming_schedules w cu today
    /\ lp_assigned_tasks p
       = filter (fun t => Task.assigner t =? User.full_name cu) (tasks (db w))
    /\ lp_total p = len (lp_assigned_tasks p)
    /\ Py.int_percent
         (len (filter (fun t => Task.status t =? "Completed")
                 (lp_assigned_tasks p)))
         (lp_total p) = Py.Ok (lp_rate p).
Proof.
  intros Hcu Hrole Hsize. unfold leader_dashboard.
  rewrite (login_required_some _ _ _ Hcu).
  assert (Hr : negb ((User.role cu =? "Leader") || (User.role cu =? "Admin"))
               = false).
  { apply negb_false_iff, orb_true_iff.
    destruct Hrole as [H|H]; [left|right]; now apply String.eqb_eq. }
  rewrite Hr.
  set (assigned := filter (fun t => Task.assigner t =? User.full_name cu)
                     (tasks (db w))).
  pose proof (len_filter_le (fun t => Task.assigner t =? User.full_name cu)
                (tasks (db w))) as Ha. fold assigned in Ha.
  pose proof (len_filter_le (fun t => Task.status t =? "Completed") assigned)
    as Hd.
  destruct (Binary64.int_percent_returns
              (len (filter (fun t => Task.status t =? "Completed") assigned))
              (len assigned) ltac:(lia) ltac:(lia)) as [rate Hrate].
  rewrite Hrate. eexists. split; [reflexivity|]. simpl. auto.
Qed.

(** Any leader page that is rendered carries the shared schedule query. *)
Lemma leader_dashboard_schedules (w : World) (today : string) (cu : User.t)
    (template : string) (p : LeaderPage) (n : list string) :
  current_user w = Some cu ->
  snd (leader_dashboard w today) = Render template p n ->
  lp_schedules p = upcoming_schedules w cu today.
Proof.
  intros Hcu. unfold leader_dashboard.
  rewrite (login_required_some _ _ _ Hcu).
  destruct (negb _); [discriminate|].
  destruct (Py.int_percent _ _); [|discriminate].
  unfold render_template. simpl. intros H. injection H as _ <- _. reflexivity.
Qed.

(** C8: a schedule dated today or later shows on the Employee dashboard, and
    on the Leader dashboard of a Leader or Admin, for users of every
    department when its target is ["All"], and when its target is a
    department name exactly for the users of that department. *)
Theorem upcoming_schedule_visibility
    (w : World) (today : string) (cu : User.t) (s : Schedule.t) :
  current_user w = Some cu ->
  In s (schedules (db w)) ->
  String.leb today (Schedule.date s) = true ->
  (exists p,
      employee_dashboard w today
      = (w, Render "dashboard_employee.html" p (inject_notifications w today))
      /\ shown_by_target s cu (ep_schedules p))
  /\ (User.role cu = "Leader" \/ User.role cu = "Admin" ->
      (len (tasks (db w)) < 2 ^ 53)%Z ->
      exists p,
        leader_dashboard w today
        = (w, Render "dashboard_leader.html" p (inject_notifications w today))
        /\ shown_by_target s cu (lp_schedules p))
  /\ (forall template p n,
        snd (leader_dashboard w today) = Render template p n ->
        shown_by_target s cu (lp_schedules p)).
Proof.
  intros Hcu Hin Hdate. split; [|split].
  - unfold employee_dashboard. rewrite (login_required_some _ _ _ Hcu).
    eexists. split; [reflexivity|]. simpl.
    now apply upcoming_shown_by_target.
  - intros Hrole Hsize.
    destruct (leader_dashboard_renders w today cu Hcu Hrole Hsize)
      as (p & Heq & Hs & _).
    exists p. split; [exact Heq|]. rewrite Hs.
    now apply upcoming_shown_by_target.
  - intros template p n Hp.
    rewrite (leader_dashboard_schedules _ _ _ _ _ _ Hcu Hp).
    now apply upcoming_shown_by_target.
Qed.

(** ** [manage_staff] *)

(** A taken username makes the insert fail, whatever else the form says. *)
Lemma create_staff_duplicate (hash : string -> string) (w : World)
    (req : Request) (password username fullname role designation department
                       : string) :
  form_item req "password" = Py.Ok password ->
  form_item req "username" = Py.Ok username ->
  form_item req "fullname" = Py.Ok fullname ->
  form_item req "role" = Py.Ok role ->
  form_item req "designation" = Py.Ok designation ->
  form_item req "department" = Py.Ok department ->
  In username (map User.username (users (db w))) ->
  create_staff hash w req = Py.Raise (Py.IntegrityError "user.username").
Proof.
  intros Hp Hu Hf Hr Hd Hdep Hin. unfold create_staff.
  rewrite Hp, Hu, Hf, Hr, Hd, Hdep. simpl. unfold insert_user.
  replace (existsb _ _) with true; [reflexivity|].
  symmetry. apply existsb_exists. apply in_map_iff in Hin.
  destruct Hin as (u & Hname & Hin). exists u. split; [exact Hin|].
  now apply String.eqb_eq.
Qed.

(** When the body of the [try] raises, nothing is stored and nothing is
    flashed.  A missing form field leaves the session usable and the staff
    page is rendered over the unchanged tables; a failed commit is never
    rolled back, so the query for the page raises and the request ends in an
    error. *)
Lemma manage_staff_after_failure
    (hash : string -> string) (w : World) (req : Request) (today : string)
    (cu : User.t) (e : Py.exn) :
  current_user w = Some cu ->
  User.role cu = "Admin" ->
  method req = "POST" ->
  create_staff hash w req = Py.Raise e ->
  fst (manage_staff hash w req today) = w
  /\ (forall c, e = Py.IntegrityError c ->
        snd (manage_staff hash w req today) = Raised Py.PendingRollbackError)
  /\ (forall k, e = Py.KeyError k ->
        snd (manage_staff hash w req today)
        = Render "manage_staff.html"
            {| sp_staff := users (db w); sp_depts := departments (db w) |}
            (inject_notifications w today)).
Proof.
  intros Hcu Hrole Hpost Hraise. unfold manage_staff.
  rewrite (login_required_some _ _ _ Hcu), Hrole, Hpost, Hraise. simpl negb.
  cbv iota. split; [now destruct (session_usable_after e)|].
  split; intros x ->; reflexivity.
Qed.

(** C7: an Admin posts a complete staff form whose username is taken.  The
    store refuses the insert and the exception is swallowed: no user is
    added, no table changes and nothing is flashed.  But the answer is not
    the staff page: the session was never rolled back, so the query for the
    page raises and the request ends in an error. *)
Theorem manage_staff_taken_username_is_an_error (hash : string -> string) :
  let w := Demo.logged_in Demo.data Demo.admin in
  let req := Demo.post [("password", ""); ("username", "eve");
                        ("fullname", "Eve Other"); ("role", "Employee");
                        ("designation", "Tutor"); ("department", "Math")] in
  create_staff hash w req = Py.Raise (Py.IntegrityError "user.username")
  /\ fst (manage_staff hash w req Demo.today) = w
  /\ snd (manage_staff hash w req Demo.today)
     = Raised Py.PendingRollbackError
  /\ rendered (snd (manage_staff hash w req Demo.today)) = None.
Proof. repeat split; reflexivity. Qed.

(** ** The completion rate of [leader_dashboard] *)

Lemma percent_agrees_below_50 :
  forallb (fun total => forallb (percent_agrees total) (seq 0 (S total)))
    (seq 0 50) = true.
Proof. vm_compute. reflexivity. Qed.

(** Up to forty-nine tasks the displayed rate is the integer quotient. *)
Lemma int_percent_floor_below_50 (part total : nat) :
  (part <= total < 50)%nat ->
  Py.int_percent (Z.of_nat part) (Z.of_nat total)
  = Py.Ok (floor_percent (Z.of_nat part) (Z.of_nat total)).
Proof.
  intros H. pose proof percent_agrees_below_50 as Hall.
  rewrite forallb_forall in Hall.
  specialize (Hall total ltac:(apply in_seq; lia)).
  rewrite forallb_forall in Hall.
  specialize (Hall part ltac:(apply in_seq; lia)).
  unfold percent_agrees in Hall.
  destruct (Py.int_percent _ _) as [r|]; [|discriminate].
  apply Z.eqb_eq in Hall. now subst r.
Qed.

(** With no assigned task the rate is 0. *)
Lemma leader_rate_zero_without_tasks (w : World) (today : string)
    (cu : User.t) :
  current_user w = Some cu ->
  User.role cu = "Leader" \/ User.role cu = "Admin" ->
  filter (fun t => Task.assigner t =? User.full_name cu) (tasks (db w)) = [] ->
  option_map lp_rate (rendered (snd (leader_dashboard w today))) = Some 0%Z
  /\ option_map lp_total (rendered (snd (leader_dashboard w today)))
     = Some 0%Z.
Proof.
  intros Hcu Hrole Hnone. unfold leader_dashboard.
  rewrite (login_required_some _ _ _ Hcu).
  replace (negb _) with false.
  - rewrite Hnone. simpl. split; reflexivity.
  - symmetry. apply negb_false_iff, orb_true_iff.
    destruct Hrole as [H|H]; [left|right]; now apply String.eqb_eq.
Qed.

(** C2: with fifty assigned tasks of which twenty-nine are completed the
    Leader dashboard shows a rate of 57, while the integer quotient of
    [100 * 29] by [50] is 58: the float product [(29/50)*100] lies just
    below 58 and [int] cuts it down. *)
Theorem leader_rate_29_of_50_is_57 :
  let page :=
    rendered (snd (leader_dashboard
                     (Demo.logged_in Demo.fifty_tasks Demo.lee)
                     Demo.today)) in
  option_map lp_total page = Some 50%Z
  /\ option_map
       (fun p => len (filter (fun t => Task.status t =? "Completed")
                        (lp_assigned_tasks p))) page = Some 29%Z
  /\ option_map lp_rate page = Some 57%Z
  /\ floor_percent 29 50 = 58%Z.
Proof. vm_compute. repeat split; reflexivity. Qed.

(** ** [meeting_analytics] *)

(** C1: with fifty meetings of which twenty-nine are productive the
    analytics page shows an efficiency of 57, while the integer quotient of
    [100 * 29] by [50] is 58. *)
Theorem analytics_efficiency_29_of_50_is_57 (like : string -> string -> bool) :
  let page :=
    rendered (snd (meeting_analytics like
                     (Demo.logged_in Demo.fifty_meetings Demo.admin)
                     (Demo.get []) Demo.today)) in
  option_map kpi_total page = Some 50%Z
  /\ option_map kpi_productive page = Some 29%Z
  /\ option_map kpi_efficiency page = Some 57%Z
  /\ floor_percent 29 50 = 58%Z.
Proof. vm_compute. repeat split; reflexivity. Qed.

(** The example of two meetings: two absentee tokens for one department,
    none for the other. *)
Example best_attendance_two_meetings (like : string -> string -> bool) :
  option_map kpi_best_att
    (rendered (snd (meeting_analytics like
                      (Demo.logged_in Demo.data Demo.admin)
                      (Demo.get []) Demo.today)))
  = Some (Some "Physics").
Proof. vm_compute. reflexivity. Qed.

(** *** Dictionaries and the stable sort *)

Section DictFacts.
Context {K V : Type} (eqb : K -> K -> bool).
Hypothesis eqb_eq : forall x y, eqb x y = true <-> x = y.

Lemma eqb_refl_true (k : K) : eqb k k = true.
Proof. now apply eqb_eq. Qed.

Lemma eqb_neq_false (k k' : K) : k <> k' -> eqb k k' = false.
Proof.
  intros Hne. destruct (eqb k k') eqn:E; [|reflexivity].
  apply eqb_eq in E. contradiction.
Qed.

Lemma get_set_same (d : list (K * V)) (k : K) (v default : V) :
  Py.get eqb (Py.set eqb d k v) k default = v.
Proof.
  induction d as [|[k' v'] d IH]; simpl.
  - now rewrite eqb_refl_true.
  - destruct (eqb k' k) eqn:E; simpl; now rewrite E.
Qed.

Lemma get_set_other (d : list (K * V)) (k k' : K) (v default : V) :
  k <> k' ->
  Py.get eqb (Py.set eqb d k v) k' default = Py.get eqb d k' default.
Proof.
  intros Hne. induction d as [|[k0 v0] d IH]; simpl.
  - now rewrite (eqb_neq_false _ _ Hne).
  - destruct (eqb k0 k) eqn:E; simpl.
    + apply eqb_eq in E. subst k0. now rewrite (eqb_neq_false _ _ Hne).
    + now rewrite IH.
Qed.

Lemma keys_set_in (d : list (K * V)) (k : K) (v : V) :
  In k (map fst d) -> map fst (Py.set eqb d k v) = map fst d.
Proof.
  induction d as [|[k' v'] d IH]; simpl; intros Hin; [contradiction|].
  destruct (eqb k' k) eqn:E; simpl; [reflexivity|].
  f_equal. apply IH. destruct Hin as [<-|Hin]; [|exact Hin].
  now rewrite eqb_refl_true in E.
Qed.

Lemma keys_set_notin (d : list (K * V)) (k : K) (v : V) :
  ~ In k (map fst d) -> map fst (Py.set eqb d k v) = map fst d ++ [k].
Proof.
  induction d as [|[k' v'] d IH]; simpl; intros Hn; [reflexivity|].
  destruct (eqb k' k) eqn:E; simpl.
  - apply eqb_eq in E. exfalso. apply Hn. now left.
  - f_equal. apply IH. intros Hin. apply Hn. now right.
Qed.

Lemma get_of_item (d : list (K * V)) (k : K) (v default : V) :
  NoDup (map fst d) -> In (k, v) d -> Py.get eqb d k default = v.
Proof.
  induction d as [|[k' v'] d IH]; simpl; intros Hnd Hin; [contradiction|].
  inversion Hnd as [|? ? Hnotin Hnd']; subst.
  destruct Hin as [Heq|Hin].
  - injection Heq as -> ->. now rewrite eqb_refl_true.
  - destruct (eqb k' k) eqn:E; [|now apply IH].
    apply eqb_eq in E. subst k'. exfalso. apply Hnotin.
    apply in_map_iff. now exists (k, v).
Qed.

Lemma existsb_eqb_In (k : K) (l : list K) :
  existsb (eqb k) l = true <-> In k l.
Proof.
  rewrite existsb_exists. split.
  - intros (x & Hin & E). apply eqb_eq in E. now subst.
  - intros Hin. exists k. split; [exact Hin | apply eqb_refl_true].
Qed.
End DictFacts.

Section SortedFacts.
Context {A : Type} (key : A -> Z).

Lemma insert_not_nil (x : A) (l : list A) : Py.insert key x l <> [].
Proof. destruct l as [|y l]; simpl; [|destruct (key x <=? key y)%Z]; discriminate. Qed.

Lemma sorted_nil_inv (l : list A) : Py.sorted key l = [] -> l = [].
Proof.
  destruct l as [|x l]; simpl; [reflexivity|].
  intros H. now apply insert_not_nil in H.
Qed.

(** The head of the sorted list is the first item of least key: every
    item before it in the input has a greater key, no item has a smaller. *)
Lemma sorted_head_least (l : list A) (m : A) (rest : list A) :
  Py.sorted key l = m :: rest ->
  exists l1 l2,
    l = l1 ++ m :: l2
    /\ (forall y, In y l1 -> (key m < key y)%Z)
    /\ (forall y, In y l2 -> (key m <= key y)%Z).
Proof.
  revert m rest. induction l as [|x l IH]; simpl; intros m rest Hs.
  - discriminate.
  - destruct (Py.sorted key l) as [|m' rest'] eqn:E.
    + apply sorted_nil_inv in E. subst l. simpl in Hs.
      injection Hs as <- _. exists [], []. repeat split; intros y [].
    + destruct (IH m' rest' eq_refl) as (l1 & l2 & Hl & Hlt & Hle).
      simpl in Hs. destruct (key x <=? key m')%Z eqn:Ecmp.
      * injection Hs as <- _. apply Z.leb_le in Ecmp.
        exists [], l. repeat split; [intros y []|].
        intros y Hy. rewrite Hl in Hy. apply in_app_or in Hy.
        destruct Hy as [Hy|[<-|Hy]].
        -- specialize (Hlt y Hy). lia.
        -- exact Ecmp.
        -- specialize (Hle y Hy). lia.
      * injection Hs as <- _. apply Z.leb_gt in Ecmp.
        exists (x :: l1), l2. repeat split.
        -- simpl. now f_equal.
        -- intros y [<-|Hy]; [exact Ecmp | now apply Hlt].
        -- exact Hle.
Qed.
End SortedFacts.

(** *** The absentee dictionary and the best-attendance department *)

Lemma option_eqb_eq (x y : option string) : option_eqb x y = true <-> x = y.
Proof.
  destruct x as [a|], y as [b|]; simpl; try (split; congruence).
  rewrite String.eqb_eq. split; congruence.
Qed.

Lemma count_by_department_snd (ms : list Meeting.t) :
  snd (count_by_department ms) = fold_left add_absentees ms [].
Proof.
  unfold count_by_department. generalize (@nil (option string * Z)) at 1.
  generalize (@nil (option string * Z)).
  induction ms as [|m ms IH]; intros ac dc; simpl; [reflexivity|].
  apply IH.
Qed.

Lemma absentee_counts_get (ms : list Meeting.t)
    (ac : list (option string * Z)) (d : option string) :
  Py.get option_eqb (fold_left add_absentees ms ac) d 0%Z
  = (Py.get option_eqb ac d 0 + absentee_total d ms)%Z.
Proof.
  revert ac. induction ms as [|m ms IH]; intros ac; simpl; [lia|].
  rewrite IH. unfold add_absentees.
  destruct (option_eqb (Meeting.department m) d) eqn:E.
  - apply option_eqb_eq in E. subst d.
    rewrite (get_set_same option_eqb option_eqb_eq). lia.
  - rewrite (get_set_other option_eqb option_eqb_eq); [lia|].
    intros Heq. apply option_eqb_eq in Heq. congruence.
Qed.

Lemma absentee_counts_keys (ms : list Meeting.t)
    (ac : list (option string * Z)) :
  map fst (fold_left add_absentees ms ac)
  = map fst ac ++ first_seen (map fst ac) (map Meeting.department ms).
Proof.
  revert ac. induction ms as [|m ms IH]; intros ac; simpl.
  - now rewrite app_nil_r.
  - rewrite IH. unfold add_absentees.
    destruct (existsb (option_eqb (Meeting.department m)) (map fst ac)) eqn:E.
    + apply (existsb_eqb_In option_eqb option_eqb_eq) in E.
      now rewrite (keys_set_in option_eqb option_eqb_eq _ _ _ E).
    + assert (Hn : ~ In (Meeting.department m) (map fst ac)).
      { intros Hin.
        apply (existsb_eqb_In option_eqb option_eqb_eq) in Hin. congruence. }
      rewrite (keys_set_notin option_eqb option_eqb_eq _ _ _ Hn).
      now rewrite <- app_assoc.
Qed.

Lemma first_seen_NoDup (seen l : list (option string)) :
  NoDup seen -> NoDup (seen ++ first_seen seen l).
Proof.
  revert seen. induction l as [|k l IH]; intros seen Hnd; simpl.
  - now rewrite app_nil_r.
  - destruct (existsb (option_eqb k) seen) eqn:E; [now apply IH|].
    assert (Hn : ~ In k seen).
    { intros Hin.
      apply (existsb_eqb_In option_eqb option_eqb_eq) in Hin. congruence. }
    change (k :: first_seen (seen ++ [k]) l)
      with ([k] ++ first_seen (seen ++ [k]) l).
    rewrite app_assoc. apply IH. now apply NoDup_snoc.
Qed.

Lemma first_seen_In (seen l : list (option string)) (d : option string) :
  In d (seen ++ first_seen seen l) <-> In d seen \/ In d l.
Proof.
  revert seen. induction l as [|k l IH]; intros seen; simpl.
  - rewrite app_nil_r. tauto.
  - destruct (existsb (option_eqb k) seen) eqn:E.
    + apply (existsb_eqb_In option_eqb option_eqb_eq) in E.
      rewrite IH. split; [tauto|]. intros [H|[<-|H]]; tauto.
    + change (k :: first_seen (seen ++ [k]) l)
        with ([k] ++ first_seen (seen ++ [k]) l).
      rewrite app_assoc, IH, in_app_iff. simpl. tauto.
Qed.

Lemma first_seen_nil_In (l : list (option string)) (d : option string) :
  In d (first_seen [] l) <-> In d l.
Proof. pose proof (first_seen_In [] l d) as H. simpl in H. tauto. Qed.

(** The best-attendance half of the analytics: with no meeting selected the
    page says ["N/A"]; otherwise it names a department of a selected meeting
    whose absentee tokens, summed over its meetings, are the fewest, and
    every department entered into the dictionary before it has strictly
    more.  The dictionary lists the departments in order of first
    appearance. *)
Theorem best_attendance_fewest_absentees (ms : list Meeting.t) :
  let items := snd (count_by_department ms) in
  (ms = [] -> best_attendance items = Some "N/A")
  /\ map fst items = first_seen [] (map Meeting.department ms)
  /\ (ms <> [] ->
      exists d l1 l2,
        best_attendance items = d
        /\ items = l1 ++ (d, absentee_total d ms) :: l2
        /\ In d (map Meeting.department ms)
        /\ (forall m, In m ms ->
              (absentee_total d ms
               <= absentee_total (Meeting.department m) ms)%Z)
        /\ (forall d' c', In (d', c') l1 -> (absentee_total d ms < c')%Z)).
Proof.
  cbv zeta. rewrite count_by_department_snd.
  pose proof (absentee_counts_keys ms []) as Hkeys. simpl in Hkeys.
  pose proof (first_seen_NoDup [] (map Meeting.department ms) (NoDup_nil _))
    as Hnd. simpl in Hnd. rewrite <- Hkeys in Hnd.
  assert (Hget : forall d c, In (d, c) (fold_left add_absentees ms []) ->
                             c = absentee_total d ms).
  { intros d c Hin.
    rewrite <- (get_of_item option_eqb option_eqb_eq _ d c 0%Z Hnd Hin).
    now rewrite absentee_counts_get. }
  split; [|split].
  - intros ->. reflexivity.
  - exact Hkeys.
  - intros Hne. unfold best_attendance.
    destruct (Py.sorted snd (fold_left add_absentees ms [])) as [|[d c] rest]
      eqn:Es.
    + apply sorted_nil_inv in Es. rewrite Es in Hkeys.
      destruct ms as [|m ms]; [contradiction|]. discriminate Hkeys.
    + destruct (sorted_head_least snd _ _ _ Es) as (l1 & l2 & Hl & Hlt & Hle).
      assert (Hc : c = absentee_total d ms).
      { apply Hget. rewrite Hl. apply in_or_app. right. now left. }
      subst c. exists d, l1, l2. split; [reflexivity|]. split; [exact Hl|].
      split; [|split].
      * apply first_seen_nil_In. rewrite <- Hkeys, Hl.
        apply in_map_iff. exists (d, absentee_total d ms). split; [reflexivity|].
        apply in_or_app. right. now left.
      * intros m Hm.
        assert (Hk : In (Meeting.department m)
                       (map fst (fold_left add_absentees ms []))).
        { rewrite Hkeys. apply first_seen_nil_In. now apply in_map. }
        apply in_map_iff in Hk. destruct Hk as ([d' c'] & Hd' & Hin).
        simpl in Hd'. subst d'. rewrite <- (Hget _ _ Hin).
        rewrite Hl in Hin. apply in_app_or in Hin.
        destruct Hin as [Hin|[Heq|Hin]].
        -- specialize (Hlt _ Hin). simpl in Hlt. lia.
        -- injection Heq as _ <-. lia.
        -- specialize (Hle _ Hin). simpl in Hle. lia.
      * intros d' c' Hin. specialize (Hlt _ Hin). exact Hlt.
Qed.

(** The analytics page, field by field. *)
Lemma meeting_analytics_page (like : string -> string -> bool) (w : World)
    (req : Request) (today : string) (cu : User.t) :
  current_user w = Some cu ->
  (len (meetings (db w)) < 2 ^ 53)%Z ->
  let selected := filter_meetings like w (dept_arg req) (args_get req "month") in
  (0 <= len selected <= len (meetings (db w)))%Z
  /\ exists p,
      meeting_analytics like w req today
      = (w, Render "meeting_analytics.html" p (inject_notifications w today))
      /\ ap_meetings p = selected
      /\ kpi_total p = len selected
      /\ kpi_productive p
         = len (filter (fun m => py_eq (Meeting.productive m) "Yes") selected)
      /\ Py.int_percent (kpi_productive p) (kpi_total p)
         = Py.Ok (kpi_efficiency p)
      /\ (selected = [] -> kpi_efficiency p = 0%Z)
      /\ kpi_best_att p = best_attendance (snd (count_by_department selected)).
Proof.
  intros Hcu Hsize selected.
  assert (Hsel : (0 <= len selected <= len (meetings (db w)))%Z).
  { unfold selected, filter_meetings.
    pose proof (len_filter_le
                  (fun m => sql_eq (Meeting.department m) (dept_arg req))
                  (meetings (db w))) as H1.
    destruct (negb (dept_arg req =? "All"));
      destruct (args_get req "month") as [mo|];
      try destruct (Py.truthy mo);
      try match goal with
          | |- context [filter ?f ?l] => pose proof (len_filter_le f l)
          end; unfold len in *; lia. }
  split; [exact Hsel|].
  unfold meeting_analytics. rewrite (login_required_some _ _ _ Hcu).
  fold (dept_arg req). fold selected.
  pose proof (len_filter_le (fun m => py_eq (Meeting.productive m) "Yes")
                selected) as Hprod.
  destruct (Binary64.int_percent_returns
              (len (filter (fun m => py_eq (Meeting.productive m) "Yes")
                      selected))
              (len selected) ltac:(lia) ltac:(lia)) as [eff Heff].
  rewrite Heff.
  destruct (count_by_department selected) as [dept_counts absentee_counts]
    eqn:Ecount.
  eexists. split; [reflexivity|]. simpl.
  repeat split; try assumption.
  intros Hnil. rewrite Hnil in Heff. simpl in Heff. now injection Heff.
Qed.

Example token_count_examples :
  token_count "J. Doe, M. Lee" = 2%Z
  /\ token_count "" = 0%Z
  /\ token_count " , ,Kim,," = 1%Z.
Proof. vm_compute. repeat split; reflexivity. Qed.

(** ** The statements at work on the example database *)

Lemma update_status_sets_status_and_stamps_witness :
  let w := Demo.logged_in Demo.data Demo.eve in
  current_user w = Some Demo.eve
  /\ query_get Task.id (tasks (db w)) 1 = Some Demo.report
  /\ exists t',
      query_get Task.id
        (tasks (db (fst (update_status w (Demo.get []) Demo.today 1
                           "Completed")))) 1 = Some t'
      /\ Task.status t' = "Completed"
      /\ Task.completion_date t' = Some Demo.today.
Proof.
  split; [reflexivity|]. split; [reflexivity|].
  destruct (update_status_sets_status_and_stamps
              (Demo.logged_in Demo.data Demo.eve) (Demo.get [])
              Demo.today 1 "Completed" Demo.eve Demo.report
              eq_refl eq_refl) as (t' & Hget & Hst & Hstamp & _).
  exists t'. split; [exact Hget|]. split; [exact Hst|]. now apply Hstamp.
Defined.

Lemma update_status_keeps_completion_date_witness :
  let w := Demo.logged_in Demo.data Demo.eve in
  current_user w = Some Demo.eve
  /\ query_get Task.id (tasks (db w)) 2 = Some Demo.slides
  /\ Task.completion_date Demo.slides = Some "2024-04-19"
  /\ "In Progress" <> "Completed"
  /\ exists t',
      query_get Task.id
        (tasks (db (fst (update_status w (Demo.get []) Demo.today 2
                           "In Progress")))) 2 = Some t'
      /\ Task.completion_date t' = Some "2024-04-19"
      /\ Task.status t' = "In Progress".
Proof.
  split; [reflexivity|]. split; [reflexivity|]. split; [reflexivity|].
  split; [discriminate|].
  destruct (update_status_keeps_completion_date
              (Demo.logged_in Demo.data Demo.eve) (Demo.get [])
              Demo.today 2 "In Progress" Demo.eve Demo.slides
              "2024-04-19" eq_refl eq_refl eq_refl
              ltac:(discriminate)) as (t' & Hget & Hdate & Hst & _).
  exists t'. split; [exact Hget|]. split; [exact Hdate | exact Hst].
Defined.

Lemma example_user_ids_distinct :
  NoDup (map User.id (users Demo.data)).
Proof.
  simpl. repeat constructor; simpl; intuition discriminate.
Defined.

Lemma delete_user_rejects_self_removes_one_other_witness :
  let w := Demo.logged_in Demo.data Demo.admin in
  current_user w = Some Demo.admin
  /\ NoDup (map User.id (users (db w)))
  /\ delete_user w 1 = (w, Redirect "manage_staff")
  /\ exists l1 l2,
      users (db w) = l1 ++ Demo.eve :: l2
      /\ users (db (fst (delete_user w 3))) = l1 ++ l2
      /\ tasks (db (fst (delete_user w 3))) = tasks (db w).
Proof.
  split; [reflexivity|]. split; [exact example_user_ids_distinct|].
  split.
  - destruct (delete_user_rejects_self_removes_one_other
                (Demo.logged_in Demo.data Demo.admin) 1
                Demo.admin eq_refl example_user_ids_distinct)
      as [Hself _].
    exact (proj1 (Hself eq_refl)).
  - destruct (delete_user_rejects_self_removes_one_other
                (Demo.logged_in Demo.data Demo.admin) 3
                Demo.admin eq_refl example_user_ids_distinct)
      as [_ Hother].
    destruct (Hother Demo.eve ltac:(discriminate) eq_refl)
      as (l1 & l2 & Hsplit & Husers & _ & _ & Htasks & _).
    exists l1, l2. split; [exact Hsplit|]. split; [exact Husers|exact Htasks].
Defined.

Lemma example_department_names_distinct :
  NoDup (map Department.name (departments Demo.data)).
Proof.
  simpl. repeat constructor; simpl; intuition discriminate.
Defined.

Lemma add_department_idempotent_names_unique_witness :
  let w := Demo.logged_in Demo.data Demo.admin in
  let req := Demo.post [("dept_name", "Chemistry")] in
  NoDup (map Department.name (departments (db w)))
  /\ NoDup (map Department.name (departments (db (fst (add_department w req)))))
  /\ departments (db (fst (add_department (fst (add_department w req)) req)))
     = departments (db (fst (add_department w req))).
Proof.
  destruct (add_department_idempotent_names_unique
              (Demo.logged_in Demo.data Demo.admin)
              (Demo.post [("dept_name", "Chemistry")]))
    as (_ & Hidem & Huniq).
  split; [exact example_department_names_distinct|].
  split; [exact (Huniq example_department_names_distinct) | exact Hidem].
Defined.


Lemma overdue_notification_for_open_tasks_only_witness :
  let w := Demo.logged_in Demo.data Demo.eve in
  current_user w = Some Demo.eve
  /\ notifications_cleared (session w) = false
  /\ In Demo.report (tasks (db w))
  /\ overdue_for Demo.eve Demo.today Demo.report
  /\ In "OVERDUE: Report" (inject_notifications w Demo.today).
Proof.
  assert (Hover : overdue_for Demo.eve Demo.today Demo.report).
  { split; [reflexivity|]. split; [discriminate | reflexivity]. }
  split; [reflexivity|]. split; [reflexivity|].
  split; [now left|]. split; [exact Hover|].
  destruct (overdue_notification_for_open_tasks_only
              (Demo.logged_in Demo.data Demo.eve) Demo.today
              Demo.eve eq_refl eq_refl) as (Hin & _).
  exact (Hin Demo.report (or_introl eq_refl) Hover).
Defined.

Lemma upcoming_schedule_visibility_witness :
  let w := Demo.logged_in Demo.data Demo.eve in
  current_user w = Some Demo.eve
  /\ In Demo.lab_sync (schedules (db w))
  /\ String.leb Demo.today (Schedule.date Demo.lab_sync) = true
  /\ exists p,
      employee_dashboard w Demo.today
      = (w, Render "dashboard_employee.html" p
              (inject_notifications w Demo.today))
      /\ shown_by_target Demo.lab_sync Demo.eve (ep_schedules p).
Proof.
  split; [reflexivity|]. split; [right; now left|]. split; [reflexivity|].
  destruct (upcoming_schedule_visibility
              (Demo.logged_in Demo.data Demo.eve) Demo.today
              Demo.eve Demo.lab_sync eq_refl
              (or_intror (or_introl eq_refl)) eq_refl) as (Hemp & _).
  exact Hemp.
Defined.


(** * Further properties of the views *)

(** ** Notifications *)

Lemma string_ltb_irrefl (s : string) : String.ltb s s = false.
Proof.
  unfold String.ltb. pose proof (String.compare_antisym s s) as H.
  destruct (String.compare s s); simpl in H; congruence.
Qed.

Lemma string_ltb_neq (a b : string) : String.ltb a b = true -> a <> b.
Proof. intros H ->. rewrite string_ltb_irrefl in H. discriminate. Qed.

Lemma in_task_alert (today a : string) (t : Task.t) :
  In a (task_alert today t)
  <-> (String.ltb (Task.deadline t) today = true
       /\ a = ("OVERDUE: " ++ Task.title t)%string)
      \/ (Task.deadline t = today
          /\ a = ("DUE TODAY: " ++ Task.title t)%string).
Proof.
  unfold task_alert.
  destruct (String.ltb (Task.deadline t) today) eqn:Elt.
  - simpl. split.
    + intros [<-|[]]. left. auto.
    + intros [[_ ->]|[Heq _]]; [now left|].
      apply string_ltb_neq in Elt. contradiction.
  - destruct (Task.deadline t =? today) eqn:Eeq; simpl.
    + apply String.eqb_eq in Eeq. split.
      * intros [<-|[]]. right. auto.
      * intros [[H _]|[_ ->]]; [discriminate | now left].
    + apply String.eqb_neq in Eeq. split; [intros []|].
      intros [[H _]|[H _]]; [discriminate | contradiction].
Qed.

Lemma in_schedule_alert (today a : string) (s : Schedule.t) :
  In a (schedule_alert today s)
  <-> (Schedule.date s = today
       /\ a = ("MEETING TODAY: " ++ Schedule.title s
                ++ " @ " ++ Schedule.time s)%string)
      \/ (String.ltb today (Schedule.date s) = true
          /\ a = ("UPCOMING: " ++ Schedule.title s
                   ++ " (" ++ Schedule.date s ++ ")")%string).
Proof.
  unfold schedule_alert.
  destruct (Schedule.date s =? today) eqn:Eeq.
  - apply String.eqb_eq in Eeq. simpl. split.
    + intros [<-|[]]. left. auto.
    + intros [[_ ->]|[Hlt _]]; [now left|].
      apply string_ltb_neq in Hlt. congruence.
  - apply String.eqb_neq in Eeq.
    destruct (String.ltb today (Schedule.date s)) eqn:Elt; simpl.
    + split.
      * intros [<-|[]]. right. auto.
      * intros [[H _]|[_ ->]]; [contradiction | now left].
    + split; [intros []|].
      intros [[H _]|[H _]]; [contradiction | discriminate].
Qed.

(** X1: while the cleared flag is off, the notifications are exactly these:
    for each open task of the user, OVERDUE when its deadline is before
    today and DUE TODAY when it is today; for each schedule addressed to
    everybody or to the user's department, MEETING TODAY when dated today
    and UPCOMING when dated later.  Tasks due later and schedules of the
    past give nothing. *)
Theorem notifications_are_exactly
    (w : World) (today : string) (cu : User.t) (a : string) :
  current_user w = Some cu ->
  notifications_cleared (session w) = false ->
  In a (inject_notifications w today)
  <-> (exists t,
          In t (tasks (db w))
          /\ Task.assignee t = User.username cu
          /\ Task.status t <> "Completed"
          /\ ((String.ltb (Task.deadline t) today = true
               /\ a = ("OVERDUE: " ++ Task.title t)%string)
              \/ (Task.deadline t = today
                  /\ a = ("DUE TODAY: " ++ Task.title t)%string)))
      \/ (exists s,
             In s (schedules (db w))
             /\ (Schedule.target_dept s = "All"
                 \/ Schedule.target_dept s = User.department cu)
             /\ ((Schedule.date s = today
                  /\ a = ("MEETING TODAY: " ++ Schedule.title s
                           ++ " @ " ++ Schedule.time s)%string)
                 \/ (String.ltb today (Schedule.date s) = true
                     /\ a = ("UPCOMING: " ++ Schedule.title s
                              ++ " (" ++ Schedule.date s ++ ")")%string))).
Proof.
  intros Hcu Hcl. rewrite (inject_notifications_eq _ _ _ Hcu Hcl).
  rewrite in_app_iff, !in_flat_map. split.
  - intros [(t & Ht & Ha)|(s & Hs & Ha)].
    + left. exists t. apply filter_In in Ht. destruct Ht as [Ht Hst].
      apply filter_In in Ht. destruct Ht as [Ht Hass].
      apply in_task_alert in Ha. repeat split; auto.
      * now apply String.eqb_eq.
      * apply String.eqb_neq. now apply negb_true_iff.
    + right. exists s. apply filter_In in Hs. destruct Hs as [Hs Haddr].
      apply in_schedule_alert in Ha. repeat split; auto.
      apply orb_true_iff in Haddr.
      destruct Haddr as [H|H]; [left|right]; now apply String.eqb_eq.
  - intros [(t & Ht & Hass & Hst & Ha)|(s & Hs & Haddr & Ha)].
    + left. exists t. split; [|now apply in_task_alert].
      apply filter_In. split; [apply filter_In; split|]; auto.
      * now apply String.eqb_eq.
      * apply negb_true_iff. now apply String.eqb_neq.
    + right. exists s. split; [|now apply in_schedule_alert].
      apply filter_In. split; [exact Hs|]. apply orb_true_iff.
      destruct Haddr as [H|H]; [left|right]; now apply String.eqb_eq.
Qed.

Lemma notifications_are_exactly_witness :
  let w := Demo.logged_in Demo.data Demo.eve in
  current_user w = Some Demo.eve
  /\ notifications_cleared (session w) = false
  /\ In "UPCOMING: Town hall (2024-05-03)"
       (inject_notifications w Demo.today).
Proof.
  split; [reflexivity|]. split; [reflexivity|].
  apply (notifications_are_exactly
           (Demo.logged_in Demo.data Demo.eve) Demo.today Demo.eve
           "UPCOMING: Town hall (2024-05-03)" eq_refl eq_refl).
  right. exists Demo.town_hall.
  split; [now left|]. split; [now left|]. right. split; reflexivity.
Defined.

(** ** Composing [update_status] with the notifications *)

Lemma open_tasks_after_completion (table : list Task.t) (t' : Task.t)
    (f : Task.t -> bool) :
  Task.status t' = "Completed" ->
  filter (fun t => negb (Task.status t =? "Completed"))
    (filter f (update_task table t'))
  = filter (fun t => negb (Task.status t =? "Completed"))
      (filter f (delete_row Task.id table (Task.id t'))).
Proof.
  intros Hst. unfold update_task, delete_row.
  induction table as [|x table IH]; simpl; [reflexivity|].
  destruct (Task.id x =? Task.id t')%Z; simpl.
  - destruct (f t'); simpl; [|exact IH]. rewrite Hst. simpl. exact IH.
  - destruct (f x); simpl; [|exact IH].
    destruct (negb (Task.status x =? "Completed")); [now f_equal | exact IH].
Qed.

(** X2: marking a task ["Completed"] takes its alerts out of the list and
    touches no other alert: the notifications afterwards are those of the
    database without that task. *)
Theorem completing_a_task_removes_its_alerts
    (w : World) (req : Request) (stamp today : string) (id : Z)
    (cu : User.t) (t : Task.t) :
  current_user w = Some cu ->
  query_get Task.id (tasks (db w)) id = Some t ->
  inject_notifications (fst (update_status w req stamp id "Completed")) today
  = inject_notifications
      (commit w (with_tasks (db w) (delete_row Task.id (tasks (db w)) id)))
      today.
Proof.
  intros Hcu Ht.
  rewrite (update_status_world _ req stamp _ "Completed" _ _ Hcu Ht). simpl fst.
  destruct (query_get_pk _ _ _ _ Ht) as [_ Hid].
  unfold inject_notifications.
  match goal with
  | |- context [current_user (commit w ?d)] =>
      assert (Hc1 : current_user (commit w d) = Some cu) by exact Hcu
  end.
  rewrite Hc1.
  match goal with
  | |- _ = match current_user ?w2 with _ => _ end =>
      assert (Hc2 : current_user w2 = Some cu) by exact Hcu
  end.
  rewrite Hc2. simpl.
  destruct (notifications_cleared (session w)); [reflexivity|].
  rewrite (open_tasks_after_completion _ (updated_task t "Completed" stamp))
    by reflexivity.
  now rewrite updated_task_id, Hid.
Qed.

Lemma completing_a_task_removes_its_alerts_witness :
  let w := Demo.logged_in Demo.data Demo.eve in
  current_user w = Some Demo.eve
  /\ query_get Task.id (tasks (db w)) 1 = Some Demo.report
  /\ In "OVERDUE: Report" (inject_notifications w Demo.today)
  /\ ~ In "OVERDUE: Report"
         (inject_notifications
            (fst (update_status w (Demo.get []) Demo.today 1 "Completed"))
            Demo.today).
Proof.
  split; [reflexivity|]. split; [reflexivity|]. split; [now left|].
  rewrite (completing_a_task_removes_its_alerts
             (Demo.logged_in Demo.data Demo.eve) (Demo.get []) Demo.today
             Demo.today 1 Demo.eve Demo.report eq_refl eq_refl).
  simpl. intros [H|[]]. discriminate H.
Defined.

(** ** Clearing tasks and meetings *)

Lemma filter_after_negated {A} (f : A -> bool) (l : list A) :
  filter f (filter (fun x => negb (f x)) l) = [].
Proof.
  induction l as [|x l IH]; simpl; [reflexivity|].
  destruct (f x) eqn:E; simpl; [exact IH | now rewrite E].
Qed.

Lemma role_leader_or_admin (cu : User.t) :
  User.role cu = "Leader" \/ User.role cu = "Admin" ->
  negb ((User.role cu =? "Leader") || (User.role cu =? "Admin")) = false.
Proof.
  intros Hrole. apply negb_false_iff, orb_true_iff.
  destruct Hrole as [H|H]; [left|right]; now apply String.eqb_eq.
Qed.

(** X3: [clear_leader_tasks] deletes the tasks whose assigner is the
    logged-in user's full name and keeps every other task in place; the
    Leader dashboard then shows no assigned task, a total of 0 and a rate
    of 0. *)
Theorem clear_leader_tasks_empties_own_list
    (w : World) (req : Request) (today : string) (cu : User.t) :
  current_user w = Some cu ->
  User.role cu = "Leader" \/ User.role cu = "Admin" ->
  (forall t, In t (tasks (db (fst (clear_leader_tasks w req))))
             <-> In t (tasks (db w)) /\ Task.assigner t <> User.full_name cu)
  /\ users (db (fst (clear_leader_tasks w req))) = users (db w)
  /\ exists p,
      snd (leader_dashboard (fst (clear_leader_tasks w req)) today)
      = Render "dashboard_leader.html" p
          (inject_notifications (fst (clear_leader_tasks w req)) today)
      /\ lp_assigned_tasks p = []
      /\ lp_total p = 0%Z
      /\ lp_rate p = 0%Z.
Proof.
  intros Hcu Hrole. unfold clear_leader_tasks.
  rewrite (login_required_some _ _ _ Hcu). simpl fst.
  split; [|split; [reflexivity|]].
  - intros t. simpl. rewrite filter_In, negb_true_iff, String.eqb_neq.
    reflexivity.
  - unfold leader_dashboard.
    match goal with
    | |- context [login_required ?w' _] =>
        assert (Hcu' : current_user w' = Some cu) by exact Hcu
    end.
    rewrite (login_required_some _ _ _ Hcu'), (role_leader_or_admin _ Hrole).
    simpl tasks.
    rewrite (filter_after_negated
               (fun t => Task.assigner t =? User.full_name cu)).
    simpl. eexists. split; [reflexivity|]. simpl. auto.
Qed.

Lemma clear_leader_tasks_empties_own_list_witness :
  let w := Demo.logged_in Demo.fifty_tasks Demo.lee in
  current_user w = Some Demo.lee
  /\ (User.role Demo.lee = "Leader" \/ User.role Demo.lee = "Admin")
  /\ exists p,
      snd (leader_dashboard (fst (clear_leader_tasks w (Demo.get [])))
             Demo.today)
      = Render "dashboard_leader.html" p
          (inject_notifications (fst (clear_leader_tasks w (Demo.get [])))
             Demo.today)
      /\ lp_total p = 0%Z
      /\ lp_rate p = 0%Z.
Proof.
  split; [reflexivity|]. split; [now left|].
  destruct (clear_leader_tasks_empties_own_list
              (Demo.logged_in Demo.fifty_tasks Demo.lee) (Demo.get [])
              Demo.today Demo.lee eq_refl (or_introl eq_refl))
    as (_ & _ & p & Hp & _ & Htotal & Hrate).
  exists p. split; [exact Hp|]. split; [exact Htotal | exact Hrate].
Defined.

(** X4: [clear_data], open to every logged-in user, empties the Meeting
    table and nothing else; the analytics page then counts no meeting, shows
    an efficiency of 0 and ["N/A"] as best attendance, and the export has no
    line. *)
Theorem clear_data_empties_analytics
    (like : string -> string -> bool) (w : World) (req : Request)
    (today : string) (cu : User.t) :
  current_user w = Some cu ->
  meetings (db (fst (clear_data w))) = []
  /\ users (db (fst (clear_data w))) = users (db w)
  /\ tasks (db (fst (clear_data w))) = tasks (db w)
  /\ schedules (db (fst (clear_data w))) = schedules (db w)
  /\ departments (db (fst (clear_data w))) = departments (db w)
  /\ snd (clear_data w) = Redirect "admin_dashboard"
  /\ (exists p n,
         snd (meeting_analytics like (fst (clear_data w)) req today)
         = Render "meeting_analytics.html" p n
         /\ kpi_total p = 0%Z
         /\ kpi_efficiency p = 0%Z
         /\ kpi_best_att p = Some "N/A"
         /\ ap_dept_labels p = []
         /\ ap_absent_labels p = [])
  /\ (exists name body,
         snd (export_analytics (fst (clear_data w)) req) = SendFile name body
         /\ df_rows body = []).
Proof.
  intros Hcu. unfold clear_data. rewrite (login_required_some _ _ _ Hcu).
  simpl fst. simpl snd. repeat (split; [reflexivity|]).
  set (w' := commit w (with_meetings (db w) [])).
  assert (Hcu' : current_user w' = Some cu) by exact Hcu.
  assert (Hsel : forall d mo, filter_meetings like w' d mo = []).
  { intros d mo. unfold filter_meetings. simpl.
    destruct (negb (d =? "All")); destruct mo as [mo|];
      try destruct (Py.truthy mo); reflexivity. }
  split.
  - unfold meeting_analytics. rewrite (login_required_some _ _ _ Hcu').
    rewrite Hsel. simpl. do 2 eexists. split; [reflexivity|]. simpl. auto.
  - unfold export_analytics. rewrite (login_required_some _ _ _ Hcu').
    do 2 eexists. split; reflexivity.
Qed.

Lemma clear_data_empties_analytics_witness :
  let w := Demo.logged_in Demo.data Demo.eve in
  current_user w = Some Demo.eve
  /\ meetings (db (fst (clear_data w))) = []
  /\ exists p n,
      snd (meeting_analytics (fun _ _ => true) (fst (clear_data w))
             (Demo.get [("dept", "Math")]) Demo.today)
      = Render "meeting_analytics.html" p n
      /\ kpi_best_att p = Some "N/A".
Proof.
  split; [reflexivity|].
  destruct (clear_data_empties_analytics (fun _ _ => true)
              (Demo.logged_in Demo.data Demo.eve)
              (Demo.get [("dept", "Math")]) Demo.today Demo.eve eq_refl)
    as (Hm & _ & _ & _ & _ & _ & (p & n & Hp & _ & _ & Hbest & _) & _).
  split; [exact Hm|]. exists p, n. split; [exact Hp | exact Hbest].
Defined.

(** ** Creating tasks and schedules *)

Lemma next_id_above {A} (pk : A -> Z) (table : list A) (r : A) :
  In r table -> (pk r < next_id pk table)%Z.
Proof.
  unfold next_id. induction table as [|x table IH]; simpl; [intros []|].
  intros [<-|Hin]; [lia|]. specialize (IH Hin). lia.
Qed.

Lemma next_id_fresh {A} (pk : A -> Z) (table : list A) :
  ~ In (next_id pk table) (map pk table).
Proof.
  intros Hin. apply in_map_iff in Hin. destruct Hin as (r & Hr & Hin).
  apply (next_id_above pk) in Hin. lia.
Qed.

(** X5: [assign_task] appends one task: pending, not yet completed, assigned
    by the logged-in user, in the department of the user named as assignee
    or in ["General"] when no user has that name, under a key no task had;
    the assigner's own list grows by that task and nothing is flashed but
    the success message. *)
Theorem assign_task_appends_pending_task
    (w : World) (req : Request) (cu : User.t)
    (title assignee deadline : string) :
  current_user w = Some cu ->
  form_item req "title" = Py.Ok title ->
  form_item req "assignee" = Py.Ok assignee ->
  form_item req "deadline" = Py.Ok deadline ->
  exists t,
    tasks (db (fst (assign_task w req))) = tasks (db w) ++ [t]
    /\ Task.title t = title /\ Task.assignee t = assignee
    /\ Task.deadline t = deadline /\ Task.status t = "Pending"
    /\ Task.completion_date t = None
    /\ Task.assigner t = User.full_name cu
    /\ Task.department t
       = match find (fun u => User.username u =? assignee) (users (db w)) with
         | Some a => User.department a
         | None => "General"
         end
    /\ ~ In (Task.id t) (map Task.id (tasks (db w)))
    /\ filter (fun x => Task.assigner x =? User.full_name cu)
         (tasks (db (fst (assign_task w req))))
       = filter (fun x => Task.assigner x =? User.full_name cu) (tasks (db w))
         ++ [t]
    /\ flashes (session (fst (assign_task w req)))
       = flashes (session w) ++ [("success", "Task Assigned!")]
    /\ snd (assign_task w req) = RedirectBack (referrer req).
Proof.
  intros Hcu Htitle Hass Hdl. unfold assign_task.
  rewrite (login_required_some _ _ _ Hcu), Hass, Htitle, Hdl. simpl.
  eexists. split; [reflexivity|]. simpl.
  repeat (split; [reflexivity|]).
  split; [apply next_id_fresh|].
  split; [|split; reflexivity].
  rewrite filter_app. simpl. now rewrite String.eqb_refl.
Qed.

Lemma assign_task_appends_pending_task_witness :
  let w := Demo.logged_in Demo.data Demo.lee in
  current_user w = Some Demo.lee
  /\ form_item Sample.task_form "title" = Py.Ok "Grades"
  /\ form_item Sample.task_form "assignee" = Py.Ok "eve"
  /\ form_item Sample.task_form "deadline" = Py.Ok "2024-04-01"
  /\ exists t,
      tasks (db (fst (assign_task w Sample.task_form))) = tasks (db w) ++ [t]
      /\ Task.status t = "Pending"
      /\ Task.department t = "Math".
Proof.
  split; [reflexivity|]. split; [reflexivity|]. split; [reflexivity|].
  split; [reflexivity|].
  destruct (assign_task_appends_pending_task
              (Demo.logged_in Demo.data Demo.lee) Sample.task_form Demo.lee
              "Grades" "eve" "2024-04-01" eq_refl eq_refl eq_refl eq_refl)
    as (t & Htasks & _ & _ & _ & Hst & _ & _ & Hdept & _).
  exists t. split; [exact Htasks|]. split; [exact Hst | exact Hdept].
Defined.

(** X6: a meeting scheduled for a later date is announced at once: every
    logged-in user it is addressed to (everybody for ["All"], else the
    users of the target department) whose cleared flag is off gets
    ["UPCOMING: <title> (<date>)"], and the schedule is on their dashboard
    list; it carries the scheduling user's full name. *)
Theorem scheduled_meeting_is_announced
    (w : World) (req : Request) (today : string) (cu : User.t)
    (title target date time mode : string) :
  current_user w = Some cu ->
  form_item req "title" = Py.Ok title ->
  form_item req "target_dept" = Py.Ok target ->
  form_item req "date" = Py.Ok date ->
  form_item req "time" = Py.Ok time ->
  form_item req "mode" = Py.Ok mode ->
  String.ltb today date = true ->
  exists s,
    schedules (db (fst (schedule_meeting w req))) = schedules (db w) ++ [s]
    /\ Schedule.title s = title /\ Schedule.target_dept s = target
    /\ Schedule.date s = date
    /\ Schedule.created_by s = User.full_name cu
    /\ forall (viewer : Session) (v : User.t),
        current_user (seen_by (fst (schedule_meeting w req)) viewer) = Some v ->
        notifications_cleared viewer = false ->
        target = "All" \/ target = User.department v ->
        In ("UPCOMING: " ++ title ++ " (" ++ date ++ ")")%string
          (inject_notifications
             (seen_by (fst (schedule_meeting w req)) viewer) today)
        /\ In s (upcoming_schedules
                   (seen_by (fst (schedule_meeting w req)) viewer) v today).
Proof.
  intros Hcu Htitle Htarget Hdate Htime Hmode Hlt. unfold schedule_meeting.
  rewrite (login_required_some _ _ _ Hcu), Htitle, Htarget, Hdate, Htime,
    Hmode. simpl.
  eexists. split; [reflexivity|]. simpl.
  repeat (split; [reflexivity|]).
  intros viewer v Hv Hcl Haddr.
  assert (Haddrb : (target =? "All") || (target =? User.department v) = true).
  { apply orb_true_iff. destruct Haddr as [H|H]; [left|right];
      now apply String.eqb_eq. }
  split.
  - rewrite (inject_notifications_eq _ _ _ Hv Hcl).
    apply in_or_app. right. apply in_flat_map. eexists. split.
    + apply filter_In. split.
      * simpl. apply in_or_app. right. now left.
      * exact Haddrb.
    + unfold schedule_alert. simpl.
      replace (date =? today) with false.
      * rewrite Hlt. now left.
      * symmetry. apply String.eqb_neq. intros ->.
        now rewrite string_ltb_irrefl in Hlt.
  - apply upcoming_schedules_In. simpl. split; [|split].
    + apply in_or_app. right. now left.
    + exact Haddr.
    + unfold String.leb. unfold String.ltb in Hlt.
      destruct (String.compare today date); congruence.
Qed.

Lemma scheduled_meeting_is_announced_witness :
  let w := Demo.logged_in Demo.data Demo.admin in
  let w' := fst (schedule_meeting w Sample.schedule_form) in
  current_user w = Some Demo.admin
  /\ String.ltb Demo.today "2024-06-01" = true
  /\ In "UPCOMING: Retreat (2024-06-01)"
       (inject_notifications
          (seen_by w' (session (Demo.logged_in Demo.data Demo.eve)))
          Demo.today).
Proof.
  split; [reflexivity|]. split; [reflexivity|].
  destruct (scheduled_meeting_is_announced
              (Demo.logged_in Demo.data Demo.admin) Sample.schedule_form
              Demo.today Demo.admin "Retreat" "All" "2024-06-01" "09:00"
              "Offline" eq_refl eq_refl eq_refl eq_refl eq_refl eq_refl
              eq_refl) as (s & _ & _ & _ & _ & _ & Hall).
  exact (proj1 (Hall (session (Demo.logged_in Demo.data Demo.eve)) Demo.eve
                  eq_refl eq_refl (or_introl eq_refl))).
Defined.

(** ** Logging a meeting and reading it back *)




Lemma nonblank_after_space (x : string) :
  Py.truthy (Py.strip (String " " x)) = nonblank x.
Proof. reflexivity. Qed.





(** *** Substrings *)

Lemma prefix_app (s t : string) : String.prefix s (s ++ t) = true.
Proof.
  induction s as [|c s IH]; simpl; [now destruct t|].
  destruct (ascii_dec c c); [exact IH | contradiction].
Qed.

Lemma prefix_split (b s : string) :
  String.prefix b s = true -> exists post, s = (b ++ post)%string.
Proof.
  revert s. induction b as [|c b IH]; intros s H.
  - now exists s.
  - destruct s as [|d s]; simpl in H; [discriminate|].
    destruct (ascii_dec c d) as [<-|]; [|discriminate].
    destruct (IH s H) as [post ->]. now exists post.
Qed.

Lemma contains_of_prefix (sub s : string) :
  String.prefix sub s = true -> Py.contains sub s = true.
Proof.
  intros H. destruct s as [|c r].
  - change (Py.contains sub EmptyString)
      with (String.prefix sub EmptyString || false).
    now rewrite H.
  - change (Py.contains sub (String c r))
      with (String.prefix sub (String c r) || Py.contains sub r).
    now rewrite H.
Qed.

Lemma contains_tail (sub : string) (c : ascii) (s : string) :
  Py.contains sub s = true -> Py.contains sub (String c s) = true.
Proof.
  intros H. change (Py.contains sub (String c s))
    with (String.prefix sub (String c s) || Py.contains sub s).
  rewrite H. apply orb_true_r.
Qed.

Lemma contains_cases (sub s : string) :
  Py.contains sub s = true ->
  String.prefix sub s = true
  \/ exists c r, s = String c r /\ Py.contains sub r = true.
Proof.
  destruct s as [|c r]; intros H.
  - change (Py.contains sub EmptyString)
      with (String.prefix sub EmptyString || false) in H.
    apply orb_true_iff in H. destruct H as [H|H]; [now left | discriminate].
  - change (Py.contains sub (String c r))
      with (String.prefix sub (String c r) || Py.contains sub r) in H.
    apply orb_true_iff in H.
    destruct H as [H|H]; [now left | right; now exists c, r].
Qed.

Lemma contains_app_l (sub pre s : string) :
  Py.contains sub s = true -> Py.contains sub (pre ++ s) = true.
Proof.
  intros H. induction pre as [|c pre IH]; simpl; [exact H|].
  now apply contains_tail.
Qed.

Lemma prefix_app_r (a b post : string) :
  String.prefix a b = true -> String.prefix a (b ++ post) = true.
Proof.
  revert b. induction a as [|c a IH]; intros b H.
  - now destruct (b ++ post)%string.
  - destruct b as [|d b]; simpl in *; [discriminate|].
    destruct (ascii_dec c d); [now apply IH | discriminate].
Qed.

Lemma contains_app_r (a b post : string) :
  Py.contains a b = true -> Py.contains a (b ++ post) = true.
Proof.
  induction b as [|c b IH]; intros H.
  - apply contains_cases in H. destruct H as [H|(c & r & Heq & _)].
    + apply contains_of_prefix. now apply (prefix_app_r a EmptyString post).
    + discriminate.
  - apply contains_cases in H. destruct H as [H|(c' & r & Heq & Hr)].
    + apply contains_of_prefix. now apply (prefix_app_r a (String c b) post).
    + injection Heq as <- <-. simpl. apply contains_tail. now apply IH.
Qed.

Lemma contains_trans (a b s : string) :
  Py.contains a b = true -> Py.contains b s = true ->
  Py.contains a s = true.
Proof.
  intros Hab. induction s as [|c s IH]; intros Hbs.
  - apply contains_cases in Hbs. destruct Hbs as [H|(c & r & Heq & _)].
    + apply prefix_split in H. destruct H as [post ->].
      now apply contains_app_r.
    + discriminate.
  - apply contains_cases in Hbs. destruct Hbs as [H|(c' & r & Heq & Hr)].
    + apply prefix_split in H. destruct H as [post ->].
      now apply contains_app_r.
    + injection Heq as <- <-. apply contains_tail. now apply IH.
Qed.

Lemma contains_join (sep x : string) (l : list string) :
  In x l -> Py.contains x (str_join sep l) = true.
Proof.
  induction l as [|p l IH]; [intros []|].
  destruct l as [|q l].
  - intros [<-|[]]. simpl. apply contains_of_prefix.
    rewrite <- (prefix_app p EmptyString) at 1.
    f_equal. clear. induction p; simpl; congruence.
  - intros [<-|Hin].
    + apply contains_of_prefix. apply prefix_app.
    + change (str_join sep (p :: q :: l))
        with (p ++ (sep ++ str_join sep (q :: l)))%string.
      apply contains_app_l, contains_app_l. now apply IH.
Qed.

Lemma employee_dashboard_page (w : World) (today : string) (cu : User.t) :
  current_user w = Some cu ->
  exists p,
    employee_dashboard w today
    = (w, Render "dashboard_employee.html" p (inject_notifications w today))
    /\ ep_meetings p
       = filter (fun m => Py.contains (User.full_name cu) (Meeting.attendees m))
           (meetings (db w))
    /\ ep_attended p = len (ep_meetings p)
    /\ ep_missed p
       = len (filter (fun m => Py.contains (User.full_name cu)
                                 (Meeting.absentees m)) (meetings (db w)))
    /\ ep_tasks p
       = filter (fun t => Task.assignee t =? User.username cu) (tasks (db w)).
Proof.
  intros Hcu. unfold employee_dashboard.
  rewrite (login_required_some _ _ _ Hcu). eexists.
  split; [reflexivity|]. simpl. auto.
Qed.

(** X8: a user selected among the attendees of a logged meeting finds that
    meeting on the Employee dashboard: the attended list is the former one
    followed by the new meeting, and the attended count is one higher. *)
Theorem logged_attendee_sees_meeting
    (w : World) (req : Request) (today : string) (cu : User.t)
    (viewer : Session) (v : User.t) :
  current_user w = Some cu ->
  method req = "POST" ->
  current_user (seen_by w viewer) = Some v ->
  In (User.full_name v) (form_getlist req "Attendees") ->
  exists m p p',
    meetings (db (fst (log_meeting w req today))) = meetings (db w) ++ [m]
    /\ snd (employee_dashboard (seen_by w viewer) today)
       = Render "dashboard_employee.html" p
           (inject_notifications (seen_by w viewer) today)
    /\ snd (employee_dashboard
              (seen_by (fst (log_meeting w req today)) viewer) today)
       = Render "dashboard_employee.html" p'
           (inject_notifications
              (seen_by (fst (log_meeting w req today)) viewer) today)
    /\ ep_meetings p' = ep_meetings p ++ [m]
    /\ ep_attended p' = (ep_attended p + 1)%Z.
Proof.
  intros Hcu Hpost Hv Hin. unfold log_meeting.
  rewrite (login_required_some _ _ _ Hcu), Hpost. simpl fst.
  set (m := meeting_of_form (next_id Meeting.id (meetings (db w))) req).
  destruct (employee_dashboard_page _ today v Hv)
    as (p & Hp & Hmeet & Hatt & _).
  match goal with
  | |- context [employee_dashboard ?w2 today] =>
      match w2 with
      | seen_by w viewer => fail 1
      | _ => assert (Hv' : current_user w2 = Some v) by exact Hv;
             destruct (employee_dashboard_page w2 today v Hv')
               as (p' & Hp' & Hmeet' & Hatt' & _)
      end
  end.
  exists m, p, p'. split; [reflexivity|].
  rewrite Hp, Hp'. split; [reflexivity|]. split; [reflexivity|].
  assert (Hlist : ep_meetings p' = ep_meetings p ++ [m]).
  { assert (Hc : Py.contains (User.full_name v) (Meeting.attendees m) = true)
      by (unfold m; simpl; now apply contains_join).
    rewrite Hmeet', Hmeet. clearbody m. simpl. rewrite filter_app. simpl.
    now rewrite Hc. }
  split; [exact Hlist|].
  rewrite Hatt', Hatt, Hlist. unfold len. rewrite length_app. simpl. lia.
Qed.

Lemma logged_attendee_sees_meeting_witness :
  let w := Demo.logged_in Demo.data Demo.lee in
  let viewer := session (Demo.logged_in Demo.data Demo.eve) in
  current_user w = Some Demo.lee
  /\ method Sample.meeting_form = "POST"
  /\ current_user (seen_by w viewer) = Some Demo.eve
  /\ In (User.full_name Demo.eve) (form_getlist Sample.meeting_form "Attendees")
  /\ exists p',
      snd (employee_dashboard
             (seen_by (fst (log_meeting w Sample.meeting_form Demo.today))
                viewer) Demo.today)
      = Render "dashboard_employee.html" p'
          (inject_notifications
             (seen_by (fst (log_meeting w Sample.meeting_form Demo.today))
                viewer) Demo.today)
      /\ ep_attended p' = 3%Z.
Proof.
  split; [reflexivity|]. split; [reflexivity|]. split; [reflexivity|].
  split; [now left|].
  destruct (logged_attendee_sees_meeting
              (Demo.logged_in Demo.data Demo.lee) Sample.meeting_form
              Demo.today Demo.lee
              (session (Demo.logged_in Demo.data Demo.eve)) Demo.eve
              eq_refl eq_refl eq_refl (or_introl eq_refl))
    as (m & p & p' & _ & Hp & Hp' & _ & Hatt).
  exists p'. split; [exact Hp'|]. rewrite Hatt.
  injection Hp as <-. reflexivity.
Defined.

Lemma filter_length_mono {A} (f g : A -> bool) (l : list A) :
  (forall x, f x = true -> g x = true) ->
  (List.length (filter f l) <= List.length (filter g l))%nat.
Proof.
  intros Himp. induction l as [|x l IH]; simpl; [lia|].
  destruct (f x) eqn:Ef.
  - rewrite (Himp x Ef). simpl. lia.
  - destruct (g x); simpl; lia.
Qed.

(** X9: attendance is matched by substring, so a user whose full name occurs
    inside another user's full name is credited with every meeting of that
    user: the other's attended list is part of theirs, and their attended
    and missed counts are at least the other's. *)
Theorem name_inside_name_shares_attendance
    (w : World) (sa sb : Session) (today : string) (a b : User.t) :
  current_user (seen_by w sa) = Some a ->
  current_user (seen_by w sb) = Some b ->
  Py.contains (User.full_name a) (User.full_name b) = true ->
  exists pa pb,
    snd (employee_dashboard (seen_by w sa) today)
    = Render "dashboard_employee.html" pa
        (inject_notifications (seen_by w sa) today)
    /\ snd (employee_dashboard (seen_by w sb) today)
       = Render "dashboard_employee.html" pb
           (inject_notifications (seen_by w sb) today)
    /\ (forall m, In m (ep_meetings pb) -> In m (ep_meetings pa))
    /\ (ep_attended pb <= ep_attended pa)%Z
    /\ (ep_missed pb <= ep_missed pa)%Z.
Proof.
  intros Ha Hb Hsub.
  destruct (employee_dashboard_page _ today a Ha)
    as (pa & Hpa & Hma & Hatta & Hmissa & _).
  destruct (employee_dashboard_page _ today b Hb)
    as (pb & Hpb & Hmb & Hattb & Hmissb & _).
  exists pa, pb. rewrite Hpa, Hpb.
  split; [reflexivity|]. split; [reflexivity|].
  assert (Himp : forall s, Py.contains (User.full_name b) s = true ->
                           Py.contains (User.full_name a) s = true)
    by (intros s; now apply contains_trans).
  split; [|split].
  - intros m. rewrite Hmb, Hma, !filter_In. intros [Hin Hc]. auto.
  - rewrite Hatta, Hattb, Hma, Hmb. unfold len.
    apply inj_le, filter_length_mono. intros m. apply Himp.
  - rewrite Hmissa, Hmissb. unfold len.
    apply inj_le, filter_length_mono. intros m. apply Himp.
Qed.

Lemma name_inside_name_shares_attendance_witness :
  let d := with_users Demo.data
             [Demo.eve;
              User.Build 4 "eve2" "$2b$12$d" "Eve Employee-Smith" "Employee"
                "Math" "Lecturer"] in
  let w := Demo.logged_in d Demo.eve in
  let sb := {| user_id := Some 4%Z; notifications_cleared := false;
               flashes := [] |} in
  Py.contains "Eve Employee" "Eve Employee-Smith" = true
  /\ exists pa pb,
      snd (employee_dashboard (seen_by w (session w)) Demo.today)
      = Render "dashboard_employee.html" pa
          (inject_notifications (seen_by w (session w)) Demo.today)
      /\ snd (employee_dashboard (seen_by w sb) Demo.today)
         = Render "dashboard_employee.html" pb
             (inject_notifications (seen_by w sb) Demo.today)
      /\ (ep_attended pb <= ep_attended pa)%Z.
Proof.
  split; [reflexivity|].
  destruct (name_inside_name_shares_attendance
              (Demo.logged_in
                 (with_users Demo.data
                    [Demo.eve;
                     User.Build 4 "eve2" "$2b$12$d" "Eve Employee-Smith"
                       "Employee" "Math" "Lecturer"]) Demo.eve)
              {| user_id := Some 3%Z; notifications_cleared := false;
                 flashes := [] |}
              {| user_id := Some 4%Z; notifications_cleared := false;
                 flashes := [] |}
              Demo.today Demo.eve
              (User.Build 4 "eve2" "$2b$12$d" "Eve Employee-Smith" "Employee"
                 "Math" "Lecturer")
              eq_refl eq_refl eq_refl)
    as (pa & pb & Hpa & Hpb & _ & Hatt & _).
  exists pa, pb. split; [exact Hpa|]. split; [exact Hpb | exact Hatt].
Defined.

(** ** Creating staff *)

Lemma create_staff_ok (hash : string -> string) (w w' : World)
    (req : Request) :
  create_staff hash w req = Py.Ok w' ->
  exists password username fullname role designation department,
    form_item req "password" = Py.Ok password
    /\ form_item req "username" = Py.Ok username
    /\ form_item req "fullname" = Py.Ok fullname
    /\ form_item req "role" = Py.Ok role
    /\ form_item req "designation" = Py.Ok designation
    /\ form_item req "department" = Py.Ok department
    /\ ~ In username (map User.username (users (db w)))
    /\ w' = commit w
              (with_users (db w)
                 (users (db w) ++
                    [User.Build (next_id User.id (users (db w))) username
                       (hash (if Py.truthy password then password
                              else "welcome123"))
                       fullname role department designation])).
Proof.
  unfold create_staff, insert_user.
  destruct (form_item req "password") as [password|]; [|discriminate].
  destruct (form_item req "username") as [username|]; [|discriminate].
  destruct (form_item req "fullname") as [fullname|]; [|discriminate].
  destruct (form_item req "role") as [role|]; [|discriminate].
  destruct (form_item req "designation") as [designation|]; [|discriminate].
  destruct (form_item req "department") as [department|]; [|discriminate].
  simpl.
  destruct (existsb (fun u => User.username u =? username) (users (db w)))
    eqn:Eex; simpl; [discriminate|].
  intros H. injection H as <-.
  exists password, username, fullname, role, designation, department.
  repeat split. intros Hin. apply in_map_iff in Hin.
  destruct Hin as (u & Hu & Hin).
  assert (Hex : existsb (fun u => User.username u =? username) (users (db w))
                = true).
  { apply existsb_exists. exists u. split; [exact Hin|].
    now apply String.eqb_eq. }
  congruence.
Qed.




(** X11: whatever the request, [manage_staff] keeps usernames pairwise
    distinct and keys pairwise distinct. *)
Theorem manage_staff_keeps_users_distinct
    (hash : string -> string) (w : World) (req : Request) (today : string) :
  NoDup (map User.username (users (db w))) ->
  NoDup (map User.id (users (db w))) ->
  NoDup (map User.username (users (db (fst (manage_staff hash w req today)))))
  /\ NoDup (map User.id (users (db (fst (manage_staff hash w req today))))).
Proof.
  intros Hnames Hids. unfold manage_staff, login_required.
  destruct (current_user w) as [cu|]; [|now split].
  destruct (negb (User.role cu =? "Admin")); [now split|].
  destruct (method req =? "POST"); [|now split].
  destruct (create_staff hash w req) as [w'|e] eqn:E;
    [|destruct (session_usable_after e); now split].
  destruct (create_staff_ok _ _ _ _ E)
    as (password & username & fullname & role & designation & department
        & _ & _ & _ & _ & _ & _ & Hfresh & ->).
  simpl. rewrite !map_app. simpl. split.
  - now apply NoDup_snoc.
  - apply NoDup_snoc; [exact Hids | apply next_id_fresh].
Qed.

Lemma manage_staff_keeps_users_distinct_witness :
  let w := Demo.logged_in Demo.data Demo.admin in
  NoDup (map User.username (users (db w)))
  /\ NoDup (map User.id (users (db w)))
  /\ NoDup (map User.username
              (users (db (fst (manage_staff Sample.hash w Sample.staff_form
                                 Demo.today)))))
  /\ List.length
       (users (db (fst (manage_staff Sample.hash w Sample.staff_form
                          Demo.today)))) = 4%nat.
Proof.
  assert (Hnames : NoDup (map User.username (users Demo.data))).
  { simpl. repeat constructor; simpl; intuition discriminate. }
  split; [exact Hnames|]. split; [exact example_user_ids_distinct|].
  split; [|reflexivity].
  exact (proj1 (manage_staff_keeps_users_distinct Sample.hash
                  (Demo.logged_in Demo.data Demo.admin) Sample.staff_form
                  Demo.today Hnames example_user_ids_distinct)).
Defined.

(** ** Logging in *)

(** X12: a POST to [login] changes who is logged in only when the username
    exists and the password checks against that user's hash: then the
    session holds that user's id, the cleared flag is reset, and the answer
    is the redirect chosen by the role.  An unknown username or a failing
    check leaves the session's user and flag as they were, flashes
    ["Invalid Credentials"] and shows the form again.  The database is never
    changed. *)
Theorem login_needs_valid_credentials
    (check : string -> string -> bool) (w : World) (req : Request)
    (today username : string) :
  method req = "POST" ->
  form_item req "username" = Py.Ok username ->
  let w' := fst (login check w req today) in
  let rejected :=
    user_id (session w') = user_id (session w)
    /\ notifications_cleared (session w')
       = notifications_cleared (session w)
    /\ flashes (session w')
       = flashes (session w) ++ [("danger", "Invalid Credentials")]
    /\ snd (login check w req today)
       = Render "login.html" tt (inject_notifications w' today) in
  db w' = db w
  /\ (find (fun u => User.username u =? username) (users (db w)) = None ->
      rejected)
  /\ (forall user password,
        find (fun u => User.username u =? username) (users (db w))
        = Some user ->
        form_item req "password" = Py.Ok password ->
        (check (User.password_hash user) password = false -> rejected)
        /\ (check (User.password_hash user) password = true ->
            user_id (session w') = Some (User.id user)
            /\ notifications_cleared (session w') = false
            /\ flashes (session w') = flashes (session w)
            /\ snd (login check w req today)
               = Redirect (if User.role user =? "Admin"
                           then "admin_dashboard"
                           else if User.role user =? "Leader"
                                then "leader_dashboard"
                                else "employee_dashboard"))).
Proof.
  intros Hpost Huser. cbv zeta. unfold login. rewrite Hpost, Huser.
  destruct (find (fun u => User.username u =? username) (users (db w)))
    as [user|] eqn:Efind.
  - destruct (form_item req "password") as [password|e] eqn:Epw.
    + destruct (check (User.password_hash user) password) eqn:Echeck.
      * split.
        { destruct (User.role user =? "Admin");
            [|destruct (User.role user =? "Leader")]; reflexivity. }
        split; [discriminate|].
        intros user' password' Hu' Hp'. injection Hu' as <-.
        injection Hp' as <-. rewrite Echeck. split; [discriminate|].
        intros _.
        destruct (User.role user =? "Admin");
          [|destruct (User.role user =? "Leader")]; simpl; auto.
      * split; [reflexivity|]. split; [discriminate|].
        intros user' password' Hu' Hp'. injection Hu' as <-.
        injection Hp' as <-. rewrite Echeck. split; [|discriminate].
        intros _. simpl. auto.
    + split; [reflexivity|]. split; [discriminate|].
      intros user' password' _ Hp'. discriminate Hp'.
  - split; [reflexivity|]. split.
    + intros _. simpl. auto.
    + intros user' password' Hu'. discriminate Hu'.
Qed.

Lemma login_needs_valid_credentials_witness :
  let w := Sample.anonymous
             (with_users Demo.data
                [User.Build 1 "admin" (Sample.hash "s3cret") "Ada Admin"
                   "Admin" "Math" "Principal"]) in
  method (Sample.credentials "admin" "s3cret") = "POST"
  /\ form_item (Sample.credentials "admin" "s3cret") "username"
     = Py.Ok "admin"
  /\ user_id (session (fst (login Sample.check w
                              (Sample.credentials "admin" "s3cret")
                              Demo.today))) = Some 1%Z
  /\ snd (login Sample.check w (Sample.credentials "admin" "s3cret")
            Demo.today) = Redirect "admin_dashboard".
Proof.
  split; [reflexivity|]. split; [reflexivity|].
  destruct (login_needs_valid_credentials Sample.check
              (Sample.anonymous
                 (with_users Demo.data
                    [User.Build 1 "admin" (Sample.hash "s3cret") "Ada Admin"
                       "Admin" "Math" "Principal"]))
              (Sample.credentials "admin" "s3cret") Demo.today "admin"
              eq_refl eq_refl) as (_ & _ & Hfound).
  destruct (Hfound _ "s3cret" eq_refl eq_refl) as [_ Hok].
  destruct (Hok eq_refl) as (Hid & _ & _ & Hresp).
  split; [exact Hid | exact Hresp].
Defined.

(** ** Editing users *)

Lemma update_user_exact (table : list User.t) (i : Z) (u u' : User.t) :
  NoDup (map User.id table) ->
  query_get User.id table i = Some u ->
  User.id u' = i ->
  exists l1 l2, table = l1 ++ u :: l2 /\ update_user table u' = l1 ++ u' :: l2.
Proof.
  unfold query_get, update_user. intros Hnd Hfind Hid. subst i.
  induction table as [|x table IH]; simpl in *; [discriminate|].
  inversion Hnd as [|? ? Hnotin Hnd']; subst.
  destruct (User.id x =? User.id u')%Z eqn:E.
  - injection Hfind as <-. exists [], table. split; [reflexivity|].
    simpl. f_equal. apply Z.eqb_eq in E.
    clear - Hnotin E. induction table as [|y table IH]; simpl; [reflexivity|].
    simpl in Hnotin.
    assert (Hy : (User.id y =? User.id u')%Z = false)
      by (apply Z.eqb_neq; intros Heq; apply Hnotin; left; congruence).
    rewrite Hy. f_equal. apply IH. intros Hin. apply Hnotin. now right.
  - destruct (IH Hnd' Hfind) as (l1 & l2 & Heq & Hupd).
    exists (x :: l1), l2. split; simpl; now f_equal.
Qed.

(** X13: [edit_user] asks for no role: for every logged-in user and every
    existing id it rewrites the full name, role and department of that one
    row from the form and keeps its key, username, password hash and
    designation; the other users and the other tables, the tasks with their
    assigner names and departments among them, are left as they were. *)
Theorem edit_user_rewrites_one_row
    (w : World) (req : Request) (id : Z) (cu u : User.t)
    (fullname role department : string) :
  current_user w = Some cu ->
  NoDup (map User.id (users (db w))) ->
  query_get User.id (users (db w)) id = Some u ->
  form_item req "fullname" = Py.Ok fullname ->
  form_item req "role" = Py.Ok role ->
  form_item req "department" = Py.Ok department ->
  exists u' l1 l2,
    users (db w) = l1 ++ u :: l2
    /\ users (db (fst (edit_user w req id))) = l1 ++ u' :: l2
    /\ User.full_name u' = fullname /\ User.role u' = role
    /\ User.department u' = department
    /\ User.id u' = User.id u /\ User.username u' = User.username u
    /\ User.password_hash u' = User.password_hash u
    /\ User.designation u' = User.designation u
    /\ tasks (db (fst (edit_user w req id))) = tasks (db w)
    /\ meetings (db (fst (edit_user w req id))) = meetings (db w)
    /\ snd (edit_user w req id) = Redirect "manage_staff".
Proof.
  intros Hcu Hnd Hu Hf Hr Hd. unfold edit_user.
  rewrite (login_required_some _ _ _ Hcu), Hu, Hf, Hr, Hd. simpl.
  destruct (query_get_pk _ _ _ _ Hu) as [_ Hid].
  set (u' := User.Build (User.id u) (User.username u) (User.password_hash u)
               fullname role department (User.designation u)).
  destruct (update_user_exact _ _ _ u' Hnd Hu Hid) as (l1 & l2 & Heq & Hupd).
  exists u', l1, l2. split; [exact Heq|]. split; [exact Hupd|].
  repeat split; reflexivity.
Qed.

Lemma edit_user_rewrites_one_row_witness :
  let w := Demo.logged_in Demo.data Demo.eve in
  current_user w = Some Demo.eve
  /\ User.role Demo.eve = "Employee"
  /\ query_get User.id (users (db w)) 3 = Some Demo.eve
  /\ exists u' l1 l2,
      users (db (fst (edit_user w Sample.edit_form 3))) = l1 ++ u' :: l2
      /\ User.role u' = "Admin"
      /\ User.id u' = User.id Demo.eve.
Proof.
  split; [reflexivity|]. split; [reflexivity|]. split; [reflexivity|].
  destruct (edit_user_rewrites_one_row
              (Demo.logged_in Demo.data Demo.eve) Sample.edit_form 3
              Demo.eve Demo.eve "Eve Employee" "Admin" "Math" eq_refl
              example_user_ids_distinct eq_refl eq_refl eq_refl eq_refl)
    as (u' & l1 & l2 & _ & Husers & _ & Hrole & _ & Hid & _).
  exists u', l1, l2. split; [exact Husers|]. split; [exact Hrole | exact Hid].
Defined.

(** ** Deleting tasks, and ids nobody has *)

(** X14: [delete_task], for any logged-in user whoever assigned the task,
    removes the one task with the given id and keeps every other task and
    table. *)
Theorem delete_task_removes_one_task
    (w : World) (req : Request) (id : Z) (cu : User.t) (t : Task.t) :
  current_user w = Some cu ->
  NoDup (map Task.id (tasks (db w))) ->
  query_get Task.id (tasks (db w)) id = Some t ->
  exists l1 l2,
    tasks (db w) = l1 ++ t :: l2
    /\ tasks (db (fst (delete_task w req id))) = l1 ++ l2
    /\ users (db (fst (delete_task w req id))) = users (db w)
    /\ meetings (db (fst (delete_task w req id))) = meetings (db w)
    /\ schedules (db (fst (delete_task w req id))) = schedules (db w)
    /\ departments (db (fst (delete_task w req id))) = departments (db w)
    /\ session (fst (delete_task w req id)) = session w
    /\ snd (delete_task w req id) = RedirectBack (referrer req).
Proof.
  intros Hcu Hnd Ht. unfold delete_task.
  rewrite (login_required_some _ _ _ Hcu), Ht. simpl.
  destruct (query_get_pk _ _ _ _ Ht) as [_ Hid]. rewrite Hid.
  destruct (delete_row_exact _ _ _ _ Hnd Ht) as (l1 & l2 & Heq & Hdel).
  exists l1, l2. repeat split; assumption.
Qed.

Lemma delete_task_removes_one_task_witness :
  let w := Demo.logged_in Demo.data Demo.eve in
  current_user w = Some Demo.eve
  /\ NoDup (map Task.id (tasks (db w)))
  /\ query_get Task.id (tasks (db w)) 1 = Some Demo.report
  /\ Task.assigner Demo.report <> User.full_name Demo.eve
  /\ exists l1 l2,
      tasks (db w) = l1 ++ Demo.report :: l2
      /\ tasks (db (fst (delete_task w (Demo.get []) 1))) = l1 ++ l2.
Proof.
  assert (Hnd : NoDup (map Task.id (tasks Demo.data))).
  { simpl. repeat constructor; simpl; intuition discriminate. }
  split; [reflexivity|]. split; [exact Hnd|]. split; [reflexivity|].
  split; [discriminate|].
  destruct (delete_task_removes_one_task
              (Demo.logged_in Demo.data Demo.eve) (Demo.get []) 1 Demo.eve
              Demo.report eq_refl Hnd eq_refl)
    as (l1 & l2 & Heq & Hdel & _).
  exists l1, l2. split; [exact Heq | exact Hdel].
Defined.

(** X15: an id within the store's key range that no row has is answered
    with 404 and changes nothing, in each of the four views that look a row
    up by id. *)
Theorem missing_id_is_404
    (w : World) (req : Request) (today new_status : string) (id : Z)
    (cu : User.t) :
  current_user w = Some cu ->
  (0 <= id < 2 ^ 63)%Z ->
  (query_get Task.id (tasks (db w)) id = None ->
   update_status w req today id new_status = (w, Abort 404)
   /\ delete_task w req id = (w, Abort 404))
  /\ (query_get User.id (users (db w)) id = None ->
      delete_user w id = (w, Abort 404)
      /\ edit_user w req id = (w, Abort 404)).
Proof.
  intros Hcu _. split; intros Hnone.
  - unfold update_status, delete_task.
    now rewrite !(login_required_some _ _ _ Hcu), Hnone.
  - unfold delete_user, edit_user.
    now rewrite !(login_required_some _ _ _ Hcu), Hnone.
Qed.

Lemma missing_id_is_404_witness :
  let w := Demo.logged_in Demo.data Demo.admin in
  current_user w = Some Demo.admin
  /\ (0 <= 7 < 2 ^ 63)%Z
  /\ query_get Task.id (tasks (db w)) 7 = None
  /\ update_status w (Demo.get []) Demo.today 7 "Completed" = (w, Abort 404)
  /\ delete_user w 7 = (w, Abort 404).
Proof.
  split; [reflexivity|]. split; [lia|]. split; [reflexivity|].
  destruct (missing_id_is_404 (Demo.logged_in Demo.data Demo.admin)
              (Demo.get []) Demo.today "Completed" 7 Demo.admin eq_refl
              ltac:(lia))
    as [Htask Huser].
  split; [exact (proj1 (Htask eq_refl)) | exact (proj1 (Huser eq_refl))].
Defined.

(** ** Changing the password *)

Lemma NoDup_map_inj {A B} (f : A -> B) (l : list A) (x y : A) :
  NoDup (map f l) -> In x l -> In y l -> f x = f y -> x = y.
Proof.
  induction l as [|z l IH]; simpl; intros Hnd Hx Hy Heq; [contradiction|].
  inversion Hnd as [|? ? Hnotin Hnd']; subst.
  destruct Hx as [<-|Hx], Hy as [<-|Hy]; auto.
  - exfalso. apply Hnotin. rewrite Heq. now apply in_map.
  - exfalso. apply Hnotin. rewrite <- Heq. now apply in_map.
Qed.

Lemma find_username_after_update (l : list User.t) (cu cu' : User.t) :
  NoDup (map User.username l) ->
  In cu l ->
  User.id cu' = User.id cu ->
  User.username cu' = User.username cu ->
  find (fun u => User.username u =? User.username cu) (update_user l cu')
  = Some cu'.
Proof.
  intros Hnd Hin Hid Hname. unfold update_user.
  induction l as [|x l IH]; simpl; [contradiction|].
  destruct (User.id x =? User.id cu')%Z eqn:E.
  - now rewrite Hname, String.eqb_refl.
  - destruct (User.username x =? User.username cu) eqn:En.
    + apply String.eqb_eq in En.
      assert (Hx : x = cu)
        by (apply (NoDup_map_inj User.username (x :: l));
            [exact Hnd | now left | exact Hin | exact En]).
      subst x. apply Z.eqb_neq in E. congruence.
    + apply IH.
      * simpl in Hnd. now inversion Hnd.
      * destruct Hin as [->|Hin]; [|exact Hin].
        now rewrite String.eqb_refl in En.
Qed.

Lemma update_user_keeps_others (l : list User.t) (r u : User.t) :
  In u l -> User.id u <> User.id r -> In u (update_user l r).
Proof.
  intros Hin Hne. unfold update_user. apply in_map_iff. exists u.
  split; [|exact Hin].
  now replace (User.id u =? User.id r)%Z with false
    by (symmetry; now apply Z.eqb_neq).
Qed.

(** X16: after [settings] has stored a new password, logging in with the
    username and that password succeeds, given that the hash function's
    output checks against its input.  The change rewrites the hash of the
    logged-in user's row only: usernames are as before and every other
    user's row is still there. *)
Theorem new_password_logs_in
    (check : string -> string -> bool) (hash : string -> string)
    (w : World) (req attempt : Request) (today : string) (cu : User.t)
    (password : string) :
  current_user w = Some cu ->
  NoDup (map User.username (users (db w))) ->
  method req = "POST" ->
  form_item req "new_password" = Py.Ok password ->
  check (hash password) password = true ->
  method attempt = "POST" ->
  form_item attempt "username" = Py.Ok (User.username cu) ->
  form_item attempt "password" = Py.Ok password ->
  let w1 := fst (settings hash w req today) in
  let w2 := fst (login check w1 attempt today) in
  user_id (session w2) = Some (User.id cu)
  /\ notifications_cleared (session w2) = false
  /\ (exists stored,
         find (fun u => User.username u =? User.username cu) (users (db w1))
         = Some stored
         /\ User.password_hash stored = hash password
         /\ User.role stored = User.role cu
         /\ User.full_name stored = User.full_name cu)
  /\ (forall u, In u (users (db w)) -> User.id u <> User.id cu ->
                In u (users (db w1)))
  /\ tasks (db w1) = tasks (db w).
Proof.
  intros Hcu Hnd Hpost Hpw Hcheck Hpost2 Huser2 Hpw2. cbv zeta.
  pose proof (current_user_get _ _ Hcu) as Hget.
  destruct (query_get_pk _ _ _ _ Hget) as [Hin _].
  unfold settings. rewrite (login_required_some _ _ _ Hcu), Hpost, Hpw.
  simpl fst.
  set (cu' := User.Build (User.id cu) (User.username cu) (hash password)
                (User.full_name cu) (User.role cu) (User.department cu)
                (User.designation cu)).
  assert (Hfind : find (fun u => User.username u =? User.username cu)
                    (update_user (users (db w)) cu') = Some cu')
    by (now apply find_username_after_update).
  unfold login. rewrite Hpost2, Huser2. simpl users. rewrite Hfind, Hpw2.
  simpl User.password_hash. rewrite Hcheck.
  split; [|split; [|split; [|split]]].
  - destruct (User.role cu' =? "Admin");
      [|destruct (User.role cu' =? "Leader")]; reflexivity.
  - destruct (User.role cu' =? "Admin");
      [|destruct (User.role cu' =? "Leader")]; reflexivity.
  - exists cu'. repeat split; assumption || reflexivity.
  - intros u Hu Hne. now apply update_user_keeps_others.
  - reflexivity.
Qed.

Lemma new_password_logs_in_witness :
  let w := Demo.logged_in Demo.data Demo.eve in
  let req := Demo.post [("new_password", "tulip")] in
  current_user w = Some Demo.eve
  /\ NoDup (map User.username (users (db w)))
  /\ Sample.check (Sample.hash "tulip") "tulip" = true
  /\ user_id (session (fst (login Sample.check
                              (fst (settings Sample.hash w req Demo.today))
                              (Sample.credentials "eve" "tulip") Demo.today)))
     = Some 3%Z.
Proof.
  assert (Hnames : NoDup (map User.username (users Demo.data))).
  { simpl. repeat constructor; simpl; intuition discriminate. }
  split; [reflexivity|]. split; [exact Hnames|]. split; [reflexivity|].
  exact (proj1 (new_password_logs_in Sample.check Sample.hash
                  (Demo.logged_in Demo.data Demo.eve)
                  (Demo.post [("new_password", "tulip")])
                  (Sample.credentials "eve" "tulip") Demo.today Demo.eve
                  "tulip" eq_refl Hnames eq_refl eq_refl eq_refl eq_refl
                  eq_refl eq_refl)).
Defined.

(** ** The Admin dashboard *)

Lemma filter_partition_length {A} (f : A -> bool) (l : list A) :
  (List.length (filter f l) + List.length (filter (fun x => negb (f x)) l)
   = List.length l)%nat.
Proof.
  induction l as [|x l IH]; simpl; [reflexivity|].
  destruct (f x); simpl; lia.
Qed.

(** X17: the Admin dashboard's three figures fit together: the total is the
    number of tasks, completed is the number of tasks whose status is
    ["Completed"], pending is the number of all others, and pending plus
    completed is the total. *)
Theorem admin_dashboard_counts (w : World) (today : string) (cu : User.t) :
  current_user w = Some cu ->
  User.role cu = "Admin" ->
  exists p,
    admin_dashboard w today
    = (w, Render "dashboard_admin.html" p (inject_notifications w today))
    /\ adm_tasks p = tasks (db w)
    /\ adm_total p = len (tasks (db w))
    /\ adm_completed p
       = len (filter (fun t => Task.status t =? "Completed") (tasks (db w)))
    /\ adm_pending p
       = len (filter (fun t => negb (Task.status t =? "Completed"))
                (tasks (db w)))
    /\ (adm_pending p + adm_completed p = adm_total p)%Z
    /\ (0 <= adm_pending p)%Z /\ (0 <= adm_completed p)%Z.
Proof.
  intros Hcu Hrole. unfold admin_dashboard.
  rewrite (login_required_some _ _ _ Hcu), Hrole. simpl.
  eexists. split; [reflexivity|]. simpl.
  pose proof (filter_partition_length
                (fun t => Task.status t =? "Completed") (tasks (db w))) as H.
  cbv beta in H. unfold len.
  repeat split; try apply Nat2Z.is_nonneg; lia.
Qed.

Lemma admin_dashboard_counts_witness :
  let w := Demo.logged_in Demo.fifty_tasks Demo.admin in
  current_user w = Some Demo.admin
  /\ User.role Demo.admin = "Admin"
  /\ exists p,
      admin_dashboard w Demo.today
      = (w, Render "dashboard_admin.html" p
              (inject_notifications w Demo.today))
      /\ adm_completed p = 29%Z
      /\ adm_pending p = 21%Z.
Proof.
  split; [reflexivity|]. split; [reflexivity|].
  destruct (admin_dashboard_counts
              (Demo.logged_in Demo.fifty_tasks Demo.admin) Demo.today
              Demo.admin eq_refl eq_refl)
    as (p & Hp & _ & _ & Hc & Hpend & _).
  exists p. split; [exact Hp|]. rewrite Hc, Hpend. split; reflexivity.
Defined.

(** ** The percentage at its ends, and its sign *)

Module PercentFacts.
Local Open Scope Z_scope.

(** A number divided by itself is the float 1. *)
Lemma SFdiv_self (m : positive) (e : Z) :
  SFdiv 53 1024 (S754_finite false m e) (S754_finite false m e)
  = S754_finite false 4503599627370496 (-52).
Proof.
  unfold SFdiv, SFdiv_core_binary.
  replace (Zdigits2 (Z.pos m) + e - (Zdigits2 (Z.pos m) + e)) with 0 by lia.
  replace (e - e) with 0 by lia.
  change (Z.min (fexp 53 1024 0) 0) with (-53).
  change (0 - -53) with 53. cbv iota beta.
  destruct (Z.div_eucl (Z.shiftl (Z.pos m) 53) (Z.pos m)) as [q r] eqn:E.
  assert (Hq : q = 2 ^ 53).
  { change q with (fst (q, r)). rewrite <- E.
    change (fst (Z.div_eucl (Z.shiftl (Z.pos m) 53) (Z.pos m)))
      with (Z.shiftl (Z.pos m) 53 / Z.pos m).
    rewrite Z.shiftl_mul_pow2 by lia. rewrite Z.mul_comm.
    apply Z.div_mul. lia. }
  assert (Hr : r = 0).
  { change r with (snd (q, r)). rewrite <- E.
    change (snd (Z.div_eucl (Z.shiftl (Z.pos m) 53) (Z.pos m)))
      with (Z.shiftl (Z.pos m) 53 mod Z.pos m).
    rewrite Z.shiftl_mul_pow2 by lia. rewrite Z.mul_comm.
    apply Z.mod_mul. lia. }
  subst q r.
  assert (Hloc : new_location (Z.pos m) 0 = loc_Exact).
  { unfold new_location. destruct (Z.even (Z.pos m)); reflexivity. }
  rewrite Hloc. reflexivity.
Qed.

Lemma int_percent_all (total : Z) :
  0 < total < 2 ^ 53 -> Py.int_percent total total = Py.Ok 100.
Proof.
  intros Ht. unfold Py.int_percent, Py.truediv.
  replace (total >? 0) with true by (symmetry; apply Z.gtb_lt; lia).
  replace (total =? 0) with false by (symmetry; apply Z.eqb_neq; lia).
  destruct total as [|p|p]; try lia.
  destruct (Binary64.float_of_int_pos p ltac:(lia)) as (m & e & -> & _).
  unfold Py.bind. rewrite SFdiv_self. reflexivity.
Qed.

Lemma int_percent_none (total : Z) :
  0 < total < 2 ^ 53 -> Py.int_percent 0 total = Py.Ok 0.
Proof.
  intros Ht. unfold Py.int_percent, Py.truediv.
  replace (total >? 0) with true by (symmetry; apply Z.gtb_lt; lia).
  replace (total =? 0) with false by (symmetry; apply Z.eqb_neq; lia).
  destruct total as [|p|p]; try lia.
  destruct (Binary64.float_of_int_pos p ltac:(lia)) as (m & e & -> & _).
  reflexivity.
Qed.

Lemma int_nonneg (m : positive) (e : Z) :
  exists r, Py.int (S754_finite false m e) = Py.Ok r /\ 0 <= r.
Proof.
  eexists. split; [reflexivity|]. simpl. destruct e as [|p|p].
  - simpl. lia.
  - apply Z.shiftl_nonneg. lia.
  - apply Z.shiftr_nonneg. lia.
Qed.

(** On counts below [2^53] the percentage has a value, and it is not
    negative. *)
Lemma int_percent_nonneg (part total : Z) :
  0 <= part < 2 ^ 53 -> total < 2 ^ 53 ->
  exists r, Py.int_percent part total = Py.Ok r /\ 0 <= r.
Proof.
  intros Hpart Htotal. unfold Py.int_percent.
  destruct (total >? 0) eqn:Epos; [|exists 0; split; [reflexivity | lia]].
  apply Z.gtb_lt in Epos. unfold Py.truediv.
  replace (total =? 0) with false by (symmetry; apply Z.eqb_neq; lia).
  unfold Py.bind, Py.mul_int.
  destruct total as [|pt|pt]; try lia.
  destruct (Binary64.float_of_int_pos pt Htotal) as (m2 & e2 & -> & Hm2 & He2).
  destruct part as [|pp|pp]; try lia.
  - exists 0. split; [reflexivity | lia].
  - destruct (Binary64.float_of_int_pos pp ltac:(lia))
      as (m1 & e1 & -> & Hm1 & He1).
    destruct (Binary64.SFdiv_bounded false false m1 m2 e1 e2 Hm1 Hm2 He1 He2)
      as [->|(m & e & -> & Hm & He)].
    + exists 0. split; [reflexivity | lia].
    + destruct (Binary64.SFmul_bounded (xorb false false) m e Hm He)
        as [->|(m' & e' & ->)].
      * exists 0. split; [reflexivity | lia].
      * apply int_nonneg.
Qed.

End PercentFacts.

Lemma len_filter_all {A} (f : A -> bool) (l : list A) :
  Forall (fun x => f x = true) l -> len (filter f l) = len l.
Proof.
  intros Hall. unfold len. f_equal.
  induction Hall as [|x l Hx _ IH]; simpl; [reflexivity|].
  rewrite Hx. simpl. now f_equal.
Qed.

Lemma len_filter_none {A} (f : A -> bool) (l : list A) :
  Forall (fun x => f x = false) l -> len (filter f l) = 0%Z.
Proof.
  intros Hall. unfold len.
  induction Hall as [|x l Hx _ IH]; simpl; [reflexivity|].
  now rewrite Hx.
Qed.

(** X18: at its two ends the rate is exact: a Leader or Admin with at least
    one assigned task sees 100 when all assigned tasks are completed and 0
    when none is. *)
Theorem leader_rate_at_the_ends (w : World) (today : string) (cu : User.t) :
  current_user w = Some cu ->
  User.role cu = "Leader" \/ User.role cu = "Admin" ->
  (len (tasks (db w)) < 2 ^ 53)%Z ->
  filter (fun t => Task.assigner t =? User.full_name cu) (tasks (db w)) <> [] ->
  exists p,
    leader_dashboard w today
    = (w, Render "dashboard_leader.html" p (inject_notifications w today))
    /\ (Forall (fun t => Task.status t = "Completed") (lp_assigned_tasks p) ->
        lp_rate p = 100%Z)
    /\ (Forall (fun t => Task.status t <> "Completed") (lp_assigned_tasks p) ->
        lp_rate p = 0%Z).
Proof.
  intros Hcu Hrole Hsize Hne.
  destruct (leader_dashboard_renders w today cu Hcu Hrole Hsize)
    as (p & Hp & _ & Hassigned & Htotal & Hrate).
  exists p. split; [exact Hp|].
  pose proof (len_filter_le (fun t => Task.assigner t =? User.full_name cu)
                (tasks (db w))) as Hle.
  rewrite <- Hassigned in Hle, Hne.
  assert (Hpos : (0 < len (lp_assigned_tasks p) < 2 ^ 53)%Z).
  { split; [|lia]. unfold len.
    destruct (lp_assigned_tasks p); [contradiction | simpl; lia]. }
  rewrite Htotal in Hrate. split; intros Hall.
  - rewrite len_filter_all in Hrate.
    + rewrite (PercentFacts.int_percent_all _ Hpos) in Hrate. congruence.
    + eapply Forall_impl; [|exact Hall]. intros t Ht. now apply String.eqb_eq.
  - rewrite len_filter_none in Hrate.
    + rewrite (PercentFacts.int_percent_none _ Hpos) in Hrate. congruence.
    + eapply Forall_impl; [|exact Hall]. intros t Ht. now apply String.eqb_neq.
Qed.

Lemma leader_rate_at_the_ends_witness :
  let w := Demo.logged_in
             (with_tasks Demo.data [Demo.slides; Demo.slides]) Demo.lee in
  current_user w = Some Demo.lee
  /\ (len (tasks (db w)) < 2 ^ 53)%Z
  /\ exists p,
      leader_dashboard w Demo.today
      = (w, Render "dashboard_leader.html" p
              (inject_notifications w Demo.today))
      /\ lp_rate p = 100%Z.
Proof.
  split; [reflexivity|]. split; [reflexivity|].
  destruct (leader_rate_at_the_ends
              (Demo.logged_in
                 (with_tasks Demo.data [Demo.slides; Demo.slides]) Demo.lee)
              Demo.today Demo.lee eq_refl (or_introl eq_refl) eq_refl
              ltac:(discriminate)) as (p & Hp & Hall & _).
  exists p. split; [exact Hp|]. apply Hall.
  injection Hp as <-. repeat constructor.
Defined.

(** X19: the two percentage computations never fail and never go below 0:
    with fewer than [2^53] rows, the Leader dashboard of a Leader or Admin
    and the analytics page of any logged-in user are rendered, with a rate
    and an efficiency of at least 0. *)
Theorem percentages_render_nonnegative
    (like : string -> string -> bool) (w : World) (req : Request)
    (today : string) (cu : User.t) :
  current_user w = Some cu ->
  (User.role cu = "Leader" \/ User.role cu = "Admin" ->
   (len (tasks (db w)) < 2 ^ 53)%Z ->
   exists p,
     leader_dashboard w today
     = (w, Render "dashboard_leader.html" p (inject_notifications w today))
     /\ (0 <= lp_rate p)%Z)
  /\ ((len (meetings (db w)) < 2 ^ 53)%Z ->
      exists p,
        meeting_analytics like w req today
        = (w, Render "meeting_analytics.html" p
                (inject_notifications w today))
        /\ (0 <= kpi_efficiency p)%Z).
Proof.
  intros Hcu. split.
  - intros Hrole Hsize.
    destruct (leader_dashboard_renders w today cu Hcu Hrole Hsize)
      as (p & Hp & _ & Hassigned & Htotal & Hrate).
    exists p. split; [exact Hp|].
    pose proof (len_filter_le (fun t => Task.assigner t =? User.full_name cu)
                  (tasks (db w))) as Hle.
    rewrite <- Hassigned in Hle.
    pose proof (len_filter_le (fun t => Task.status t =? "Completed")
                  (lp_assigned_tasks p)) as Hdone.
    destruct (PercentFacts.int_percent_nonneg
                (len (filter (fun t => Task.status t =? "Completed")
                        (lp_assigned_tasks p)))
                (lp_total p) ltac:(lia) ltac:(lia)) as (r & Hr & Hpos).
    congruence.
  - intros Hsize.
    destruct (meeting_analytics_page like w req today cu Hcu Hsize)
      as (Hsel & p & Hp & _ & Htotal & Hprod & Heff & _).
    exists p. split; [exact Hp|].
    pose proof (len_filter_le (fun m => py_eq (Meeting.productive m) "Yes")
                  (filter_meetings like w (dept_arg req)
                     (args_get req "month"))) as Hle.
    rewrite <- Hprod in Hle.
    destruct (PercentFacts.int_percent_nonneg (kpi_productive p)
                (kpi_total p) ltac:(lia) ltac:(lia)) as (r & Hr & Hpos).
    congruence.
Qed.

Lemma percentages_render_nonnegative_witness :
  let w := Demo.logged_in Demo.fifty_tasks Demo.lee in
  current_user w = Some Demo.lee
  /\ (len (tasks (db w)) < 2 ^ 53)%Z
  /\ exists p,
      leader_dashboard w Demo.today
      = (w, Render "dashboard_leader.html" p
              (inject_notifications w Demo.today))
      /\ (0 <= lp_rate p)%Z.
Proof.
  split; [reflexivity|]. split; [reflexivity|].
  exact (proj1 (percentages_render_nonnegative (fun _ _ => true)
                  (Demo.logged_in Demo.fifty_tasks Demo.lee) (Demo.get [])
                  Demo.today Demo.lee eq_refl)
           (or_introl eq_refl) eq_refl).
Defined.

(** ** The analytics dictionaries *)

Lemma count_by_department_fst (ms : list Meeting.t) :
  fst (count_by_department ms) = fold_left add_meeting ms [].
Proof.
  unfold count_by_department. generalize (@nil (option string * Z)) at 2.
  generalize (@nil (option string * Z)).
  induction ms as [|m ms IH]; intros dc ac; simpl; [reflexivity|].
  apply IH.
Qed.

Lemma sum_after_set (d : list (option string * Z)) (k : option string)
    (c : Z) :
  sum_Z (map snd (Py.set option_eqb d k (Py.get option_eqb d k 0 + c)%Z))
  = (sum_Z (map snd d) + c)%Z.
Proof.
  induction d as [|[k' v'] d IH]; simpl; [lia|].
  destruct (option_eqb k' k); simpl; [lia|]. rewrite IH. lia.
Qed.

Lemma keys_set_same (d1 d2 : list (option string * Z)) (k : option string)
    (v1 v2 : Z) :
  map fst d1 = map fst d2 ->
  map fst (Py.set option_eqb d1 k v1) = map fst (Py.set option_eqb d2 k v2).
Proof.
  revert d2. induction d1 as [|[k1 x1] d1 IH]; intros [|[k2 x2] d2] H;
    simpl in *; try discriminate; [reflexivity|].
  injection H as -> H.
  destruct (option_eqb k2 k); simpl; f_equal; auto.
Qed.

Lemma sum_meeting_counts (ms : list Meeting.t)
    (dc : list (option string * Z)) :
  sum_Z (map snd (fold_left add_meeting ms dc))
  = (sum_Z (map snd dc) + len ms)%Z.
Proof.
  revert dc. induction ms as [|m ms IH]; intros dc; simpl.
  - unfold len. simpl. lia.
  - rewrite IH. unfold add_meeting. rewrite sum_after_set.
    unfold len. simpl List.length. lia.
Qed.

Lemma sum_absentee_counts (ms : list Meeting.t)
    (ac : list (option string * Z)) :
  sum_Z (map snd (fold_left add_absentees ms ac))
  = (sum_Z (map snd ac)
     + sum_Z (map (fun m => token_count (Meeting.absentees m)) ms))%Z.
Proof.
  revert ac. induction ms as [|m ms IH]; intros ac; simpl; [lia|].
  rewrite IH. unfold add_absentees. rewrite sum_after_set. lia.
Qed.

Lemma same_keys (ms : list Meeting.t) (dc ac : list (option string * Z)) :
  map fst dc = map fst ac ->
  map fst (fold_left add_meeting ms dc)
  = map fst (fold_left add_absentees ms ac).
Proof.
  revert dc ac. induction ms as [|m ms IH]; intros dc ac H; simpl; [exact H|].
  apply IH. unfold add_meeting, add_absentees. now apply keys_set_same.
Qed.

(** X20: on the analytics page the per-department meeting counts add up to
    the total, the per-department absentee counts add up to the absentee
    tokens of the selected meetings, both charts carry the same department
    labels, without repetition, and productive is between 0 and the total. *)
Theorem analytics_counts_add_up
    (like : string -> string -> bool) (w : World) (req : Request)
    (today : string) (cu : User.t) :
  current_user w = Some cu ->
  (len (meetings (db w)) < 2 ^ 53)%Z ->
  exists p,
    meeting_analytics like w req today
    = (w, Render "meeting_analytics.html" p (inject_notifications w today))
    /\ sum_Z (ap_dept_values p) = kpi_total p
    /\ sum_Z (ap_absent_values p)
       = sum_Z (map (fun m => token_count (Meeting.absentees m))
                  (ap_meetings p))
    /\ ap_absent_labels p = ap_dept_labels p
    /\ NoDup (ap_dept_labels p)
    /\ List.length (ap_dept_values p) = List.length (ap_dept_labels p)
    /\ (0 <= kpi_productive p <= kpi_total p)%Z.
Proof.
  intros Hcu Hsize.
  destruct (meeting_analytics_page like w req today cu Hcu Hsize)
    as (Hsel & _).
  set (selected := filter_meetings like w (dept_arg req)
                     (args_get req "month")) in *.
  unfold meeting_analytics. rewrite (login_required_some _ _ _ Hcu).
  fold (dept_arg req). fold selected.
  pose proof (len_filter_le (fun m => py_eq (Meeting.productive m) "Yes")
                selected) as Hprod.
  destruct (Binary64.int_percent_returns
              (len (filter (fun m => py_eq (Meeting.productive m) "Yes")
                      selected))
              (len selected) ltac:(lia) ltac:(lia)) as [eff Heff].
  rewrite Heff.
  pose proof (count_by_department_fst selected) as Hfst.
  pose proof (count_by_department_snd selected) as Hsnd.
  destruct (count_by_department selected) as [dept_counts absentee_counts].
  simpl in Hfst, Hsnd. subst dept_counts absentee_counts.
  eexists. split; [reflexivity|]. simpl.
  assert (Hkeys : map fst (fold_left add_absentees selected [])
                  = map fst (fold_left add_meeting selected []))
    by (symmetry; now apply same_keys).
  split; [|split; [|split; [|split; [|split]]]].
  - rewrite sum_meeting_counts. simpl. lia.
  - rewrite sum_absentee_counts. simpl. lia.
  - exact Hkeys.
  - rewrite <- Hkeys, absentee_counts_keys. simpl.
    exact (first_seen_NoDup [] _ (NoDup_nil _)).
  - now rewrite !length_map.
  - exact Hprod.
Qed.

Lemma analytics_counts_add_up_witness :
  let w := Demo.logged_in Demo.data Demo.admin in
  current_user w = Some Demo.admin
  /\ (len (meetings (db w)) < 2 ^ 53)%Z
  /\ exists p,
      meeting_analytics (fun _ _ => true) w (Demo.get []) Demo.today
      = (w, Render "meeting_analytics.html" p
              (inject_notifications w Demo.today))
      /\ sum_Z (ap_dept_values p) = kpi_total p
      /\ kpi_total p = 2%Z.
Proof.
  split; [reflexivity|]. split; [reflexivity|].
  destruct (analytics_counts_add_up (fun _ _ => true)
              (Demo.logged_in Demo.data Demo.admin) (Demo.get [])
              Demo.today Demo.admin eq_refl eq_refl)
    as (p & Hp & Hsum & _).
  exists p. split; [exact Hp|]. split; [exact Hsum|].
  injection Hp as <-. reflexivity.
Defined.

(** X21: which meetings the analytics page selects: with [dept] other than
    ["All"] exactly those whose department is that string, so never one
    without a department; with a non-empty [month] only those whose date
    matches the pattern [month%], so never one without a date; ["All"] and
    an absent or empty [month] select everything. *)
Theorem analytics_selection
    (like : string -> string -> bool) (w : World) (dept : string)
    (month : option string) (m : Meeting.t) :
  In m (filter_meetings like w dept month)
  <-> In m (meetings (db w))
      /\ (dept = "All" \/ Meeting.department m = Some dept)
      /\ (forall mo, month = Some mo -> mo <> "" ->
            exists d, Meeting.date_of_meeting m = Some d
                      /\ like d (mo ++ "%")%string = true).
Proof.
  unfold filter_meetings.
  assert (Hdept : forall l,
             In m (if negb (dept =? "All")
                   then filter (fun x => sql_eq (Meeting.department x) dept) l
                   else l)
             <-> In m l /\ (dept = "All" \/ Meeting.department m = Some dept)).
  { intros l. destruct (dept =? "All") eqn:E; simpl.
    - apply String.eqb_eq in E. tauto.
    - apply String.eqb_neq in E. rewrite filter_In. unfold sql_eq.
      destruct (Meeting.department m) as [x|].
      + rewrite String.eqb_eq. split.
        * intros [H ->]. auto.
        * intros [H [H'|H']]; [contradiction|]. injection H' as ->. auto.
      + split; [intros [_ H]; discriminate|].
        intros [_ [H|H]]; [contradiction | discriminate]. }
  destruct month as [mo|].
  - destruct mo as [|c mo'] eqn:Emo; simpl Py.truthy; cbv iota.
    + rewrite Hdept. split; [|tauto].
      intros [H1 H2]. repeat split; auto.
      intros mo1 Hmo1 Hne. injection Hmo1 as <-. contradiction.
    + rewrite filter_In, Hdept. split.
      * intros [[H1 H2] H3]. repeat split; auto.
        intros mo1 Hmo1 _. injection Hmo1 as <-.
        destruct (Meeting.date_of_meeting m) as [d|]; [|discriminate].
        now exists d.
      * intros (H1 & H2 & H3). split; [auto|].
        destruct (H3 _ eq_refl ltac:(discriminate)) as (d & -> & Hd).
        exact Hd.
  - rewrite Hdept. split; [|tauto].
    intros [H1 H2]. repeat split; auto. intros mo Hmo. discriminate Hmo.
Qed.

(** ** Sessions that outlive their user, and logging out *)

Lemma query_get_deleted {A} (pk : A -> Z) (table : list A) (i : Z) :
  query_get pk (delete_row pk table i) i = None.
Proof.
  unfold query_get, delete_row. induction table as [|x table IH]; simpl.
  - reflexivity.
  - destruct (pk x =? i)%Z eqn:E; simpl; [exact IH|]. now rewrite E.
Qed.

(** X22: a user deleted by somebody else is logged out at once: a session
    still holding the deleted id loads no user, so it gets no notification
    and is sent to the login page, while the tasks assigned to or by that
    user stay in the table. *)
Theorem deleted_user_is_logged_out
    (w : World) (today : string) (id : Z) (cu u : User.t) (stale : Session) :
  current_user w = Some cu ->
  id <> User.id cu ->
  query_get User.id (users (db w)) id = Some u ->
  user_id stale = Some id ->
  current_user (seen_by (fst (delete_user w id)) stale) = None
  /\ inject_notifications (seen_by (fst (delete_user w id)) stale) today = []
  /\ snd (employee_dashboard (seen_by (fst (delete_user w id)) stale) today)
     = Redirect "login"
  /\ tasks (db (fst (delete_user w id))) = tasks (db w).
Proof.
  intros Hcu Hne Hu Hstale. unfold delete_user.
  rewrite (login_required_some _ _ _ Hcu), Hu. cbv beta iota zeta.
  destruct (query_get_pk _ _ _ _ Hu) as [_ Hid].
  replace (User.id u =? User.id cu)%Z with false
    by (symmetry; apply Z.eqb_neq; congruence).
  simpl fst. rewrite Hid.
  assert (Hnone : current_user
                    (seen_by
                       (commit w (with_users (db w)
                                    (delete_row User.id (users (db w)) id)))
                       stale) = None).
  { unfold current_user. simpl. rewrite Hstale. apply query_get_deleted. }
  split; [exact Hnone|]. split; [|split; [|reflexivity]].
  - unfold inject_notifications. now rewrite Hnone.
  - unfold employee_dashboard, login_required. now rewrite Hnone.
Qed.

Lemma deleted_user_is_logged_out_witness :
  let w := Demo.logged_in Demo.data Demo.admin in
  let stale := session (Demo.logged_in Demo.data Demo.eve) in
  current_user w = Some Demo.admin
  /\ query_get User.id (users (db w)) 3 = Some Demo.eve
  /\ current_user (seen_by w stale) = Some Demo.eve
  /\ current_user (seen_by (fst (delete_user w 3)) stale) = None.
Proof.
  split; [reflexivity|]. split; [reflexivity|]. split; [reflexivity|].
  exact (proj1 (deleted_user_is_logged_out
                  (Demo.logged_in Demo.data Demo.admin) Demo.today 3
                  Demo.admin Demo.eve
                  (session (Demo.logged_in Demo.data Demo.eve))
                  eq_refl ltac:(discriminate) eq_refl eq_refl)).
Defined.

(** X23: after an Admin's [add_department] the posted name is a department
    name, every department there was is still there, and the staff page the
    redirect leads to lists it. *)
Theorem add_department_lists_name
    (hash : string -> string) (w : World) (req page_req : Request)
    (today : string) (cu : User.t) (name : string) :
  current_user w = Some cu ->
  User.role cu = "Admin" ->
  form_item req "dept_name" = Py.Ok name ->
  method page_req <> "POST" ->
  In name (map Department.name (departments (db (fst (add_department w req)))))
  /\ (forall d, In d (departments (db w)) ->
                In d (departments (db (fst (add_department w req)))))
  /\ users (db (fst (add_department w req))) = users (db w)
  /\ snd (add_department w req) = Redirect "manage_staff"
  /\ exists p n,
      manage_staff hash (fst (add_department w req)) page_req today
      = (fst (add_department w req), Render "manage_staff.html" p n)
      /\ In name (map Department.name (sp_depts p)).
Proof.
  intros Hcu Hrole Hform Hget. unfold add_department.
  rewrite (login_required_some _ _ _ Hcu), Hrole, Hform. simpl negb.
  cbv iota.
  assert (Hpage : forall w',
             current_user w' = Some cu ->
             In name (map Department.name (departments (db w'))) ->
             exists p n,
               manage_staff hash w' page_req today
               = (w', Render "manage_staff.html" p n)
               /\ In name (map Department.name (sp_depts p))).
  { intros w' Hcu' Hin. unfold manage_staff.
    rewrite (login_required_some _ _ _ Hcu'), Hrole.
    replace (method page_req =? "POST") with false
      by (symmetry; now apply String.eqb_neq).
    simpl. do 2 eexists. split; [reflexivity | exact Hin]. }
  destruct (find (fun d => Department.name d =? name) (departments (db w)))
    as [d|] eqn:Efind.
  - simpl. assert (Hin : In name (map Department.name (departments (db w)))).
    { apply find_some in Efind. destruct Efind as [Hd Hname].
      apply String.eqb_eq in Hname. apply in_map_iff. now exists d. }
    repeat split; auto.
  - destruct (insert_department_fresh (db w) name Efind) as (d' & -> & ->).
    simpl fst. simpl snd.
    assert (Hin : In name
                    (map Department.name
                       (departments (db w) ++
                          [Department.Build
                             (next_id Department.id (departments (db w)))
                             name]))).
    { rewrite map_app. apply in_or_app. right. now left. }
    split; [exact Hin|]. split; [|split; [reflexivity|split; [reflexivity|]]].
    + intros d Hd. simpl. apply in_or_app. now left.
    + apply Hpage; [exact Hcu | exact Hin].
Qed.

Lemma add_department_lists_name_witness :
  let w := Demo.logged_in Demo.data Demo.admin in
  let req := Demo.post [("dept_name", "Chemistry")] in
  current_user w = Some Demo.admin
  /\ form_item req "dept_name" = Py.Ok "Chemistry"
  /\ ~ In "Chemistry" (map Department.name (departments (db w)))
  /\ In "Chemistry"
       (map Department.name (departments (db (fst (add_department w req))))).
Proof.
  split; [reflexivity|]. split; [reflexivity|].
  split; [simpl; intuition discriminate|].
  exact (proj1 (add_department_lists_name Sample.hash
                  (Demo.logged_in Demo.data Demo.admin)
                  (Demo.post [("dept_name", "Chemistry")]) (Demo.get [])
                  Demo.today Demo.admin "Chemistry" eq_refl eq_refl eq_refl
                  ltac:(discriminate))).
Defined.

Lemma login_required_none {P} (w : World)
    (view : User.t -> World * response P) :
  current_user w = None ->
  login_required w view
  = (flash w "Please log in to access this page." "message", Redirect "login").
Proof. unfold login_required. now intros ->. Qed.

(** X24: [logout] ends the access: it forgets the user and changes no table,
    and from then on the views that write answer with the redirect to the
    login page and leave every table as it is. *)
Theorem logout_ends_access
    (hash : string -> string) (w : World) (req : Request)
    (today new_status : string) (id : Z) (cu : User.t) :
  current_user w = Some cu ->
  let out := fst (logout w) in
  current_user out = None
  /\ db out = db w
  /\ snd (logout w) = Redirect "login"
  /\ inject_notifications out today = []
  /\ sent_to_login w (update_status out req today id new_status)
  /\ sent_to_login w (delete_user out id)
  /\ sent_to_login w (delete_task out req id)
  /\ sent_to_login w (edit_user out req id)
  /\ sent_to_login w (clear_leader_tasks out req)
  /\ sent_to_login w (clear_data out)
  /\ sent_to_login w (assign_task out req)
  /\ sent_to_login w (schedule_meeting out req)
  /\ sent_to_login w (log_meeting out req today)
  /\ sent_to_login w (add_department out req)
  /\ sent_to_login w (manage_staff hash out req today)
  /\ sent_to_login w (settings hash out req today).
Proof.
  intros Hcu. cbv zeta. unfold logout.
  rewrite (login_required_some _ _ _ Hcu). simpl fst. simpl snd.
  assert (Hnone : current_user (logout_user w) = None) by reflexivity.
  split; [exact Hnone|]. split; [reflexivity|]. split; [reflexivity|].
  split; [unfold inject_notifications; now rewrite Hnone|].
  unfold update_status, delete_user, delete_task, edit_user,
    clear_leader_tasks, clear_data, assign_task, schedule_meeting,
    log_meeting, add_department, manage_staff, settings.
  unfold sent_to_login.
  rewrite ?(login_required_none _ _ Hnone). simpl. repeat split.
Qed.

Lemma logout_ends_access_witness :
  let w := Demo.logged_in Demo.data Demo.admin in
  current_user w = Some Demo.admin
  /\ users (db (fst (delete_user w 3))) <> users (db w)
  /\ db (fst (delete_user (fst (logout w)) 3)) = db w.
Proof.
  split; [reflexivity|]. split; [discriminate|].
  destruct (logout_ends_access Sample.hash
              (Demo.logged_in Demo.data Demo.admin) (Demo.get [])
              Demo.today "Completed" 3 Demo.admin eq_refl)
    as (_ & _ & _ & _ & _ & Hdel & _).
  exact (proj1 Hdel).
Defined.

(** X25: the role checks: a user who is neither Leader nor Admin gets 403
    from the Leader dashboard; a user who is not Admin gets 403 from
    [manage_staff] and [add_department], whatever the form holds, and is
    sent from the Admin dashboard to the Employee dashboard; none of these
    changes anything. *)
Theorem role_checks_refuse
    (hash : string -> string) (w : World) (req : Request) (today : string)
    (cu : User.t) :
  current_user w = Some cu ->
  User.role cu <> "Admin" ->
  manage_staff hash w req today = (w, Abort 403)
  /\ add_department w req = (w, Abort 403)
  /\ admin_dashboard w today = (w, Redirect "employee_dashboard")
  /\ (User.role cu <> "Leader" -> leader_dashboard w today = (w, Abort 403)).
Proof.
  intros Hcu Hadmin. apply String.eqb_neq in Hadmin.
  unfold manage_staff, add_department, admin_dashboard, leader_dashboard.
  rewrite !(login_required_some _ _ _ Hcu), Hadmin. simpl.
  repeat split. intros Hleader. apply String.eqb_neq in Hleader.
  now rewrite Hleader.
Qed.

Lemma role_checks_refuse_witness :
  let w := Demo.logged_in Demo.data Demo.eve in
  current_user w = Some Demo.eve
  /\ User.role Demo.eve <> "Admin"
  /\ manage_staff Sample.hash w Sample.staff_form Demo.today = (w, Abort 403)
  /\ leader_dashboard w Demo.today = (w, Abort 403).
Proof.
  split; [reflexivity|]. split; [discriminate|].
  destruct (role_checks_refuse Sample.hash
              (Demo.logged_in Demo.data Demo.eve) Sample.staff_form
              Demo.today Demo.eve eq_refl ltac:(discriminate))
    as (Hstaff & _ & _ & Hleader).
  split; [exact Hstaff | exact (Hleader ltac:(discriminate))].
Defined.

(** ** Clearing notifications, and logging in again *)

Lemma find_username_self (l : list User.t) (cu : User.t) :
  NoDup (map User.username l) ->
  In cu l ->
  find (fun u => User.username u =? User.username cu) l = Some cu.
Proof.
  intros Hnd Hin.
  destruct (find (fun u => User.username u =? User.username cu) l)
    as [x|] eqn:E.
  - apply find_some in E. destruct E as [Hx Hname].
    apply String.eqb_eq in Hname.
    now rewrite (NoDup_map_inj User.username l x cu Hnd Hx Hin Hname).
  - apply (find_none _ _ E) in Hin. simpl in Hin.
    now rewrite String.eqb_refl in Hin.
Qed.

(** X26: clearing the notifications lasts until the next login: after
    [clear_notifications] the list is empty, and once the same user has
    logged in again with a password that checks, the list is what it was
    before the clearing. *)
Theorem login_brings_notifications_back
    (check : string -> string -> bool) (w : World) (req attempt : Request)
    (today : string) (cu : User.t) (password : string) :
  current_user w = Some cu ->
  notifications_cleared (session w) = false ->
  NoDup (map User.username (users (db w))) ->
  method attempt = "POST" ->
  form_item attempt "username" = Py.Ok (User.username cu) ->
  form_item attempt "password" = Py.Ok password ->
  check (User.password_hash cu) password = true ->
  inject_notifications (fst (clear_notifications w req)) today = []
  /\ current_user
       (fst (login check (fst (clear_notifications w req)) attempt today))
     = Some cu
  /\ inject_notifications
       (fst (login check (fst (clear_notifications w req)) attempt today))
       today
     = inject_notifications w today.
Proof.
  intros Hcu Hcl Hnd Hpost Huser Hpw Hcheck.
  pose proof (current_user_get _ _ Hcu) as Hget.
  destruct (query_get_pk _ _ _ _ Hget) as [Hin _].
  pose proof (find_username_self _ _ Hnd Hin) as Hfind.
  unfold clear_notifications. rewrite (login_required_some _ _ _ Hcu).
  simpl fst. split.
  - unfold inject_notifications.
    match goal with
    | |- context [current_user ?w'] =>
        assert (Hcu' : current_user w' = Some cu) by exact Hcu
    end.
    now rewrite Hcu'.
  - unfold login. rewrite Hpost, Huser. simpl users. rewrite Hfind, Hpw, Hcheck.
    assert (Hw2 : forall w2,
               db w2 = db w ->
               user_id (session w2) = Some (User.id cu) ->
               notifications_cleared (session w2) = false ->
               current_user w2 = Some cu
               /\ inject_notifications w2 today = inject_notifications w today).
    { intros w2 Hdb Hid Hflag.
      assert (Hcu2 : current_user w2 = Some cu)
        by (unfold current_user; now rewrite Hid, Hdb).
      split; [exact Hcu2|].
      rewrite (inject_notifications_eq _ _ _ Hcu2 Hflag),
        (inject_notifications_eq _ _ _ Hcu Hcl). now rewrite Hdb. }
    destruct (User.role cu =? "Admin");
      [|destruct (User.role cu =? "Leader")]; apply Hw2; reflexivity.
Qed.

Lemma login_brings_notifications_back_witness :
  let d := with_users Demo.data
             [Demo.admin; Demo.lee;
              User.Build 3 "eve" (Sample.hash "tulip") "Eve Employee"
                "Employee" "Math" "Lecturer"] in
  let w := Demo.logged_in d Demo.eve in
  let w1 := fst (clear_notifications w (Demo.get [])) in
  let w2 := fst (login Sample.check w1 (Sample.credentials "eve" "tulip")
                   Demo.today) in
  inject_notifications w Demo.today <> []
  /\ inject_notifications w1 Demo.today = []
  /\ inject_notifications w2 Demo.today = inject_notifications w Demo.today.
Proof.
  split; [discriminate|].
  assert (Hnames : NoDup (map User.username
                            [Demo.admin; Demo.lee;
                             User.Build 3 "eve" (Sample.hash "tulip")
                               "Eve Employee" "Employee" "Math" "Lecturer"])).
  { simpl. repeat constructor; simpl; intuition discriminate. }
  destruct (login_brings_notifications_back Sample.check
              (Demo.logged_in
                 (with_users Demo.data
                    [Demo.admin; Demo.lee;
                     User.Build 3 "eve" (Sample.hash "tulip") "Eve Employee"
                       "Employee" "Math" "Lecturer"]) Demo.eve)
              (Demo.get []) (Sample.credentials "eve" "tulip") Demo.today
              (User.Build 3 "eve" (Sample.hash "tulip") "Eve Employee"
                 "Employee" "Math" "Lecturer") "tulip"
              eq_refl eq_refl Hnames eq_refl eq_refl eq_refl eq_refl)
    as (Hempty & _ & Hback).
  split; [exact Hempty | exact Hback].
Defined.

(** ** A new task on the assignee's side *)

(** X27: a task just assigned shows up for its assignee at once: it is in
    the task list of their Employee dashboard, and while their cleared flag
    is off they get ["OVERDUE: <title>"] when the deadline is before today
    and ["DUE TODAY: <title>"] when it is today. *)
Theorem assigned_task_is_announced
    (w : World) (req : Request) (today : string) (cu : User.t)
    (title assignee deadline : string) (viewer : Session) (v : User.t) :
  current_user w = Some cu ->
  form_item req "title" = Py.Ok title ->
  form_item req "assignee" = Py.Ok assignee ->
  form_item req "deadline" = Py.Ok deadline ->
  current_user (seen_by w viewer) = Some v ->
  User.username v = assignee ->
  exists t p,
    tasks (db (fst (assign_task w req))) = tasks (db w) ++ [t]
    /\ snd (employee_dashboard (seen_by (fst (assign_task w req)) viewer) today)
       = Render "dashboard_employee.html" p
           (inject_notifications (seen_by (fst (assign_task w req)) viewer)
              today)
    /\ In t (ep_tasks p)
    /\ (notifications_cleared viewer = false ->
        String.ltb deadline today = true ->
        In ("OVERDUE: " ++ title)%string
          (inject_notifications (seen_by (fst (assign_task w req)) viewer)
             today))
    /\ (notifications_cleared viewer = false ->
        deadline = today ->
        In ("DUE TODAY: " ++ title)%string
          (inject_notifications (seen_by (fst (assign_task w req)) viewer)
             today)).
Proof.
  intros Hcu Htitle Hass Hdl Hv Hname. unfold assign_task.
  rewrite (login_required_some _ _ _ Hcu), Hass, Htitle, Hdl.
  cbv beta iota zeta. unfold Py.bind. simpl fst.
  match goal with
  | |- context [tasks (db w) ++ [?x]] => set (t := x)
  end.
  set (w' := seen_by (flash (commit w (with_tasks (db w) (tasks (db w) ++ [t])))
                        "Task Assigned!" "success") viewer).
  assert (Hv' : current_user w' = Some v) by exact Hv.
  destruct (employee_dashboard_page w' today v Hv')
    as (p & Hp & _ & _ & _ & Htasks).
  assert (Hopen :
            In t (filter (fun t => negb (Task.status t =? "Completed"))
                    (filter (fun t => Task.assignee t =? User.username v)
                       (tasks (db w'))))).
  { apply filter_In. split; [|reflexivity]. apply filter_In. split.
    - simpl. apply in_or_app. right. now left.
    - simpl. rewrite Hname. apply String.eqb_refl. }
  exists t, p. split; [reflexivity|]. rewrite Hp.
  split; [reflexivity|]. split; [|split].
  - rewrite Htasks. apply filter_In in Hopen. exact (proj1 Hopen).
  - intros Hcl Hlt. rewrite (inject_notifications_eq _ _ _ Hv' Hcl).
    apply in_or_app. left. apply in_flat_map. exists t.
    split; [exact Hopen|]. unfold task_alert. simpl. rewrite Hlt. now left.
  - intros Hcl Heq. rewrite (inject_notifications_eq _ _ _ Hv' Hcl).
    apply in_or_app. left. apply in_flat_map. exists t.
    split; [exact Hopen|]. unfold task_alert. simpl. subst deadline.
    rewrite string_ltb_irrefl, String.eqb_refl. now left.
Qed.

Lemma assigned_task_is_announced_witness :
  let w := Demo.logged_in Demo.data Demo.lee in
  let viewer := session (Demo.logged_in Demo.data Demo.eve) in
  current_user w = Some Demo.lee
  /\ current_user (seen_by w viewer) = Some Demo.eve
  /\ String.ltb "2024-04-01" Demo.today = true
  /\ In "OVERDUE: Grades"
       (inject_notifications
          (seen_by (fst (assign_task w Sample.task_form)) viewer) Demo.today).
Proof.
  split; [reflexivity|]. split; [reflexivity|]. split; [reflexivity|].
  destruct (assigned_task_is_announced
              (Demo.logged_in Demo.data Demo.lee) Sample.task_form Demo.today
              Demo.lee "Grades" "eve" "2024-04-01"
              (session (Demo.logged_in Demo.data Demo.eve)) Demo.eve
              eq_refl eq_refl eq_refl eq_refl eq_refl eq_refl)
    as (t & p & _ & _ & _ & Hover & _).
  exact (Hover eq_refl eq_refl).
Defined.

(** ** Renaming a user *)

Lemma query_get_update_user (table : list User.t) (i : Z) (u r : User.t) :
  query_get User.id table i = Some u ->
  User.id r = i ->
  query_get User.id (update_user table r) i = Some r.
Proof.
  unfold query_get, update_user. intros Hfind Hid. subst i.
  induction table as [|x table IH]; simpl in *; [discriminate|].
  destruct (User.id x =? User.id r)%Z eqn:E.
  - now rewrite Z.eqb_refl.
  - rewrite E. now apply IH.
Qed.

(** X28: tasks name their assigner by full name, and [edit_user] does not
    follow up on them: when a Leader or Admin is given a full name that no
    task carries as assigner, the Task table is unchanged and yet their
    Leader dashboard lists no assigned task, with a total and a rate of 0. *)
Theorem renaming_orphans_assigned_tasks
    (w : World) (req : Request) (today : string) (cu : User.t)
    (fullname role department : string) :
  current_user w = Some cu ->
  form_item req "fullname" = Py.Ok fullname ->
  form_item req "role" = Py.Ok role ->
  form_item req "department" = Py.Ok department ->
  role = "Leader" \/ role = "Admin" ->
  Forall (fun t => Task.assigner t <> fullname) (tasks (db w)) ->
  tasks (db (fst (edit_user w req (User.id cu)))) = tasks (db w)
  /\ exists p,
      snd (leader_dashboard (fst (edit_user w req (User.id cu))) today)
      = Render "dashboard_leader.html" p
          (inject_notifications (fst (edit_user w req (User.id cu))) today)
      /\ User.full_name (lp_user p) = fullname
      /\ lp_assigned_tasks p = []
      /\ lp_total p = 0%Z
      /\ lp_rate p = 0%Z.
Proof.
  intros Hcu Hf Hr Hd Hrole Hnone.
  pose proof (current_user_get _ _ Hcu) as Hget.
  unfold edit_user.
  rewrite (login_required_some _ _ _ Hcu), Hget, Hf, Hr, Hd.
  cbv beta iota zeta. unfold Py.bind. simpl fst.
  split; [reflexivity|].
  set (u' := User.Build (User.id cu) (User.username cu)
               (User.password_hash cu) fullname role department
               (User.designation cu)).
  set (w' := commit w (with_users (db w) (update_user (users (db w)) u'))).
  assert (Hcu' : current_user w' = Some u').
  { unfold current_user in *. simpl.
    destruct (user_id (session w)) as [i|]; [|discriminate].
    destruct (query_get_pk _ _ _ _ Hcu) as [_ Hid].
    now apply (query_get_update_user _ _ cu). }
  unfold leader_dashboard.
  rewrite (login_required_some _ _ _ Hcu').
  assert (Hrole' : User.role u' = "Leader" \/ User.role u' = "Admin")
    by exact Hrole.
  rewrite (role_leader_or_admin _ Hrole').
  assert (Hempty : filter (fun t => Task.assigner t =? User.full_name u')
                     (tasks (db w')) = []).
  { simpl. clear - Hnone.
    induction Hnone as [|t l Ht _ IH]; simpl; [reflexivity|].
    apply String.eqb_neq in Ht. now rewrite Ht. }
  rewrite Hempty. simpl. eexists. split; [reflexivity|]. simpl. auto.
Qed.

Lemma renaming_orphans_assigned_tasks_witness :
  let w := Demo.logged_in Demo.fifty_tasks Demo.lee in
  let req := Demo.post [("fullname", "Lee Lead"); ("role", "Leader");
                        ("department", "Physics")] in
  current_user w = Some Demo.lee
  /\ option_map lp_total (rendered (snd (leader_dashboard w Demo.today)))
     = Some 50%Z
  /\ exists p,
      snd (leader_dashboard (fst (edit_user w req 2)) Demo.today)
      = Render "dashboard_leader.html" p
          (inject_notifications (fst (edit_user w req 2)) Demo.today)
      /\ lp_total p = 0%Z.
Proof.
  split; [reflexivity|]. split; [vm_compute; reflexivity|].
  assert (Hnone : Forall (fun t => Task.assigner t <> "Lee Lead")
                    (tasks Demo.fifty_tasks)).
  { assert (Hb : forallb (fun t => negb (Task.assigner t =? "Lee Lead"))
                   (tasks Demo.fifty_tasks) = true) by reflexivity.
    rewrite forallb_forall in Hb. apply Forall_forall. intros t Hin.
    apply String.eqb_neq, negb_true_iff. now apply Hb. }
  destruct (renaming_orphans_assigned_tasks
              (Demo.logged_in Demo.fifty_tasks Demo.lee)
              (Demo.post [("fullname", "Lee Lead"); ("role", "Leader");
                          ("department", "Physics")])
              Demo.today Demo.lee "Lee Lead" "Leader" "Physics"
              eq_refl eq_refl eq_refl eq_refl (or_introl eq_refl) Hnone)
    as (_ & p & Hp & _ & _ & Htotal & _).
  exists p. split; [exact Hp | exact Htotal].
Defined.
